(** * Certificate issuance and verification client: a shallow embedding

    The React client of the diploma application, embedded function by
    function: the axios wrappers of [lib/api.js], the route table of
    [App.js] and the event handlers of the pages.  JavaScript objects used
    as dictionaries (HTTP headers, [localStorage]) are finite maps, arrays
    are lists, and an [async] handler is a small tree of HTTP requests
    whose continuation receives the outcome of the request. *)

From Stdlib Require Import Ascii String ZArith List Bool Lia QArith Qround.
From stdpp Require Import base gmap strings list pretty.

Open Scope string_scope.

(** ** JavaScript truthiness of the values the client tests *)

Module Js.

(** [s ? a : b] and [!s] on a string: only the empty string is falsy. *)
Definition truthy (s : string) : bool := negb (s =? "").

(** The same test on a value that may be [null]. *)
Definition truthy_opt (o : option string) : bool :=
  match o with
  | Some s => truthy s
  | None => false
  end.

End Js.

(** ** HTTP requests as axios issues them *)

Module Http.

Inductive method := GET | POST | PUT | DELETE.

(** JSON payloads.  Numbers are integers wherever the client builds them. *)
#[local] Unset Elimination Schemes.
Inductive json :=
| JNull
| JBool (b : bool)
| JNum (n : Z)
| JStr (s : string)
| JArr (items : list json)
| JObj (fields : list (string * json)).
#[local] Set Elimination Schemes.

Inductive form_value :=
| FormString (s : string)
| FormFile (name : string).

Inductive body :=
| NoBody
| JsonBody (data : json)
| FormData (entries : list (string * form_value)).

(** A request is what the call site hands to axios: no default header and
    no interceptor is configured in the client's sources. *)
Record request := {
  req_method : method;
  req_url : string;
  req_headers : gmap string string;
  req_body : body;
  req_responseType : option string;
}.

(** The second/third argument of [axios.get] / [axios.post]. *)
Record axios_config := {
  headers : gmap string string;
  responseType : option string;
}.

Definition no_config : axios_config :=
  {| headers := ∅; responseType := None |}.

Definition with_headers (h : gmap string string) : axios_config :=
  {| headers := h; responseType := None |}.

Definition get (url : string) (c : axios_config) : request :=
  {| req_method := GET; req_url := url; req_headers := headers c;
     req_body := NoBody; req_responseType := responseType c |}.

Definition post (url : string) (b : body) (c : axios_config) : request :=
  {| req_method := POST; req_url := url; req_headers := headers c;
     req_body := b; req_responseType := responseType c |}.

Definition put (url : string) (b : body) (c : axios_config) : request :=
  {| req_method := PUT; req_url := url; req_headers := headers c;
     req_body := b; req_responseType := responseType c |}.

Definition delete_ (url : string) (c : axios_config) : request :=
  {| req_method := DELETE; req_url := url; req_headers := headers c;
     req_body := NoBody; req_responseType := responseType c |}.

(** What a rejected axios promise exposes to the handlers:
    [err.response?.status] and [err.response?.data?.detail]. *)
Record axios_error := {
  err_status : option Z;
  err_detail : option string;
}.

Inductive outcome (D : Type) :=
| Fulfilled (data : D)
| Rejected (err : axios_error).
Arguments Fulfilled {D} data.
Arguments Rejected {D} err.

(** An [async] handler: it finishes with a value, or awaits one request
    and goes on with the outcome.  [D] is the type of [response.data]. *)
Inductive prog (D A : Type) :=
| Ret (a : A)
| Await (r : request) (k : outcome D -> prog D A).
Arguments Ret {D A} a.
Arguments Await {D A} r k.

(** Running a handler against a server gives the requests it sent, in
    order, and its result. *)
Fixpoint run {D A} (server : request -> outcome D) (p : prog D A)
  : list request * A :=
  match p with
  | Ret a => ([], a)
  | Await r k =>
      let '(sent, a) := run server (k (server r)) in (r :: sent, a)
  end.

Definition trace {D A} (server : request -> outcome D) (p : prog D A)
  : list request := fst (run server p).

Definition result {D A} (server : request -> outcome D) (p : prog D A)
  : A := snd (run server p).

End Http.

(** ** What the browser provides *)

Record browser := {
  REACT_APP_BACKEND_URL : string;      (* process.env *)
  localStorage : gmap string string;   (* getItem k = localStorage !! k *)
  location_origin : string;            (* window.location.origin *)
  url_encode : string -> string;       (* encoding done by URLSearchParams *)
}.

(** ** lib/api.js *)

Module Api.
Import Http.

Section WithBrowser.
Variable w : browser.

Definition API : string := REACT_APP_BACKEND_URL w +:+ "/api".

Definition getAuthHeader : gmap string string :=
  match localStorage w !! "token" with
  | Some token =>
      if Js.truthy token
      then {[ "Authorization" := "Bearer " +:+ token ]}
      else ∅
  | None => ∅
  end.

Definition auth : axios_config := with_headers getAuthHeader.

Definition auth_blob : axios_config :=
  {| headers := getAuthHeader; responseType := Some "blob" |}.

Definition multipart : axios_config :=
  with_headers (<["Content-Type" := "multipart/form-data"]> getAuthHeader).

Definition empty_object : body := JsonBody (JObj []).

(** [URLSearchParams.toString] on the appended pairs. *)
Fixpoint queryString (params : list (string * string)) : string :=
  match params with
  | [] => ""
  | [(k, v)] => url_encode w k +:+ "=" +:+ url_encode w v
  | (k, v) :: rest =>
      url_encode w k +:+ "=" +:+ url_encode w v +:+ "&" +:+ queryString rest
  end.

Record diploma_filters := {
  filter_course_id : option string;
  filter_status : option string;
  filter_search : option string;
}.

Definition append_if (k : string) (v : option string)
  : list (string * string) :=
  match v with
  | Some s => if Js.truthy s then [(k, s)] else []
  | None => []
  end.

(** The client's operations, one constructor per function of [api.js]. *)
Inductive operation :=
| auth_login (email password : string)
| auth_register (data : json)
| auth_getMe
| courses_getAll
| courses_getById (id : string)
| courses_create (data : json)
| courses_update (id : string) (data : json)
| courses_delete (id : string)
| courses_downloadAllDiplomas (courseId : string)
| templates_getAll
| templates_getById (id : string)
| templates_create (data : json)
| templates_update (id : string) (data : json)
| templates_delete (id : string)
| templates_duplicate (id : string)
| recipients_getAll (courseId : option string)
| recipients_create (data : json)
| recipients_delete (id : string)
| recipients_bulkImport (courseId : string) (file : string)
| recipients_downloadTemplate
| diplomas_getAll (filters : diploma_filters)
| diplomas_getById (id : string)
| diplomas_generate (data : json)
| diplomas_revoke (id : string)
| diplomas_reactivate (id : string)
| diplomas_delete (id : string)
| diplomas_getData (id : string)
| diplomas_downloadPdf (id : string)
| diplomas_downloadPdfPublic (certificateId : string)
| diplomas_sendEmail (id : string)
| diplomas_sendBulkEmail (diplomaIds : list string)
| settings_get
| settings_update (data : json)
| settings_testEmail
| settings_getPublic
| emailTemplates_getAll
| emailTemplates_get (id : string)
| emailTemplates_create (data : json)
| emailTemplates_update (id : string) (data : json)
| emailTemplates_delete (id : string)
| emailTemplates_duplicate (id : string)
| emailTemplates_preview (data : json)
| verify_verify (certificateId : string)
| dashboard_getStats
| scanLogs_getAll (diplomaId : option string)
| scanLogs_clear
| upload_upload (file : string)
| seed_seed.

Definition perform (op : operation) : request :=
  match op with
  | auth_login email password =>
      post (API +:+ "/auth/login")
        (JsonBody (JObj [("email", JStr email); ("password", JStr password)]))
        no_config
  | auth_register data => post (API +:+ "/auth/register") (JsonBody data) no_config
  | auth_getMe => get (API +:+ "/auth/me") auth
  | courses_getAll => get (API +:+ "/courses") auth
  | courses_getById id => get (API +:+ "/courses/" +:+ id) auth
  | courses_create data => post (API +:+ "/courses") (JsonBody data) auth
  | courses_update id data => put (API +:+ "/courses/" +:+ id) (JsonBody data) auth
  | courses_delete id => delete_ (API +:+ "/courses/" +:+ id) auth
  | courses_downloadAllDiplomas courseId =>
      get (API +:+ "/courses/" +:+ courseId +:+ "/download-all-diplomas") auth_blob
  | templates_getAll => get (API +:+ "/templates") auth
  | templates_getById id => get (API +:+ "/templates/" +:+ id) auth
  | templates_create data => post (API +:+ "/templates") (JsonBody data) auth
  | templates_update id data => put (API +:+ "/templates/" +:+ id) (JsonBody data) auth
  | templates_delete id => delete_ (API +:+ "/templates/" +:+ id) auth
  | templates_duplicate id =>
      post (API +:+ "/templates/" +:+ id +:+ "/duplicate") empty_object auth
  | recipients_getAll courseId =>
      let params :=
        match courseId with
        | Some c => if Js.truthy c then "?course_id=" +:+ c else ""
        | None => ""
        end in
      get (API +:+ "/recipients" +:+ params) auth
  | recipients_create data => post (API +:+ "/recipients") (JsonBody data) auth
  | recipients_delete id => delete_ (API +:+ "/recipients/" +:+ id) auth
  | recipients_bulkImport courseId file =>
      post (API +:+ "/recipients/bulk")
        (FormData [("course_id", FormString courseId); ("file", FormFile file)])
        multipart
  | recipients_downloadTemplate => get (API +:+ "/recipients/csv-template") auth_blob
  | diplomas_getAll filters =>
      let params :=
        (append_if "course_id" (filter_course_id filters)
         ++ append_if "status" (filter_status filters)
         ++ append_if "search" (filter_search filters))%list in
      let qs := queryString params in
      get (API +:+ "/diplomas" +:+ (if Js.truthy qs then "?" +:+ qs else "")) auth
  | diplomas_getById id => get (API +:+ "/diplomas/" +:+ id) auth
  | diplomas_generate data => post (API +:+ "/diplomas/generate") (JsonBody data) auth
  | diplomas_revoke id =>
      post (API +:+ "/diplomas/" +:+ id +:+ "/revoke") empty_object auth
  | diplomas_reactivate id =>
      post (API +:+ "/diplomas/" +:+ id +:+ "/reactivate") empty_object auth
  | diplomas_delete id => delete_ (API +:+ "/diplomas/" +:+ id) auth
  | diplomas_getData id => get (API +:+ "/diplomas/" +:+ id +:+ "/data") no_config
  | diplomas_downloadPdf id =>
      get (API +:+ "/diplomas/" +:+ id +:+ "/download-pdf") auth_blob
  | diplomas_downloadPdfPublic certificateId =>
      get (API +:+ "/diplomas/by-certificate/" +:+ certificateId +:+ "/download-pdf")
        {| headers := ∅; responseType := Some "blob" |}
  | diplomas_sendEmail id =>
      post (API +:+ "/diplomas/" +:+ id +:+ "/send-email") empty_object auth
  | diplomas_sendBulkEmail diplomaIds =>
      post (API +:+ "/diplomas/send-bulk-email")
        (JsonBody (JObj [("diploma_ids", JArr (map JStr diplomaIds))])) auth
  | settings_get => get (API +:+ "/settings") auth
  | settings_update data => put (API +:+ "/settings") (JsonBody data) auth
  | settings_testEmail => post (API +:+ "/settings/test-email") empty_object auth
  | settings_getPublic => get (API +:+ "/settings/public") no_config
  | emailTemplates_getAll => get (API +:+ "/email-templates") auth
  | emailTemplates_get id => get (API +:+ "/email-templates/" +:+ id) auth
  | emailTemplates_create data => post (API +:+ "/email-templates") (JsonBody data) auth
  | emailTemplates_update id data =>
      put (API +:+ "/email-templates/" +:+ id) (JsonBody data) auth
  | emailTemplates_delete id => delete_ (API +:+ "/email-templates/" +:+ id) auth
  | emailTemplates_duplicate id =>
      post (API +:+ "/email-templates/" +:+ id +:+ "/duplicate") empty_object auth
  | emailTemplates_preview data =>
      post (API +:+ "/email-templates/preview") (JsonBody data) auth
  | verify_verify certificateId => get (API +:+ "/verify/" +:+ certificateId) no_config
  | dashboard_getStats => get (API +:+ "/dashboard") auth
  | scanLogs_getAll diplomaId =>
      let params :=
        match diplomaId with
        | Some d => if Js.truthy d then "?diploma_id=" +:+ d else ""
        | None => ""
        end in
      get (API +:+ "/scan-logs" +:+ params) auth
  | scanLogs_clear => delete_ (API +:+ "/scan-logs/clear") auth
  | upload_upload file =>
      post (API +:+ "/upload") (FormData [("file", FormFile file)]) multipart
  | seed_seed => post (API +:+ "/seed") NoBody no_config
  end.

End WithBrowser.
End Api.

(** ** Requests the pages send with axios directly *)

Module Direct.
Import Http.

Section WithBrowser.
Variable w : browser.

(** [const API = process.env.REACT_APP_BACKEND_URL] in the pages. *)
Definition API : string := REACT_APP_BACKEND_URL w.

(** [UsersPage.js] and [SettingsPage.js] each declare this helper again. *)
Definition getAuthHeader : gmap string string :=
  match localStorage w !! "token" with
  | Some token =>
      if Js.truthy token
      then {[ "Authorization" := "Bearer " +:+ token ]}
      else ∅
  | None => ∅
  end.

Inductive operation :=
| users_fetch
| users_update (userId : string) (updateData : json)
| users_create (formData : json)
| users_delete (userId : string)
| settingsPage_fetch
| settingsPage_upload (file : string)
| settingsPage_save (settings : json)
| settingsPage_testEmail
| login_fetchSettings
| login_checkFirstUser.

Definition perform (op : operation) : request :=
  match op with
  | users_fetch => get (API +:+ "/api/users") (with_headers getAuthHeader)
  | users_update userId updateData =>
      put (API +:+ "/api/users/" +:+ userId) (JsonBody updateData)
        (with_headers getAuthHeader)
  | users_create formData =>
      post (API +:+ "/api/users") (JsonBody formData) (with_headers getAuthHeader)
  | users_delete userId =>
      delete_ (API +:+ "/api/users/" +:+ userId) (with_headers getAuthHeader)
  | settingsPage_fetch => get (API +:+ "/api/settings") (with_headers getAuthHeader)
  | settingsPage_upload file =>
      post (API +:+ "/api/upload") (FormData [("file", FormFile file)])
        (with_headers (<["Content-Type" := "multipart/form-data"]> getAuthHeader))
  | settingsPage_save settings =>
      put (API +:+ "/api/settings") (JsonBody settings) (with_headers getAuthHeader)
  | settingsPage_testEmail =>
      post (API +:+ "/api/settings/test-email") (JsonBody (JObj []))
        (with_headers getAuthHeader)
  | login_fetchSettings => get (API +:+ "/api/settings/public") no_config
  | login_checkFirstUser => get (API +:+ "/api/check-first-user") no_config
  end.

(** [Layout.fetchSettings]: the request is sent only under [if (token)]. *)
Definition layout_fetchSettings : option request :=
  match localStorage w !! "token" with
  | Some token =>
      if Js.truthy token
      then Some (get (API +:+ "/api/settings")
                   (with_headers {[ "Authorization" := "Bearer " +:+ token ]}))
      else None
  | None => None
  end.

End WithBrowser.
End Direct.

(** ** Every request of the client *)

Module Client.
Import Http.

(** A call the client can make: a function of [api.js], or a request a
    page sends on its own. *)
Inductive call :=
| ApiCall (op : Api.operation)
| PageCall (op : Direct.operation).

Definition request_of (w : browser) (c : call) : request :=
  match c with
  | ApiCall op => Api.perform w op
  | PageCall op => Direct.perform w op
  end.

(** The operations behind the administrator's pages: courses, templates,
    recipients, the diploma actions, settings, email templates, users,
    scan logs, uploads and the dashboard. *)
Definition is_admin (c : call) : bool :=
  match c with
  | ApiCall op =>
      match op with
      | Api.auth_login _ _ | Api.auth_register _ | Api.auth_getMe
      | Api.diplomas_getData _ | Api.diplomas_downloadPdfPublic _
      | Api.settings_getPublic | Api.verify_verify _ | Api.seed_seed => false
      | _ => true
      end
  | PageCall op =>
      match op with
      | Direct.login_fetchSettings | Direct.login_checkFirstUser => false
      | _ => true
      end
  end.

(** The public operations: login, register, verify, the public settings,
    the public PDF download by certificate, the diploma data and seed. *)
Definition is_public (c : call) : bool :=
  match c with
  | ApiCall op =>
      match op with
      | Api.auth_login _ _ | Api.auth_register _
      | Api.diplomas_getData _ | Api.diplomas_downloadPdfPublic _
      | Api.settings_getPublic | Api.verify_verify _ | Api.seed_seed => true
      | _ => false
      end
  | PageCall op =>
      match op with
      | Direct.login_fetchSettings => true
      | _ => false
      end
  end.

Definition authorization (r : request) : option string :=
  req_headers r !! "Authorization".

End Client.

(** ** App.js: the route table and the guard around protected pages *)

Module App.

Inductive page :=
| Login | Register | Dashboard | Courses | CourseForm | Templates
| TemplateBuilder | Recipients | GenerateDiplomas | Diplomas | VerifyPage
| ScanLogs | UsersPage | SettingsPage | EmailTemplatesPage.

(** The [element] prop of a [<Route>]. *)
Inductive element :=
| Bare (p : page)                 (* <P /> *)
| ProtectedRoute (child : page)   (* <ProtectedRoute><P /></ProtectedRoute> *)
| Navigate (to : string).         (* <Navigate to=... replace /> *)

Inductive segment :=
| Static (s : string)
| Param (name : string)
| Splat.

Record route := Route { path : list segment; elem : element }.

Definition AppRoutes : list route := [
  (* Public routes *)
  Route [Static "login"] (Bare Login);
  Route [Static "register"] (Bare Register);
  Route [Static "verify"; Param "certificateId"] (Bare VerifyPage);
  (* Protected routes *)
  Route [] (ProtectedRoute Dashboard);
  Route [Static "courses"] (ProtectedRoute Courses);
  Route [Static "courses"; Static "new"] (ProtectedRoute CourseForm);
  Route [Static "courses"; Param "id"; Static "edit"] (ProtectedRoute CourseForm);
  Route [Static "templates"] (ProtectedRoute Templates);
  Route [Static "templates"; Static "new"] (ProtectedRoute TemplateBuilder);
  Route [Static "templates"; Param "id"; Static "edit"] (ProtectedRoute TemplateBuilder);
  Route [Static "recipients"] (ProtectedRoute Recipients);
  Route [Static "generate"] (ProtectedRoute GenerateDiplomas);
  Route [Static "diplomas"] (ProtectedRoute Diplomas);
  Route [Static "scan-logs"] (ProtectedRoute ScanLogs);
  Route [Static "users"] (ProtectedRoute UsersPage);
  Route [Static "settings"] (ProtectedRoute SettingsPage);
  Route [Static "email-templates"] (ProtectedRoute EmailTemplatesPage);
  (* Catch all *)
  Route [Splat] (Navigate "/")
].

(** *** Matching a location, as the router library does it

    The pathname is cut at its slashes (the leading one and trailing ones
    are dropped); a static segment is compared without regard to case, a
    parameter takes one non-empty segment, the splat takes the rest. *)

Definition lower_ascii (c : ascii) : ascii :=
  let n := nat_of_ascii c in
  if (65 <=? n)%nat && (n <=? 90)%nat then ascii_of_nat (n + 32) else c.

Fixpoint lower (s : string) : string :=
  match s with
  | EmptyString => EmptyString
  | String c rest => String (lower_ascii c) (lower rest)
  end.

Definition is_slash (c : ascii) : bool := Ascii.eqb c "/"%char.

(** [s.split("/")] *)
Fixpoint split_slash (s : string) : list string :=
  match s with
  | EmptyString => [EmptyString]
  | String c rest =>
      if is_slash c then EmptyString :: split_slash rest
      else match split_slash rest with
           | [] => [String c EmptyString]
           | seg :: segs => String c seg :: segs
           end
  end.

Fixpoint drop_trailing_empty (l : list string) : list string :=
  match l with
  | [] => []
  | x :: rest =>
      match drop_trailing_empty rest with
      | [] => if x =? "" then [] else [x]
      | rest' => x :: rest'
      end
  end.

Definition segments (pathname : string) : list string :=
  match split_slash pathname with
  | first :: rest =>
      if first =? "" then drop_trailing_empty rest
      else drop_trailing_empty (first :: rest)
  | [] => []
  end.

Fixpoint matchPath (pat : list segment) (segs : list string)
  : option (list (string * string)) :=
  match pat, segs with
  | [], [] => Some []
  | Splat :: _, _ => Some []
  | Static s :: pat', x :: segs' =>
      if lower s =? lower x then matchPath pat' segs' else None
  | Param name :: pat', x :: segs' =>
      if x =? "" then None
      else match matchPath pat' segs' with
           | Some params => Some ((name, x) :: params)
           | None => None
           end
  | _, _ => None
  end.

(** The first route of the table that matches.  [routes_unambiguous]
    below shows that the order among the routes other than the catch-all
    plays no role. *)
Fixpoint matchRoutes (routes : list route) (segs : list string)
  : option (route * list (string * string)) :=
  match routes with
  | [] => None
  | r :: rest =>
      match matchPath (path r) segs with
      | Some params => Some (r, params)
      | None => matchRoutes rest segs
      end
  end.

Definition is_splat (r : route) : bool :=
  match path r with
  | [Splat] => true
  | _ => false
  end.

(** Two patterns that some location can satisfy together. *)
Fixpoint overlap (p q : list segment) : bool :=
  match p, q with
  | [], [] => true
  | Splat :: _, _ | _, Splat :: _ => true
  | Static s :: p', Static t :: q' => (lower s =? lower t) && overlap p' q'
  | Static _ :: p', Param _ :: q'
  | Param _ :: p', Static _ :: q'
  | Param _ :: p', Param _ :: q' => overlap p' q'
  | _, _ => false
  end.

(** *** Rendering *)

(** [useAuth()]: the signed-in user, or [null], and the loading flag. *)
Record auth_state (U : Type) := {
  user : option U;
  loading : bool;
}.
Arguments user {U} _.
Arguments loading {U} _.

Inductive view :=
| LoadingPlaceholder
| Redirect (to : string)
| InLayout (p : page)     (* <Layout>{children}</Layout> *)
| Standalone (p : page)
| Blank.                  (* no route matched *)

Definition renderProtectedRoute {U} (a : auth_state U) (children : page) : view :=
  if loading a then LoadingPlaceholder
  else match user a with
       | None => Redirect "/login"
       | Some _ => InLayout children
       end.

Definition renderElement {U} (a : auth_state U) (e : element) : view :=
  match e with
  | Bare p => Standalone p
  | ProtectedRoute child => renderProtectedRoute a child
  | Navigate to => Redirect to
  end.

Definition render {U} (a : auth_state U) (pathname : string) : view :=
  match matchRoutes AppRoutes (segments pathname) with
  | Some (r, _) => renderElement a (elem r)
  | None => Blank
  end.

(** *** Escapes in a parameter

    The router hands a page its parameters decoded: the result of
    [decodeURIComponent] on the segment, or the segment as it is when
    [decodeURIComponent] throws.  A string stands for the bytes of its
    UTF-8 form, so an escape above 127 is accepted only as part of a
    well-formed UTF-8 sequence of escapes. *)

Definition hex_digit (c : ascii) : option N :=
  let n := N_of_ascii c in
  if (48 <=? n)%N && (n <=? 57)%N then Some (n - 48)%N
  else if (65 <=? n)%N && (n <=? 70)%N then Some (n - 55)%N
  else if (97 <=? n)%N && (n <=? 102)%N then Some (n - 87)%N
  else None.

Inductive token :=
| Lit (c : ascii)       (* a character written as it is *)
| Esc (b : N).          (* [%XX] *)

Fixpoint tokens (s : string) : option (list token) :=
  match s with
  | EmptyString => Some []
  | String c rest =>
      if Ascii.eqb c "%"%char
      then match rest with
           | String h (String l rest') =>
               match hex_digit h, hex_digit l, tokens rest' with
               | Some a, Some b, Some ts => Some (Esc (16 * a + b)%N :: ts)
               | _, _, _ => None
               end
           | _ => None
           end
      else match tokens rest with
           | Some ts => Some (Lit c :: ts)
           | None => None
           end
  end.

(** What a first escaped byte announces: how many continuation bytes
    follow and the range of the first of them. *)
Definition lead (b : N) : option (nat * N * N) :=
  if (b <? 128)%N then Some (0%nat, 128, 191)%N
  else if (194 <=? b)%N && (b <=? 223)%N then Some (1%nat, 128, 191)%N
  else if (b =? 224)%N then Some (2%nat, 160, 191)%N
  else if (b =? 237)%N then Some (2%nat, 128, 159)%N
  else if (225 <=? b)%N && (b <=? 239)%N then Some (2%nat, 128, 191)%N
  else if (b =? 240)%N then Some (3%nat, 144, 191)%N
  else if (241 <=? b)%N && (b <=? 243)%N then Some (3%nat, 128, 191)%N
  else if (b =? 244)%N then Some (3%nat, 128, 143)%N
  else None.

Fixpoint utf8_ok (need : nat) (lo hi : N) (ts : list token) : bool :=
  match ts with
  | [] => Nat.eqb need 0
  | Lit _ :: rest => Nat.eqb need 0 && utf8_ok 0 128 191 rest
  | Esc b :: rest =>
      match need with
      | S n => (lo <=? b)%N && (b <=? hi)%N && utf8_ok n 128 191 rest
      | O =>
          match lead b with
          | Some (n, lo', hi') => utf8_ok n lo' hi' rest
          | None => false
          end
      end
  end.

Fixpoint bytes_of (ts : list token) : string :=
  match ts with
  | [] => EmptyString
  | Lit c :: rest => String c (bytes_of rest)
  | Esc b :: rest => String (ascii_of_N b) (bytes_of rest)
  end.

(** [None] stands for the URIError. *)
Definition decodeURIComponent (s : string) : option string :=
  match tokens s with
  | Some ts => if utf8_ok 0 128 191 ts then Some (bytes_of ts) else None
  | None => None
  end.

Definition decode_param (value : string) : string :=
  match decodeURIComponent value with
  | Some decoded => decoded
  | None => value
  end.

(** [useParams()] on the matched route. *)
Definition useParams (pathname : string) : list (string * string) :=
  match matchRoutes AppRoutes (segments pathname) with
  | Some (_, params) =>
      map (fun kv => (fst kv, decode_param (snd kv))) params
  | None => []
  end.

(** A location that some route other than the catch-all matches. *)
Definition known (pathname : string) : bool :=
  existsb (fun r => negb (is_splat r)
                    && bool_decide (is_Some (matchPath (path r) (segments pathname))))
          AppRoutes.

(** A string without a slash. *)
Fixpoint no_slash (s : string) : bool :=
  match s with
  | EmptyString => true
  | String c rest => negb (is_slash c) && no_slash rest
  end.

(** *** From a scanned link to the location

    The browser takes the pathname of a URL of this site: what follows the
    origin, up to the first [?] or [#]. *)




(** An id that a URL carries unchanged in one path segment: no slash, no
    [?] or [#], and no [%] (the router decodes escapes in parameters). *)
Fixpoint url_plain (s : string) : bool :=
  match s with
  | EmptyString => true
  | String c rest =>
      negb (is_slash c || Ascii.eqb c "?"%char || Ascii.eqb c "#"%char
            || Ascii.eqb c "%"%char)
      && url_plain rest
  end.

(** The pages listed under "Public routes". *)
Definition is_public (p : page) : bool :=
  match p with
  | Login | Register | VerifyPage => true
  | _ => false
  end.

Definition shown_page (v : view) : option page :=
  match v with
  | InLayout p | Standalone p => Some p
  | _ => None
  end.

End App.

(** ** Toast notifications ([sonner]) *)

Module Toast.

Inductive kind := success | error | info.

(** The text of a toast: a translation key, possibly with a [count], or
    a string taken from the server's reply. *)
Inductive message :=
| T (key : string)
| TCount (key : string) (count : Z)
| Raw (text : string).

Record toast := Toast { toast_kind : kind; toast_message : message }.

(** [error.response?.data?.detail || t(key)] *)
Definition detail_or (detail : option string) (key : string) : message :=
  match detail with
  | Some d => if Js.truthy d then Raw d else T key
  | None => T key
  end.

End Toast.

(** ** pages/VerifyPage.js *)

Module VerifyPage.
Import Http.

(** [response.data] of [GET /api/verify/:id]. *)
Record certificate := {
  status : string;
  recipient_name : string;
  course_name : string;
  instructor : option string;
  duration_hours : Z;
  issued_at : string;
  organization_name : string;
  certificate_id : string;
}.

(** [response.data] of [GET /api/settings/public], as far as the page
    reads it. *)
Record public_settings := {
  login_logo_url : option string;
}.

Record state := {
  data : option certificate;
  loading : bool;
  downloading : bool;
  error : option string;
  settings : option public_settings;
}.

(** The values given to [useState]. *)
Definition initial : state :=
  {| data := None; loading := true; downloading := false; error := None;
     settings := None |}.

Definition setData (d : option certificate) (st : state) : state :=
  {| data := d; loading := loading st; downloading := downloading st;
     error := error st; settings := settings st |}.

Definition setLoading (b : bool) (st : state) : state :=
  {| data := data st; loading := b; downloading := downloading st;
     error := error st; settings := settings st |}.

Definition setError (e : string) (st : state) : state :=
  {| data := data st; loading := loading st; downloading := downloading st;
     error := Some e; settings := settings st |}.

Definition setSettings (s : public_settings) (st : state) : state :=
  {| data := data st; loading := loading st; downloading := downloading st;
     error := error st; settings := Some s |}.

Section WithBrowser.
Variable w : browser.

(** What [verifyDiploma] does once the request has settled; the
    [finally] branch runs in both cases. *)
Definition settle (out : outcome (option certificate)) (st : state) : state :=
  match out with
  | Fulfilled d => setLoading false (setData d st)
  | Rejected err =>
      setLoading false
        (setError
           (match err_status err with
            | Some code => if (code =? 404)%Z then "notFound" else "failed"
            | None => "failed"
            end) st)
  end.

Definition verifyDiploma (certificateId : string) (st : state)
  : prog (option certificate) state :=
  Await (Api.perform w (Api.verify_verify certificateId))
        (fun out => Ret (settle out st)).

(** The effect that runs when the page is mounted starts two independent
    requests.  This is its verification part:
    [if (certificateId) verifyDiploma()]. *)
Definition onMount (certificateId : string) : prog (option certificate) state :=
  if Js.truthy certificateId then verifyDiploma certificateId initial
  else Ret initial.


(** And this is [fetchPublicSettings], which only fills [settings]; a
    failure is logged and otherwise ignored. *)
Definition settle_settings (out : outcome public_settings) (st : state)
  : state :=
  match out with
  | Fulfilled s => setSettings s st
  | Rejected _ => st
  end.

Definition fetchPublicSettings (st : state) : prog public_settings state :=
  Await (Api.perform w Api.settings_getPublic)
        (fun out => Ret (settle_settings out st)).

Definition verificationUrl (certificateId : string) : string :=
  location_origin w +:+ "/verify/" +:+ certificateId.

(** [data?.status === 'valid'] *)
Definition isValid (st : state) : bool :=
  match data st with
  | Some c => status c =? "valid"
  | None => false
  end.

(** [settings?.login_logo_url ? <img .../> : <default mark />] *)
Definition logo (st : state) : option string :=
  match settings st with
  | Some s =>
      match login_logo_url s with
      | Some url => if Js.truthy url then Some url else None
      | None => None
      end
  | None => None
  end.

Inductive view :=
| Loading                       (* data-testid="verify-loading" *)
| ErrorCard                     (* data-testid="verify-error" *)
| Verdict (valid : bool) (qr_value : string) (download_button : bool)
          (header_logo : option string)
                                (* data-testid="verify-page" *)
| Crash.                        (* reading a property of null data *)

Definition render (certificateId : string) (st : state) : view :=
  if loading st then Loading
  else if Js.truthy_opt (error st) then ErrorCard
  else match data st with
       | Some _ =>
           Verdict (isValid st) (verificationUrl certificateId) (isValid st)
                   (logo st)
       | None => Crash
       end.

Definition presented_valid (v : view) : bool :=
  match v with
  | Verdict true _ _ _ => true
  | _ => false
  end.



End WithBrowser.
End VerifyPage.

(** ** pages/Diplomas.js *)

Module Diplomas.
Import Http Toast.

Record diploma := {
  id : string;
  certificate_id : string;
  status : string;
  email_sent : bool;
  email_sent_at : option string;
  other : gmap string string;   (* the fields no handler below touches *)
}.

Record state := {
  diplomas : list diploma;
  selectedDiplomas : list string;
  sendingBulk : bool;
}.

Definition setDiplomas (l : list diploma) (st : state) : state :=
  {| diplomas := l; selectedDiplomas := selectedDiplomas st;
     sendingBulk := sendingBulk st |}.

Definition setSelectedDiplomas (l : list string) (st : state) : state :=
  {| diplomas := diplomas st; selectedDiplomas := l;
     sendingBulk := sendingBulk st |}.

Definition setSendingBulk (b : bool) (st : state) : state :=
  {| diplomas := diplomas st; selectedDiplomas := selectedDiplomas st;
     sendingBulk := b |}.

(** [arr.includes(x)] *)
Definition includes (l : list string) (x : string) : bool :=
  existsb (String.eqb x) l.

Definition handleSelectDiploma (diplomaId : string) (checked : bool)
  (st : state) : state :=
  if checked
  then setSelectedDiplomas (selectedDiplomas st ++ [diplomaId])%list st
  else setSelectedDiplomas
         (List.filter (fun i => negb (i =? diplomaId)) (selectedDiplomas st)) st.

Definition handleSelectAll (checked : bool) (st : state) : state :=
  if checked
  then setSelectedDiplomas (map id (diplomas st)) st
  else setSelectedDiplomas [] st.

(** The [checked] prop of the header checkbox. *)
Definition select_all_checked (st : state) : bool :=
  (length (selectedDiplomas st) =? length (diplomas st))%nat
  && (0 <? length (diplomas st))%nat.

(** [response.data] of [POST /api/diplomas/send-bulk-email]. *)
Record bulk_result := { result_id : string; result_success : bool }.

Record bulk_response := {
  sent : Z;
  failed : Z;
  results : list bulk_result;
}.

Definition mark_sent (now : string) (d : diploma) : diploma :=
  {| id := id d; certificate_id := certificate_id d; status := status d;
     email_sent := true; email_sent_at := Some now; other := other d |}.

Definition sentIds (r : bulk_response) : list string :=
  map result_id (List.filter result_success (results r)).

(** A diploma whose entry among the per-item results has [success] true. *)
Definition succeeded (r : bulk_response) (d : diploma) : Prop :=
  exists res, In res (results r) /\ result_id res = id d
              /\ result_success res = true.

Section WithBrowser.
Variable w : browser.

(** [now] is [new Date().toISOString()] at the time of the reply. *)
Definition handleBulkSendEmail (now : string) (st : state)
  : prog bulk_response (state * list toast) :=
  if (length (selectedDiplomas st) =? 0)%nat then Ret (st, [])
  else
    Await (Api.perform w (Api.diplomas_sendBulkEmail (selectedDiplomas st)))
      (fun out =>
         match out with
         | Fulfilled r =>
             let '(st1, t1) :=
               if (sent r >? 0)%Z
               then (setDiplomas
                       (map (fun d => if includes (sentIds r) (id d)
                                      then mark_sent now d else d)
                            (diplomas st)) st,
                     [Toast success (TCount "diplomas.bulkEmailSent" (sent r))])
               else (st, []) in
             let t2 :=
               if (failed r >? 0)%Z
               then [Toast error (TCount "diplomas.bulkEmailFailed" (failed r))]
               else [] in
             Ret (setSendingBulk false (setSelectedDiplomas [] st1),
                  (t1 ++ t2)%list)
         | Rejected err =>
             Ret (setSendingBulk false st,
                  [Toast error
                     (detail_or (err_detail err) "diplomas.emailSendError")])
         end).

End WithBrowser.
End Diplomas.

(** ** pages/GenerateDiplomas.js *)

Module GenerateDiplomas.
Import Http Toast.

Record state := {
  step : Z;
  generating : bool;
  progress : Z;
  selectedCourse : string;
  selectedTemplate : string;
  selectedRecipients : list string;
  generatedDiplomas : list json;
}.

(** [response.data] of [POST /api/diplomas/generate]. *)
Record generate_response := {
  generated : Z;
  response_diplomas : list json;
}.

(** The interval timer: each tick does [min(prev + 10, 90)]. *)
Fixpoint tick (n : nat) (p : Z) : Z :=
  match n with
  | O => p
  | S n' => tick n' (Z.min (p + 10) 90)
  end.

Section WithBrowser.
Variable w : browser.

Definition payload (st : state) : json :=
  JObj [("course_id", JStr (selectedCourse st));
        ("template_id", JStr (selectedTemplate st));
        ("recipient_ids", JArr (map JStr (selectedRecipients st)))].

(** [ticks] is the number of times the progress timer fired before the
    request settled. *)
Definition handleGenerate (ticks : nat) (st : state)
  : prog generate_response (state * list toast) :=
  if negb (Js.truthy (selectedCourse st))
     || negb (Js.truthy (selectedTemplate st))
     || (length (selectedRecipients st) =? 0)%nat
  then Ret (st, [Toast error (T "generate.completeSelections")])
  else
    Await (Api.perform w (Api.diplomas_generate (payload st)))
      (fun out =>
         match out with
         | Fulfilled r =>
             if (generated r >? 0)%Z
             then Ret ({| step := 4; generating := false; progress := 100;
                          selectedCourse := selectedCourse st;
                          selectedTemplate := selectedTemplate st;
                          selectedRecipients := selectedRecipients st;
                          generatedDiplomas := response_diplomas r |},
                       [Toast success (TCount "generate.success" (generated r))])
             else Ret ({| step := step st; generating := false; progress := 100;
                          selectedCourse := selectedCourse st;
                          selectedTemplate := selectedTemplate st;
                          selectedRecipients := selectedRecipients st;
                          generatedDiplomas := generatedDiplomas st |},
                       [Toast info (T "generate.noNew")])
         | Rejected _ =>
             Ret ({| step := step st; generating := false;
                     progress := tick ticks 0;
                     selectedCourse := selectedCourse st;
                     selectedTemplate := selectedTemplate st;
                     selectedRecipients := selectedRecipients st;
                     generatedDiplomas := generatedDiplomas st |},
                  [Toast error (T "generate.error")])
         end).

End WithBrowser.
End GenerateDiplomas.

(** ** pages/SettingsPage.js *)

Module SettingsPage.
Import Http Toast.

Record settings := {
  login_logo_url : string;
  sidebar_logo_url : string;
  favicon_url : string;
  site_title : string;
  site_description : string;
  email_enabled : bool;
  smtp_host : string;
  smtp_port : string;
  smtp_user : string;
  smtp_password : string;
  smtp_from_name : string;
  smtp_from_email : string;
}.

Record state := {
  current : settings;    (* the [settings] state variable *)
  testing : bool;
}.

Definition setTesting (b : bool) (st : state) : state :=
  {| current := current st; testing := b |}.

(** The [disabled] prop of the test-email button. *)
Definition test_email_disabled (st : state) : bool :=
  testing st
  || negb (Js.truthy (smtp_user (current st)))
  || negb (Js.truthy (smtp_password (current st))).

Section WithBrowser.
Variable w : browser.

Definition handleTestEmail (st : state) : prog json (state * list toast) :=
  if negb (Js.truthy (smtp_user (current st)))
     || negb (Js.truthy (smtp_password (current st)))
  then Ret (st, [Toast error (T "settings.emailConfigRequired")])
  else
    Await (Direct.perform w Direct.settingsPage_testEmail)
      (fun out =>
         match out with
         | Fulfilled _ =>
             Ret (setTesting false st,
                  [Toast success (T "settings.emailTestSuccess")])
         | Rejected err =>
             Ret (setTesting false st,
                  [Toast error
                     (detail_or (err_detail err) "settings.emailTestError")])
         end).

End WithBrowser.
End SettingsPage.

(** ** pages/TemplateBuilder.js *)

Module TemplateBuilder.
Import Http.

(** A layout element.  The fields the handlers below read or write are
    record fields; the styling attributes (text, fonts, colours, the QR
    style, image attributes) are kept in [props]. *)
Record element := {
  id : string;
  type : string;
  variable : option string;
  x : Q;
  y : Q;
  qrSize : option Z;
  props : gmap string json;
}.

Record state := {
  elements : list element;
  selectedId : option string;
}.

Definition canvas_width : Z := 1123.
Definition canvas_height : Z := 794.

Definition isQRCode (variable : option string) : bool :=
  match variable with
  | Some v => v =? "qr_code"
  | None => false
  end.

(** [now] is [Date.now()]; the id is its decimal rendering. *)
Definition addElement (now : Z) (type : string) (variable : option string)
  (st : state) : state :=
  let qr := isQRCode variable in
  let newElement :=
    {| id := pretty now;
       type := type;
       variable := variable;
       x := inject_Z canvas_width / 2 - (if qr then 50 else 100);
       y := inject_Z canvas_height / 2 - (if qr then 50 else 0);
       qrSize := if qr then Some 120%Z else None;
       props :=
         (if qr
          then fun m => <["qrColor" := JStr "#000000"]>
                          (<["qrBgColor" := JStr "transparent"]>
                             (<["qrCornerStyle" := JStr "square"]>
                                (<["qrDotStyle" := JStr "squares"]>
                                   (<["qrErrorLevel" := JStr "M"]> m))))
          else fun m => m)
           (<["text" := if type =? "text" then JStr "Sample Text" else JNull]>
              (<["fontFamily" := JStr "Urbanist"]>
                 (<["fontSize" :=
                      JNum (if (type =? "variable")
                               && match variable with
                                  | Some v => v =? "recipient_name"
                                  | None => false
                                  end
                            then 36 else 24)]>
                    (<["fontColor" := JStr "#0f172a"]>
                       (<["bold" := JBool false]>
                          (<["italic" := JBool false]>
                             (<["underline" := JBool false]>
                                (<["align" := JStr "center"]>
                                   (<["rotation" := JNum 0]>
                                      (<["opacity" := JNum 1]> ∅)))))))))) |} in
  {| elements := (elements st ++ [newElement])%list;
     selectedId := Some (id newElement) |}.

Definition updateElement (updatedElement : element) (st : state) : state :=
  {| elements :=
       map (fun el => if id el =? id updatedElement then updatedElement else el)
           (elements st);
     selectedId := selectedId st |}.

Definition deleteSelected (st : state) : state :=
  match selectedId st with
  | Some sel =>
      if negb (Js.truthy sel) then st
      else {| elements :=
                List.filter (fun el => negb (id el =? sel)) (elements st);
              selectedId := None |}
  | None => st
  end.

(** *** The QR code element on the canvas *)

(** [a < b], [Math.max] and [Math.round] on numbers.  Coordinates and
    scale factors are rationals (finite numbers, no NaN); [Math.round]
    rounds halves upwards. *)
Definition ltb (a b : Q) : bool := negb (Qle_bool b a).
Definition Math_max (a b : Q) : Q := if Qle_bool a b then b else a.
Definition Math_round (q : Q) : Z := Qfloor (q + (1 # 2)).

(** [element.qrSize || 100] *)
Definition size (e : element) : Z :=
  match qrSize e with
  | Some n => if (n =? 0)%Z then 100 else n
  | None => 100
  end.

(** The element handed to [onChange] when a drag ends at [(tx, ty)]. *)
Definition onDragEnd (e : element) (tx ty : Q) : element :=
  {| id := id e; type := type e; variable := variable e;
     x := tx; y := ty; qrSize := qrSize e; props := props e |}.

(** The element handed to [onChange] when a resize ends; the node reports
    its scale factors and its position. *)
Definition onTransformEnd (e : element) (scaleX scaleY nx ny : Q) : element :=
  let newSize := Math_round (inject_Z (size e) * Math_max scaleX scaleY) in
  {| id := id e; type := type e; variable := variable e;
     x := nx; y := ny;
     qrSize := Some (Z.max 50 (Z.min 400 newSize));
     props := props e |}.

Record box := {
  box_x : Q;
  box_y : Q;
  width : Q;
  height : Q;
  rotation : Q;
}.

Definition boundBoxFunc (oldBox newBox : box) : box :=
  let minSize := 50%Q in
  let maxSize := 400%Q in
  if ltb (width newBox) minSize || ltb (height newBox) minSize then oldBox
  else if ltb maxSize (width newBox) || ltb maxSize (height newBox) then oldBox
  else newBox.

(** The props of the size slider and its change handler. *)
Record slider := { min : Z; max : Z; slider_step : Z }.

Definition qr_size_slider : slider :=
  {| min := 50; max := 400; slider_step := 10 |}.

(** A slider reports only values between its [min] and [max]. *)
Definition reports (s : slider) (value : Z) : Prop :=
  (min s <= value <= max s)%Z.

Definition onSizeChange (selectedElement : element) (value : Z) : element :=
  {| id := id selectedElement; type := type selectedElement;
     variable := variable selectedElement;
     x := x selectedElement; y := y selectedElement;
     qrSize := Some value; props := props selectedElement |}.

(** The invariant on the stored size of a QR element. *)
Definition qr_in_range (e : element) : Prop :=
  exists n, qrSize e = Some n /\ (50 <= n <= 400)%Z.

(** One interaction with a QR element: the element before and the
    element handed to [onChange]. *)
Inductive qr_event : element -> element -> Prop :=
| ev_drag e tx ty : qr_event e (onDragEnd e tx ty)
| ev_transform e sx sy nx ny : qr_event e (onTransformEnd e sx sy nx ny)
| ev_slide e v : reports qr_size_slider v -> qr_event e (onSizeChange e v).

End TemplateBuilder.

(** ** Sample inputs *)

Module Samples.

Definition signed_in : browser :=
  {| REACT_APP_BACKEND_URL := "https://api.example.org";
     localStorage := {[ "token" := "abc" ]};
     location_origin := "https://example.org";
     url_encode := fun s => s |}.

Definition signed_out : browser :=
  {| REACT_APP_BACKEND_URL := "https://api.example.org";
     localStorage := ∅;
     location_origin := "https://example.org";
     url_encode := fun s => s |}.

Definition visitor : App.auth_state string :=
  {| App.user := None; App.loading := false |}.

Definition admin : App.auth_state string :=
  {| App.user := Some "admin@example.org"; App.loading := false |}.

Definition certificate : VerifyPage.certificate :=
  {| VerifyPage.status := "valid";
     VerifyPage.recipient_name := "Ada Lovelace";
     VerifyPage.course_name := "Analytical Engines";
     VerifyPage.instructor := None;
     VerifyPage.duration_hours := 40;
     VerifyPage.issued_at := "2026-02-24T00:00:00Z";
     VerifyPage.organization_name := "ORVITI";
     VerifyPage.certificate_id := "CERT-2024-0001" |}.

Definition found (_ : Http.request)
  : Http.outcome (option VerifyPage.certificate) :=
  Http.Fulfilled (Some certificate).

Definition not_found (_ : Http.request)
  : Http.outcome (option VerifyPage.certificate) :=
  Http.Rejected {| Http.err_status := Some 404%Z; Http.err_detail := None |}.

Definition pending_diploma (i : string) : Diplomas.diploma :=
  {| Diplomas.id := i; Diplomas.certificate_id := "CERT-" +:+ i;
     Diplomas.status := "valid"; Diplomas.email_sent := false;
     Diplomas.email_sent_at := None; Diplomas.other := ∅ |}.

Definition two_listed_one_selected : Diplomas.state :=
  {| Diplomas.diplomas := [pending_diploma "d1"; pending_diploma "d2"];
     Diplomas.selectedDiplomas := ["d1"];
     Diplomas.sendingBulk := false |}.

(** A reply that reports one success among its results but a [sent]
    count of zero. *)
Definition reply_sent_zero : Diplomas.bulk_response :=
  {| Diplomas.sent := 0; Diplomas.failed := 0;
     Diplomas.results :=
       [{| Diplomas.result_id := "d1"; Diplomas.result_success := true |}] |}.

Definition reply_one_sent : Diplomas.bulk_response :=
  {| Diplomas.sent := 1; Diplomas.failed := 0;
     Diplomas.results :=
       [{| Diplomas.result_id := "d1"; Diplomas.result_success := true |}] |}.

Definition wizard_ready : GenerateDiplomas.state :=
  {| GenerateDiplomas.step := 3;
     GenerateDiplomas.generating := false;
     GenerateDiplomas.progress := 0;
     GenerateDiplomas.selectedCourse := "course-1";
     GenerateDiplomas.selectedTemplate := "template-1";
     GenerateDiplomas.selectedRecipients := ["r1"; "r2"];
     GenerateDiplomas.generatedDiplomas := [] |}.

Definition wizard_no_template : GenerateDiplomas.state :=
  {| GenerateDiplomas.step := 2;
     GenerateDiplomas.generating := false;
     GenerateDiplomas.progress := 0;
     GenerateDiplomas.selectedCourse := "course-1";
     GenerateDiplomas.selectedTemplate := "";
     GenerateDiplomas.selectedRecipients := ["r1"; "r2"];
     GenerateDiplomas.generatedDiplomas := [] |}.

Definition two_generated (_ : Http.request)
  : Http.outcome GenerateDiplomas.generate_response :=
  Http.Fulfilled
    {| GenerateDiplomas.generated := 2;
       GenerateDiplomas.response_diplomas := [Http.JStr "a"; Http.JStr "b"] |}.

Definition smtp_settings (user password : string) : SettingsPage.state :=
  {| SettingsPage.current :=
       {| SettingsPage.login_logo_url := "";
          SettingsPage.sidebar_logo_url := "";
          SettingsPage.favicon_url := "";
          SettingsPage.site_title := "";
          SettingsPage.site_description := "";
          SettingsPage.email_enabled := true;
          SettingsPage.smtp_host := "smtp.gmail.com";
          SettingsPage.smtp_port := "587";
          SettingsPage.smtp_user := user;
          SettingsPage.smtp_password := password;
          SettingsPage.smtp_from_name := "";
          SettingsPage.smtp_from_email := "" |};
     SettingsPage.testing := false |}.

Definition qr_element : TemplateBuilder.element :=
  {| TemplateBuilder.id := "1700000000000";
     TemplateBuilder.type := "variable";
     TemplateBuilder.variable := Some "qr_code";
     TemplateBuilder.x := 511;
     TemplateBuilder.y := 347;
     TemplateBuilder.qrSize := Some 120%Z;
     TemplateBuilder.props := ∅ |}.

Definition title_element : TemplateBuilder.element :=
  {| TemplateBuilder.id := "1700000000001";
     TemplateBuilder.type := "text";
     TemplateBuilder.variable := None;
     TemplateBuilder.x := 461;
     TemplateBuilder.y := 397;
     TemplateBuilder.qrSize := None;
     TemplateBuilder.props := {[ "text" := Http.JStr "Sample Text" ]} |}.

Definition layout : TemplateBuilder.state :=
  {| TemplateBuilder.elements := [qr_element; title_element];
     TemplateBuilder.selectedId := Some "1700000000000" |}.

End Samples.

(** * Further parts of the client *)

(** ** Following redirects (App.js) *)

Module Navigation.
Import App.

(** What the visitor ends up seeing: a [<Navigate replace>] puts its target
    in place of the location and the routes are matched again. *)
Fixpoint settle {U} (hops : nat) (a : auth_state U) (pathname : string)
  : view :=
  match render a pathname with
  | Redirect to =>
      match hops with
      | O => Redirect to
      | S n => settle n a to
      end
  | v => v
  end.

Definition is_redirect (v : view) : bool :=
  match v with
  | Redirect _ => true
  | _ => false
  end.

End Navigation.

(** ** pages/Diplomas.js: the row actions and the list filters *)

Module DiplomasPage.
Import Http Toast Diplomas.

(** [actionDialog]: the kind of action awaiting confirmation and the id of
    its diploma. *)
Inductive action := revoke | reactivate | delete.

Record filters := {
  course_id : string;
  status_filter : string;   (* [filters.status] *)
  search : string;
}.

Record page := {
  base : Diplomas.state;    (* diplomas, selectedDiplomas, sendingBulk *)
  actionDialog : option (action * string);
  sendingEmailId : option string;
  current_filters : filters;
}.

(** The values given to [useState], once the first list has arrived. *)
Definition initial_filters : filters :=
  {| course_id := "all"; status_filter := "all"; search := "" |}.

Definition with_base (b : Diplomas.state) (p : page) : page :=
  {| base := b; actionDialog := actionDialog p;
     sendingEmailId := sendingEmailId p;
     current_filters := current_filters p |}.

Definition setActionDialog (d : option (action * string)) (p : page) : page :=
  {| base := base p; actionDialog := d; sendingEmailId := sendingEmailId p;
     current_filters := current_filters p |}.

Definition setSendingEmailId (i : option string) (p : page) : page :=
  {| base := base p; actionDialog := actionDialog p; sendingEmailId := i;
     current_filters := current_filters p |}.

(** [{ ...d, status: s }] *)
Definition with_status (s : string) (d : diploma) : diploma :=
  {| id := id d; certificate_id := certificate_id d; status := s;
     email_sent := email_sent d; email_sent_at := email_sent_at d;
     other := other d |}.

(** [{ ...d, email_sent: true, email_sent_at: at }] *)
Definition with_email_sent (at_ : option string) (d : diploma) : diploma :=
  {| id := id d; certificate_id := certificate_id d; status := status d;
     email_sent := true; email_sent_at := at_; other := other d |}.

(** The entry of the row menu: revoke for a valid diploma, reactivate for
    any other. *)
Definition offered (d : diploma) : action :=
  if status d =? "valid" then revoke else reactivate.

Section WithBrowser.
Variable w : browser.

Definition handleRevoke (i : string) (p : page) : prog json (page * list toast) :=
  Await (Api.perform w (Api.diplomas_revoke i))
    (fun out =>
       match out with
       | Fulfilled _ =>
           Ret (setActionDialog None
                  (with_base
                     (setDiplomas
                        (map (fun d => if id d =? i then with_status "revoked" d
                                       else d)
                             (diplomas (base p))) (base p)) p),
                [Toast success (T "diplomas.revoked")])
       | Rejected _ =>
           Ret (setActionDialog None p, [Toast error (T "diplomas.revokeError")])
       end).

Definition handleReactivate (i : string) (p : page)
  : prog json (page * list toast) :=
  Await (Api.perform w (Api.diplomas_reactivate i))
    (fun out =>
       match out with
       | Fulfilled _ =>
           Ret (setActionDialog None
                  (with_base
                     (setDiplomas
                        (map (fun d => if id d =? i then with_status "valid" d
                                       else d)
                             (diplomas (base p))) (base p)) p),
                [Toast success (T "diplomas.reactivated")])
       | Rejected _ =>
           Ret (setActionDialog None p,
                [Toast error (T "diplomas.reactivateError")])
       end).

Definition handleDelete (i : string) (p : page) : prog json (page * list toast) :=
  Await (Api.perform w (Api.diplomas_delete i))
    (fun out =>
       match out with
       | Fulfilled _ =>
           Ret (setActionDialog None
                  (with_base
                     (setSelectedDiplomas
                        (List.filter (fun sid => negb (sid =? i))
                           (selectedDiplomas (base p)))
                        (setDiplomas
                           (List.filter (fun d => negb (id d =? i))
                              (diplomas (base p))) (base p))) p),
                [Toast success (T "diplomas.deleted")])
       | Rejected _ =>
           Ret (setActionDialog None p, [Toast error (T "diplomas.deleteError")])
       end).

(** The confirm button of the dialog. *)
Definition confirmAction (d : action * string) (p : page)
  : prog json (page * list toast) :=
  match fst d with
  | revoke => handleRevoke (snd d) p
  | delete => handleDelete (snd d) p
  | reactivate => handleReactivate (snd d) p
  end.

(** [response.data] of [POST /api/diplomas/:id/send-email]. *)
Record send_response := { response_email_sent_at : option string }.

Definition handleSendEmail (d : diploma) (p : page)
  : prog send_response (page * list toast) :=
  Await (Api.perform w (Api.diplomas_sendEmail (id d)))
    (fun out =>
       match out with
       | Fulfilled r =>
           Ret (setSendingEmailId None
                  (with_base
                     (setDiplomas
                        (map (fun d' => if id d' =? id d
                                        then with_email_sent
                                               (response_email_sent_at r) d'
                                        else d')
                             (diplomas (base p))) (base p)) p),
                [Toast success (T "diplomas.emailSent")])
       | Rejected err =>
           Ret (setSendingEmailId None p,
                [Toast error
                   (detail_or (err_detail err) "diplomas.emailSendError")])
       end).

(** The [params] object of [fetchDiplomas]. *)
Definition fetch_params (f : filters) : Api.diploma_filters :=
  {| Api.filter_course_id :=
       if course_id f =? "all" then None else Some (course_id f);
     Api.filter_status :=
       if status_filter f =? "all" then None else Some (status_filter f);
     Api.filter_search :=
       if Js.truthy (search f) then Some (search f) else None |}.

Definition fetchDiplomas (p : page) : prog (list diploma) page :=
  Await (Api.perform w (Api.diplomas_getAll (fetch_params (current_filters p))))
    (fun out =>
       match out with
       | Fulfilled l =>
           Ret (with_base (setSelectedDiplomas [] (setDiplomas l (base p))) p)
       | Rejected _ => Ret p
       end).

(** The bulk button is drawn only for a non-empty selection. *)
Definition bulk_button_shown (p : page) : bool :=
  (0 <? length (selectedDiplomas (base p)))%nat.

(** The values given to [useState]. *)
Definition initial : page :=
  {| base := {| diplomas := []; selectedDiplomas := []; sendingBulk := false |};
     actionDialog := None; sendingEmailId := None;
     current_filters := initial_filters |}.

Definition setFilters (f : filters) (p : page) : page :=
  {| base := base p; actionDialog := actionDialog p;
     sendingEmailId := sendingEmailId p; current_filters := f |}.

(** *** Requests in flight

    A handler reads [diplomas] and [selectedDiplomas] from the render in
    which it was called.  What it computes from them it writes when its
    request settles, onto whatever the page holds by then. *)
Inductive write :=
| SetDiplomas (l : list diploma)
| SetSelectedDiplomas (l : list string)
| SetSendingBulk (b : bool)
| SetActionDialog (d : option (action * string))
| SetSendingEmailId (i : option string).

Definition apply_write (p : page) (x : write) : page :=
  match x with
  | SetDiplomas l => with_base (setDiplomas l (base p)) p
  | SetSelectedDiplomas l => with_base (setSelectedDiplomas l (base p)) p
  | SetSendingBulk b => with_base (setSendingBulk b (base p)) p
  | SetActionDialog d => setActionDialog d p
  | SetSendingEmailId i => setSendingEmailId i p
  end.

Definition apply_writes (xs : list write) (p : page) : page :=
  fold_left apply_write xs p.

(** What each handler does after its [await]; [seen] is the page of the
    render in which the handler was called. *)
Definition after_revoke (i : string) (seen : page) (out : outcome json)
  : list write :=
  match out with
  | Fulfilled _ =>
      [SetDiplomas (map (fun d => if id d =? i then with_status "revoked" d
                                  else d) (diplomas (base seen)));
       SetActionDialog None]
  | Rejected _ => [SetActionDialog None]
  end.

Definition after_reactivate (i : string) (seen : page) (out : outcome json)
  : list write :=
  match out with
  | Fulfilled _ =>
      [SetDiplomas (map (fun d => if id d =? i then with_status "valid" d
                                  else d) (diplomas (base seen)));
       SetActionDialog None]
  | Rejected _ => [SetActionDialog None]
  end.

Definition after_delete (i : string) (seen : page) (out : outcome json)
  : list write :=
  match out with
  | Fulfilled _ =>
      [SetDiplomas (List.filter (fun d => negb (id d =? i))
                      (diplomas (base seen)));
       SetSelectedDiplomas (List.filter (fun sid => negb (sid =? i))
                              (selectedDiplomas (base seen)));
       SetActionDialog None]
  | Rejected _ => [SetActionDialog None]
  end.

Definition after_confirm (d : action * string) (seen : page)
  (out : outcome json) : list write :=
  match fst d with
  | revoke => after_revoke (snd d) seen out
  | delete => after_delete (snd d) seen out
  | reactivate => after_reactivate (snd d) seen out
  end.

Definition after_send (d : diploma) (seen : page)
  (out : outcome send_response) : list write :=
  match out with
  | Fulfilled r =>
      [SetDiplomas (map (fun d' => if id d' =? id d
                                   then with_email_sent
                                          (response_email_sent_at r) d'
                                   else d') (diplomas (base seen)));
       SetSendingEmailId None]
  | Rejected _ => [SetSendingEmailId None]
  end.

Definition after_bulk (now : string) (seen : page)
  (out : outcome bulk_response) : list write :=
  match out with
  | Fulfilled r =>
      ((if (sent r >? 0)%Z
        then [SetDiplomas (map (fun d => if includes (sentIds r) (id d)
                                         then mark_sent now d else d)
                             (diplomas (base seen)))]
        else [])
       ++ [SetSelectedDiplomas []; SetSendingBulk false])%list
  | Rejected _ => [SetSendingBulk false]
  end.

(** [fetchDiplomas] *)
Definition after_fetch (out : outcome (list diploma)) : list write :=
  match out with
  | Fulfilled l => [SetDiplomas l; SetSelectedDiplomas []]
  | Rejected _ => []
  end.

(** [fetchData], as far as the list goes: it does not touch the
    selection. *)
Definition after_fetchData (out : outcome (list diploma)) : list write :=
  match out with
  | Fulfilled l => [SetDiplomas l]
  | Rejected _ => []
  end.

Inductive flight :=
| confirming (d : action * string) (seen : page)
| sending (d : diploma) (seen : page)
| sending_bulk (seen : page)
| fetching
| fetching_data.

Definition seen_by (f : flight) : option page :=
  match f with
  | confirming _ seen | sending _ seen | sending_bulk seen => Some seen
  | fetching | fetching_data => None
  end.

Record session := {
  live : page;
  in_flight : list flight;
}.

(** Both effects run when the page is mounted. *)
Definition opening : session :=
  {| live := initial; in_flight := [fetching_data; fetching] |}.

Definition quiet (p : page) : session := {| live := p; in_flight := [] |}.

(** The rows of the menu that open the dialog: revoke or reactivate,
    whichever is offered, and delete. *)
Definition in_menu (a : action) (d : diploma) : Prop :=
  a = offered d \/ a = delete.

Section Served.
(** The lists the server may answer with. *)
Variable served : list diploma -> Prop.

(** What can happen on the page: the user acts on what the page shows,
    or a request settles, in any order.  A row checkbox hands over the
    opposite of what it shows. *)
Inductive event : session -> session -> Prop :=
| tick_row s d :
    In d (diplomas (base (live s))) ->
    event s
      {| live :=
           with_base
             (handleSelectDiploma (id d)
                (negb (includes (selectedDiplomas (base (live s))) (id d)))
                (base (live s))) (live s);
         in_flight := in_flight s |}
| tick_all s checked :
    event s
      {| live := with_base (handleSelectAll checked (base (live s))) (live s);
         in_flight := in_flight s |}
| change_filters s f :
    event s {| live := setFilters f (live s); in_flight := in_flight s |}
| open_dialog s a d :
    In d (diplomas (base (live s))) -> in_menu a d ->
    event s {| live := setActionDialog (Some (a, id d)) (live s);
               in_flight := in_flight s |}
| close_dialog s :
    event s {| live := setActionDialog None (live s);
               in_flight := in_flight s |}
| start_confirm s d :
    actionDialog (live s) = Some d ->
    event s {| live := live s;
               in_flight := confirming d (live s) :: in_flight s |}
| start_send s d :
    In d (diplomas (base (live s))) ->
    event s {| live := setSendingEmailId (Some (id d)) (live s);
               in_flight := sending d (live s) :: in_flight s |}
| start_bulk s :
    selectedDiplomas (base (live s)) <> [] ->
    event s {| live := with_base (setSendingBulk true (base (live s))) (live s);
               in_flight := sending_bulk (live s) :: in_flight s |}
| start_fetch s :
    event s {| live := live s; in_flight := fetching :: in_flight s |}
| settle_confirm s d seen out before rest :
    in_flight s = (before ++ confirming d seen :: rest)%list ->
    event s {| live := apply_writes (after_confirm d seen out) (live s);
               in_flight := (before ++ rest)%list |}
| settle_send s d seen out before rest :
    in_flight s = (before ++ sending d seen :: rest)%list ->
    event s {| live := apply_writes (after_send d seen out) (live s);
               in_flight := (before ++ rest)%list |}
| settle_bulk s now seen out before rest :
    in_flight s = (before ++ sending_bulk seen :: rest)%list ->
    event s {| live := apply_writes (after_bulk now seen out) (live s);
               in_flight := (before ++ rest)%list |}
| settle_fetch s out before rest :
    in_flight s = (before ++ fetching :: rest)%list ->
    (forall l, out = Fulfilled l -> served l) ->
    event s {| live := apply_writes (after_fetch out) (live s);
               in_flight := (before ++ rest)%list |}
| settle_fetch_data s out before rest :
    in_flight s = (before ++ fetching_data :: rest)%list ->
    (forall l, out = Fulfilled l -> served l) ->
    event s {| live := apply_writes (after_fetchData out) (live s);
               in_flight := (before ++ rest)%list |}.

(** The same actions when each request settles before anything else
    happens. *)
Inductive one_at_a_time : page -> page -> Prop :=
| step_row p d :
    In d (diplomas (base p)) ->
    one_at_a_time p
      (with_base
         (handleSelectDiploma (id d)
            (negb (includes (selectedDiplomas (base p)) (id d))) (base p)) p)
| step_all p checked :
    one_at_a_time p (with_base (handleSelectAll checked (base p)) p)
| step_confirm p a d server :
    In d (diplomas (base p)) -> in_menu a d ->
    one_at_a_time p
      (fst (result server
              (confirmAction (a, id d)
                 (setActionDialog (Some (a, id d)) p))))
| step_send p d server :
    In d (diplomas (base p)) ->
    one_at_a_time p (fst (result server (handleSendEmail d p)))
| step_bulk p now server :
    one_at_a_time p
      (with_base (fst (result server (handleBulkSendEmail w now (base p)))) p)
| step_fetch p server :
    (forall l, server (Api.perform w
                         (Api.diplomas_getAll (fetch_params (current_filters p))))
               = Fulfilled l -> served l) ->
    one_at_a_time p (result server (fetchDiplomas p)).

End Served.

(** A write of a list with distinct ids, or of a selection without
    repetition, or of anything else. *)
Definition tidy_write (x : write) : Prop :=
  match x with
  | SetDiplomas l => List.NoDup (map id l)
  | SetSelectedDiplomas l => List.NoDup l
  | _ => True
  end.

(** The listed ids are distinct and no id is selected twice. *)
Definition distinct (p : page) : Prop :=
  List.NoDup (map id (diplomas (base p)))
  /\ List.NoDup (selectedDiplomas (base p)).

(** The same of the page and of every render a request in flight was
    started from. *)
Definition all_distinct (s : session) : Prop :=
  distinct (live s)
  /\ forall f seen, In f (in_flight s) -> seen_by f = Some seen -> distinct seen.

(** The listed ids are distinct, and the selection is a duplicate-free
    part of them. *)
Definition selection_ok (p : page) : Prop :=
  List.NoDup (map id (diplomas (base p)))
  /\ List.NoDup (selectedDiplomas (base p))
  /\ incl (selectedDiplomas (base p)) (map id (diplomas (base p))).

End WithBrowser.
End DiplomasPage.

(** ** pages/TemplateBuilder.js: the selected element and image elements *)

Module BuilderPanel.
Import TemplateBuilder.

(** [elements.find(el => el.id === selectedId)]: the element the
    properties panel edits. *)
Definition selectedElement (st : state) : option element :=
  match selectedId st with
  | Some sel => List.find (fun el => id el =? sel) (elements st)
  | None => None
  end.



End BuilderPanel.

Module ImageElement.
Import TemplateBuilder.

(** An image element, as [addImageElement] builds it. *)
Record image := {
  id : string;
  type : string;
  x : Q;
  y : Q;
  imageUrl : string;
  imageWidth : option Z;
  imageHeight : option Z;
  rotation : Q;
  opacity : Q;
}.

(** The element [addImageElement] appends once the upload has given the
    file's URL; [now] is [Date.now()]. *)
Definition newImage (w : browser) (now : Z) (uploaded : string) : image :=
  {| id := pretty now;
     type := "image";
     x := inject_Z canvas_width / 2 - 75;
     y := inject_Z canvas_height / 2 - 75;
     imageUrl := REACT_APP_BACKEND_URL w +:+ uploaded;
     imageWidth := Some 150%Z;
     imageHeight := Some 150%Z;
     rotation := 0;
     opacity := 1 |}.

(** [element.imageWidth || 150] and [element.imageHeight || 150] *)
Definition width (e : image) : Z :=
  match imageWidth e with
  | Some n => if (n =? 0)%Z then 150 else n
  | None => 150
  end.

Definition height (e : image) : Z :=
  match imageHeight e with
  | Some n => if (n =? 0)%Z then 150 else n
  | None => 150
  end.

Definition onDragEnd (e : image) (tx ty : Q) : image :=
  {| id := id e; type := type e; x := tx; y := ty; imageUrl := imageUrl e;
     imageWidth := imageWidth e; imageHeight := imageHeight e;
     rotation := rotation e; opacity := opacity e |}.

Definition onTransformEnd (e : image) (scaleX scaleY nx ny nrotation : Q)
  : image :=
  {| id := id e; type := type e; x := nx; y := ny; imageUrl := imageUrl e;
     imageWidth :=
       Some (Z.max 20 (Math_round (inject_Z (width e) * scaleX)));
     imageHeight :=
       Some (Z.max 20 (Math_round (inject_Z (height e) * scaleY)));
     rotation := nrotation; opacity := opacity e |}.

Definition boundBoxFunc (oldBox newBox : box) : box :=
  if ltb (TemplateBuilder.width newBox) 20
     || ltb (TemplateBuilder.height newBox) 20
  then oldBox else newBox.

(** The sliders of the image panel. *)
Definition width_slider : slider := {| min := 20; max := 500; slider_step := 5 |}.
Definition height_slider : slider := {| min := 20; max := 500; slider_step := 5 |}.
Definition rotation_slider : slider :=
  {| min := -180; max := 180; slider_step := 1 |}.
Definition opacity_slider : slider := {| min := 10; max := 100; slider_step := 5 |}.

Definition onWidthChange (e : image) (value : Z) : image :=
  {| id := id e; type := type e; x := x e; y := y e; imageUrl := imageUrl e;
     imageWidth := Some value; imageHeight := imageHeight e;
     rotation := rotation e; opacity := opacity e |}.

Definition onHeightChange (e : image) (value : Z) : image :=
  {| id := id e; type := type e; x := x e; y := y e; imageUrl := imageUrl e;
     imageWidth := imageWidth e; imageHeight := Some value;
     rotation := rotation e; opacity := opacity e |}.

Definition onRotationChange (e : image) (value : Z) : image :=
  {| id := id e; type := type e; x := x e; y := y e; imageUrl := imageUrl e;
     imageWidth := imageWidth e; imageHeight := imageHeight e;
     rotation := inject_Z value; opacity := opacity e |}.

(** [opacity: value / 100] *)
Definition onOpacityChange (e : image) (value : Z) : image :=
  {| id := id e; type := type e; x := x e; y := y e; imageUrl := imageUrl e;
     imageWidth := imageWidth e; imageHeight := imageHeight e;
     rotation := rotation e; opacity := inject_Z value / 100 |}.

Inductive image_event : image -> image -> Prop :=
| img_drag e tx ty : image_event e (onDragEnd e tx ty)
| img_transform e sx sy nx ny r :
    image_event e (onTransformEnd e sx sy nx ny r)
| img_width e v : reports width_slider v -> image_event e (onWidthChange e v)
| img_height e v : reports height_slider v -> image_event e (onHeightChange e v)
| img_rotation e v :
    reports rotation_slider v -> image_event e (onRotationChange e v)
| img_opacity e v :
    reports opacity_slider v -> image_event e (onOpacityChange e v).

End ImageElement.

(** ** pages/GenerateDiplomas.js: the steps of the wizard *)

Module Wizard.
Import Http Toast GenerateDiplomas.

Record course := { course_id : string; course_name : string }.
Record template := { template_id : string; template_name : string }.
Record recipient := {
  recipient_id : string;
  full_name : string;
  email : string;
}.

Record wizard := {
  core : GenerateDiplomas.state;
  courses : list course;
  templates : list template;
  recipients : list recipient;
}.

Definition with_core (c : GenerateDiplomas.state) (z : wizard) : wizard :=
  {| core := c; courses := courses z; templates := templates z;
     recipients := recipients z |}.

Definition setStep (n : Z) (c : state) : state :=
  {| step := n; generating := generating c; progress := progress c;
     selectedCourse := selectedCourse c;
     selectedTemplate := selectedTemplate c;
     selectedRecipients := selectedRecipients c;
     generatedDiplomas := generatedDiplomas c |}.

Definition setSelectedCourse (i : string) (c : state) : state :=
  {| step := step c; generating := generating c; progress := progress c;
     selectedCourse := i;
     selectedTemplate := selectedTemplate c;
     selectedRecipients := selectedRecipients c;
     generatedDiplomas := generatedDiplomas c |}.

Definition setSelectedTemplate (i : string) (c : state) : state :=
  {| step := step c; generating := generating c; progress := progress c;
     selectedCourse := selectedCourse c;
     selectedTemplate := i;
     selectedRecipients := selectedRecipients c;
     generatedDiplomas := generatedDiplomas c |}.

Definition setSelectedRecipients (l : list string) (c : state) : state :=
  {| step := step c; generating := generating c; progress := progress c;
     selectedCourse := selectedCourse c;
     selectedTemplate := selectedTemplate c;
     selectedRecipients := l;
     generatedDiplomas := generatedDiplomas c |}.

Definition setGeneratedDiplomas (l : list json) (c : state) : state :=
  {| step := step c; generating := generating c; progress := progress c;
     selectedCourse := selectedCourse c;
     selectedTemplate := selectedTemplate c;
     selectedRecipients := selectedRecipients c;
     generatedDiplomas := l |}.

(** The values given to [useState], with the loaded courses and
    templates. *)
Definition start (cs : list course) (ts : list template) : wizard :=
  {| core := {| step := 1; generating := false; progress := 0;
                selectedCourse := ""; selectedTemplate := "";
                selectedRecipients := []; generatedDiplomas := [] |};
     courses := cs; templates := ts; recipients := [] |}.

Definition toggleRecipient (i : string) (z : wizard) : wizard :=
  with_core
    (setSelectedRecipients
       (if Diplomas.includes (selectedRecipients (core z)) i
        then List.filter (fun r => negb (r =? i)) (selectedRecipients (core z))
        else (selectedRecipients (core z) ++ [i])%list)
       (core z)) z.

Definition toggleAllRecipients (z : wizard) : wizard :=
  with_core
    (setSelectedRecipients
       (if (length (selectedRecipients (core z)) =? length (recipients z))%nat
        then []
        else map recipient_id (recipients z))
       (core z)) z.

(** The [checked] prop of the select-all checkbox of step 3. *)
Definition all_checked (z : wizard) : bool :=
  (length (selectedRecipients (core z)) =? length (recipients z))%nat.

(** The [disabled] props of the buttons. *)
Definition next1_disabled (z : wizard) : bool :=
  negb (Js.truthy (selectedCourse (core z))).
Definition next2_disabled (z : wizard) : bool :=
  negb (Js.truthy (selectedTemplate (core z))).
Definition generate_disabled (z : wizard) : bool :=
  (length (selectedRecipients (core z)) =? 0)%nat || generating (core z).

(** *** What the page draws

    The controls of the step the wizard is on, as the four
    [{step === n && ...}] blocks render them.  A step whose list is empty
    draws, in place of its controls, a link that leaves the page. *)
Inductive control :=
| course_select                       (* data-testid="select-course" *)
| next_step_1                         (* data-testid="next-step-1" *)
| create_course_link                  (* navigate('/courses/new') *)
| template_option (t : template)      (* data-testid="template-option-<id>" *)
| back_to_1
| next_step_2                         (* data-testid="next-step-2" *)
| create_template_link                (* navigate('/templates/new') *)
| select_all_recipients               (* data-testid="select-all-recipients" *)
| recipient_checkbox (r : recipient)  (* data-testid="recipient-checkbox-<id>" *)
| back_to_2
| generate_btn                        (* data-testid="generate-btn" *)
| add_recipients_link                 (* navigate('/recipients') *)
| generate_more
| view_diplomas.                      (* navigate('/diplomas') *)

Definition drawn (z : wizard) : list control :=
  ((if (step (core z) =? 1)%Z
    then match courses z with
         | [] => [create_course_link]
         | _ :: _ => [course_select; next_step_1]
         end
    else [])
   ++ (if (step (core z) =? 2)%Z
       then match templates z with
            | [] => [create_template_link]
            | _ :: _ =>
                map template_option (templates z) ++ [back_to_1; next_step_2]
            end
       else [])
   ++ (if (step (core z) =? 3)%Z
       then match recipients z with
            | [] => [add_recipients_link]
            | _ :: _ =>
                select_all_recipients
                :: map recipient_checkbox (recipients z)
                ++ [back_to_2; generate_btn]
            end
       else [])
   ++ (if (step (core z) =? 4)%Z then [generate_more; view_diplomas]
       else []))%list.

(** The [disabled] prop of a control. *)
Definition disabled (z : wizard) (c : control) : bool :=
  match c with
  | next_step_1 => next1_disabled z
  | next_step_2 => next2_disabled z
  | back_to_2 => generating (core z)
  | generate_btn => generate_disabled z
  | _ => false
  end.

(** The links that call [navigate]: they lead to another page. *)
Definition leaves_the_page (c : control) : bool :=
  match c with
  | create_course_link | create_template_link | add_recipients_link
  | view_diplomas => true
  | _ => false
  end.

Definition can_press (z : wizard) (c : control) : Prop :=
  In c (drawn z) /\ disabled z c = false.

(** What a drawn control tells about the state. *)
Definition drawn_means (z : wizard) (c : control) : Prop :=
  match c with
  | course_select | next_step_1 => step (core z) = 1%Z /\ courses z <> []
  | create_course_link => step (core z) = 1%Z /\ courses z = []
  | template_option t => step (core z) = 2%Z /\ In t (templates z)
  | back_to_1 | next_step_2 => step (core z) = 2%Z /\ templates z <> []
  | create_template_link => step (core z) = 2%Z /\ templates z = []
  | select_all_recipients | back_to_2 | generate_btn =>
      step (core z) = 3%Z /\ recipients z <> []
  | recipient_checkbox r => step (core z) = 3%Z /\ In r (recipients z)
  | add_recipients_link => step (core z) = 3%Z /\ recipients z = []
  | generate_more | view_diplomas => step (core z) = 4%Z
  end.

Section WithBrowser.
Variable w : browser.

Definition fetchRecipients (z : wizard) : prog (list recipient) wizard :=
  Await (Api.perform w (Api.recipients_getAll (Some (selectedCourse (core z)))))
    (fun out =>
       match out with
       | Fulfilled l =>
           Ret {| core := setSelectedRecipients (map recipient_id l) (core z);
                  courses := courses z; templates := templates z;
                  recipients := l |}
       | Rejected _ => Ret z
       end).

(** Choosing a course in the select of step 1; the effect on
    [selectedCourse] then loads its recipients. *)
Definition chooseCourse (i : string) (z : wizard) : prog (list recipient) wizard :=
  if i =? selectedCourse (core z) then Ret z
  else
    let z' := with_core (setSelectedCourse i (core z)) z in
    if Js.truthy i then fetchRecipients z' else Ret z'.

(** What the user can do, step by step of the wizard: press a control
    that is drawn and not disabled. *)
Inductive user_step : wizard -> wizard -> Prop :=
| choose_course z c server :
    can_press z course_select -> In c (courses z) ->
    user_step z (result server (chooseCourse (course_id c) z))
| next1 z :
    can_press z next_step_1 ->
    user_step z (with_core (setStep 2 (core z)) z)
| choose_template z t :
    can_press z (template_option t) ->
    user_step z (with_core (setSelectedTemplate (template_id t) (core z)) z)
| back2 z :
    can_press z back_to_1 ->
    user_step z (with_core (setStep 1 (core z)) z)
| next2 z :
    can_press z next_step_2 ->
    user_step z (with_core (setStep 3 (core z)) z)
| toggle_one z r :
    can_press z (recipient_checkbox r) ->
    user_step z (toggleRecipient (recipient_id r) z)
| toggle_all z :
    can_press z select_all_recipients ->
    user_step z (toggleAllRecipients z)
| back3 z :
    can_press z back_to_2 ->
    user_step z (with_core (setStep 2 (core z)) z)
| generate z ticks server :
    can_press z generate_btn ->
    user_step z
      (with_core (fst (result server (handleGenerate w ticks (core z)))) z)
| more z :
    can_press z generate_more ->
    user_step z (with_core (setGeneratedDiplomas [] (setStep 1 (core z))) z).

(** Past step 1 a course is chosen, past step 2 a template too, and no
    request is pending between two actions. *)
Definition well_formed (z : wizard) : Prop :=
  (1 <= step (core z) <= 4)%Z
  /\ ((2 <= step (core z))%Z -> selectedCourse (core z) <> "")
  /\ ((3 <= step (core z))%Z -> selectedTemplate (core z) <> "")
  /\ generating (core z) = false.

End WithBrowser.
End Wizard.

(** ** pages/SettingsPage.js: loading, saving and uploading *)

Module SettingsForm.
Import Http Toast SettingsPage.

(** [response.data] of [GET /api/settings]: any field may be missing. *)
Record reply := {
  r_login_logo_url : option string;
  r_sidebar_logo_url : option string;
  r_favicon_url : option string;
  r_site_title : option string;
  r_site_description : option string;
  r_email_enabled : option bool;
  r_smtp_host : option string;
  r_smtp_port : option string;
  r_smtp_user : option string;
  r_smtp_password : option string;
  r_smtp_from_name : option string;
  r_smtp_from_email : option string;
}.

(** [v || d] *)
Definition or_default (v : option string) (d : string) : string :=
  match v with
  | Some s => if Js.truthy s then s else d
  | None => d
  end.

(** The object given to [setSettings] by [fetchSettings]. *)
Definition normalise (d : reply) : settings :=
  {| login_logo_url := or_default (r_login_logo_url d) "";
     sidebar_logo_url := or_default (r_sidebar_logo_url d) "";
     favicon_url := or_default (r_favicon_url d) "";
     site_title := or_default (r_site_title d) "";
     site_description := or_default (r_site_description d) "";
     email_enabled := match r_email_enabled d with
                      | Some b => b
                      | None => false
                      end;
     smtp_host := or_default (r_smtp_host d) "smtp.gmail.com";
     smtp_port := or_default (r_smtp_port d) "587";
     smtp_user := or_default (r_smtp_user d) "";
     smtp_password := or_default (r_smtp_password d) "";
     smtp_from_name := or_default (r_smtp_from_name d) "";
     smtp_from_email := or_default (r_smtp_from_email d) "" |}.

(** The [settings] object as the body of the PUT. *)
Definition to_json (s : settings) : json :=
  JObj [("login_logo_url", JStr (login_logo_url s));
        ("sidebar_logo_url", JStr (sidebar_logo_url s));
        ("favicon_url", JStr (favicon_url s));
        ("site_title", JStr (site_title s));
        ("site_description", JStr (site_description s));
        ("email_enabled", JBool (email_enabled s));
        ("smtp_host", JStr (smtp_host s));
        ("smtp_port", JStr (smtp_port s));
        ("smtp_user", JStr (smtp_user s));
        ("smtp_password", JStr (smtp_password s));
        ("smtp_from_name", JStr (smtp_from_name s));
        ("smtp_from_email", JStr (smtp_from_email s))].

(** [obj[key]] on the body. *)
Definition field (key : string) (j : json) : option json :=
  match j with
  | JObj fields =>
      match List.find (fun kv => fst kv =? key) fields with
      | Some kv => Some (snd kv)
      | None => None
      end
  | _ => None
  end.

Record page := {
  core : SettingsPage.state;    (* settings, testing *)
  loading : bool;
  saving : bool;
  uploading : gmap string bool;
}.

(** What the page writes into the document. *)
Record document := {
  title : string;
  favicon : option string;
}.

(** The values given to [useState]. *)
Definition initial : page :=
  {| core :=
       {| current :=
            {| login_logo_url := ""; sidebar_logo_url := ""; favicon_url := "";
               site_title := ""; site_description := "";
               email_enabled := false;
               smtp_host := "smtp.gmail.com"; smtp_port := "587";
               smtp_user := ""; smtp_password := "";
               smtp_from_name := ""; smtp_from_email := "" |};
          testing := false |};
     loading := true; saving := false; uploading := ∅ |}.

Definition setCurrent (s : settings) (p : page) : page :=
  {| core := {| current := s; testing := testing (core p) |};
     loading := loading p; saving := saving p; uploading := uploading p |}.

Definition setLoading (b : bool) (p : page) : page :=
  {| core := core p; loading := b; saving := saving p;
     uploading := uploading p |}.

Definition setSaving (b : bool) (p : page) : page :=
  {| core := core p; loading := loading p; saving := b;
     uploading := uploading p |}.

Definition setUploading (u : gmap string bool) (p : page) : page :=
  {| core := core p; loading := loading p; saving := saving p;
     uploading := u |}.

(** The three upload controls. *)
Inductive upload_field := login_logo | sidebar_logo | favicon_image.

Definition field_name (f : upload_field) : string :=
  match f with
  | login_logo => "login_logo_url"
  | sidebar_logo => "sidebar_logo_url"
  | favicon_image => "favicon_url"
  end.

(** [{ ...settings, [field]: url }] *)
Definition with_upload (f : upload_field) (url : string) (s : settings)
  : settings :=
  {| login_logo_url := match f with login_logo => url | _ => login_logo_url s end;
     sidebar_logo_url :=
       match f with sidebar_logo => url | _ => sidebar_logo_url s end;
     favicon_url := match f with favicon_image => url | _ => favicon_url s end;
     site_title := site_title s;
     site_description := site_description s;
     email_enabled := email_enabled s;
     smtp_host := smtp_host s; smtp_port := smtp_port s;
     smtp_user := smtp_user s; smtp_password := smtp_password s;
     smtp_from_name := smtp_from_name s;
     smtp_from_email := smtp_from_email s |}.

(** The SMTP fields and the test button are drawn under
    [settings.email_enabled &&]. *)
Definition smtp_section_shown (p : page) : bool :=
  email_enabled (current (core p)).

Section WithBrowser.
Variable w : browser.

Definition fetchSettings (p : page) : prog reply (page * list toast) :=
  Await (Direct.perform w Direct.settingsPage_fetch)
    (fun out =>
       match out with
       | Fulfilled d => Ret (setLoading false (setCurrent (normalise d) p), [])
       | Rejected _ =>
           Ret (setLoading false p, [Toast error (T "settings.loadError")])
       end).

Definition handleSave (doc : document) (p : page)
  : prog json (page * document * list toast) :=
  Await (Direct.perform w
           (Direct.settingsPage_save (to_json (current (core p)))))
    (fun out =>
       match out with
       | Fulfilled _ =>
           Ret (setSaving false p,
                {| title := if Js.truthy (site_title (current (core p)))
                            then site_title (current (core p)) else title doc;
                   favicon := if Js.truthy (favicon_url (current (core p)))
                              then Some (favicon_url (current (core p)))
                              else favicon doc |},
                [Toast success (T "settings.saved")])
       | Rejected _ =>
           Ret (setSaving false p, doc, [Toast error (T "settings.saveError")])
       end).

(** [response.data] of [POST /api/upload]. *)
Record uploaded := { url : string }.

(** [file] is [e.target.files[0]], which is undefined when the dialog was
    cancelled. *)
Definition handleUpload (f : upload_field) (file : option string) (p : page)
  : prog uploaded (page * list toast) :=
  match file with
  | None => Ret (p, [])
  | Some name =>
      Await (Direct.perform w (Direct.settingsPage_upload name))
        (fun out =>
           match out with
           | Fulfilled r =>
               Ret (setUploading (<[field_name f := false]> (uploading p))
                      (setCurrent
                         (with_upload f (Direct.API w +:+ url r)
                            (current (core p))) p),
                    [Toast success (T "settings.uploaded")])
           | Rejected _ =>
               Ret (setUploading (<[field_name f := false]> (uploading p)) p,
                    [Toast error (T "settings.uploadError")])
           end)
  end.

End WithBrowser.
End SettingsForm.

(** ** pages/UsersPage.js *)

Module UsersPage.
Import Http Toast.

Record user := {
  id : string;
  name : string;
  email : string;
  is_base_admin : bool;
}.

(** [formData] *)
Record form := {
  form_name : string;
  form_email : string;
  form_password : string;
}.

Record state := {
  users : list user;
  loading : bool;
  showDialog : bool;
  showDeleteDialog : option user;
  editingUser : option user;
  saving : bool;
  formData : form;
}.

(** The values given to [useState]. *)
Definition initial : state :=
  {| users := []; loading := true; showDialog := false;
     showDeleteDialog := None; editingUser := None; saving := false;
     formData := {| form_name := ""; form_email := ""; form_password := "" |} |}.

Definition setUsers (us : list user) (st : state) : state :=
  {| users := us; loading := loading st; showDialog := showDialog st;
     showDeleteDialog := showDeleteDialog st; editingUser := editingUser st;
     saving := saving st; formData := formData st |}.

Definition setLoading (b : bool) (st : state) : state :=
  {| users := users st; loading := b; showDialog := showDialog st;
     showDeleteDialog := showDeleteDialog st; editingUser := editingUser st;
     saving := saving st; formData := formData st |}.

Definition setShowDialog (b : bool) (st : state) : state :=
  {| users := users st; loading := loading st; showDialog := b;
     showDeleteDialog := showDeleteDialog st; editingUser := editingUser st;
     saving := saving st; formData := formData st |}.

Definition setShowDeleteDialog (u : option user) (st : state) : state :=
  {| users := users st; loading := loading st; showDialog := showDialog st;
     showDeleteDialog := u; editingUser := editingUser st;
     saving := saving st; formData := formData st |}.

Definition setEditingUser (u : option user) (st : state) : state :=
  {| users := users st; loading := loading st; showDialog := showDialog st;
     showDeleteDialog := showDeleteDialog st; editingUser := u;
     saving := saving st; formData := formData st |}.

Definition setSaving (b : bool) (st : state) : state :=
  {| users := users st; loading := loading st; showDialog := showDialog st;
     showDeleteDialog := showDeleteDialog st; editingUser := editingUser st;
     saving := b; formData := formData st |}.

Definition setFormData (f : form) (st : state) : state :=
  {| users := users st; loading := loading st; showDialog := showDialog st;
     showDeleteDialog := showDeleteDialog st; editingUser := editingUser st;
     saving := saving st; formData := f |}.

Definition handleOpenDialog (u : option user) (st : state) : state :=
  match u with
  | Some usr =>
      setShowDialog true
        (setFormData {| form_name := name usr; form_email := email usr;
                        form_password := "" |}
           (setEditingUser (Some usr) st))
  | None =>
      setShowDialog true
        (setFormData {| form_name := ""; form_email := ""; form_password := "" |}
           (setEditingUser None st))
  end.

(** [formData] as the body of the POST. *)
Definition form_json (f : form) : json :=
  JObj [("name", JStr (form_name f)); ("email", JStr (form_email f));
        ("password", JStr (form_password f))].

(** [updateData]: the password key is added under [if (formData.password)]. *)
Definition updateData (f : form) : json :=
  JObj ([("name", JStr (form_name f)); ("email", JStr (form_email f))]
        ++ (if Js.truthy (form_password f)
            then [("password", JStr (form_password f))]
            else []))%list.

(** The keys of a JSON object. *)
Definition keys (j : json) : list string :=
  match j with
  | JObj fields => map fst fields
  | _ => []
  end.

(** The delete button of a row is drawn under [!user.is_base_admin]. *)
Definition delete_offered (u : user) : bool := negb (is_base_admin u).

Section WithBrowser.
Variable w : browser.

Definition fetchUsers (st : state) : prog (list user) (state * list toast) :=
  Await (Direct.perform w Direct.users_fetch)
    (fun out =>
       match out with
       | Fulfilled d => Ret (setLoading false (setUsers d st), [])
       | Rejected _ =>
           Ret (setLoading false st, [Toast error (T "users.loadError")])
       end).

(** The request [handleSave] sends once the form has passed its checks. *)
Definition save_request (st : state) : request :=
  match editingUser st with
  | Some u =>
      Direct.perform w (Direct.users_update (id u) (updateData (formData st)))
  | None => Direct.perform w (Direct.users_create (form_json (formData st)))
  end.

(** [handleSave]; the reply to the PUT or POST is not read.  After a
    success the list is fetched again; the result is the state once that
    has settled too. *)
Definition handleSave (st : state) : prog (list user) (state * list toast) :=
  if negb (Js.truthy (form_name (formData st)))
     || negb (Js.truthy (form_email (formData st)))
  then Ret (st, [Toast error (T "users.fillRequired")])
  else if match editingUser st with Some _ => false | None => true end
          && negb (Js.truthy (form_password (formData st)))
  then Ret (st, [Toast error (T "users.passwordRequired")])
  else
    Await (save_request st)
      (fun out =>
         match out with
         | Fulfilled _ =>
             let done :=
               Toast success
                 (T (match editingUser st with
                     | Some _ => "users.updated"
                     | None => "users.created"
                     end)) in
             Await (Direct.perform w Direct.users_fetch)
               (fun out2 =>
                  match out2 with
                  | Fulfilled d =>
                      Ret (setLoading false
                             (setUsers d (setSaving false (setShowDialog false st))),
                           [done])
                  | Rejected _ =>
                      Ret (setLoading false
                             (setSaving false (setShowDialog false st)),
                           [done; Toast error (T "users.loadError")])
                  end)
         | Rejected err =>
             Ret (setSaving false st,
                  [Toast error (detail_or (err_detail err) "users.saveError")])
         end).

Definition handleDelete (userId : string) (st : state)
  : prog (list user) (state * list toast) :=
  Await (Direct.perform w (Direct.users_delete userId))
    (fun out =>
       match out with
       | Fulfilled _ =>
           let done := Toast success (T "users.deleted") in
           Await (Direct.perform w Direct.users_fetch)
             (fun out2 =>
                match out2 with
                | Fulfilled d =>
                    Ret (setLoading false
                           (setUsers d (setShowDeleteDialog None st)),
                         [done])
                | Rejected _ =>
                    Ret (setLoading false (setShowDeleteDialog None st),
                         [done; Toast error (T "users.loadError")])
                end)
       | Rejected err =>
           Ret (st,
                [Toast error (detail_or (err_detail err) "users.deleteError")])
       end).

(** What an administrator can do on the page, with the requests each
    action sends. *)
Inductive user_step : state -> list request -> state -> Prop :=
| load st server :
    user_step st (trace server (fetchUsers st))
      (fst (result server (fetchUsers st)))
| open_add st :
    loading st = false ->
    user_step st [] (handleOpenDialog None st)
| open_edit st u :
    loading st = false -> In u (users st) ->
    user_step st [] (handleOpenDialog (Some u) st)
| type_form st f :
    showDialog st = true ->
    user_step st [] (setFormData f st)
| cancel_form st :
    showDialog st = true ->
    user_step st [] (setShowDialog false st)
| save st server :
    showDialog st = true -> saving st = false ->
    user_step st (trace server (handleSave st))
      (fst (result server (handleSave st)))
| ask_delete st u :
    loading st = false -> In u (users st) -> delete_offered u = true ->
    user_step st [] (setShowDeleteDialog (Some u) st)
| cancel_delete st :
    user_step st [] (setShowDeleteDialog None st)
| confirm_delete st u server :
    showDeleteDialog st = Some u ->
    user_step st (trace server (handleDelete (id u) st))
      (fst (result server (handleDelete (id u) st))).

(** A session: the states the page has gone through since it was opened,
    the latest first, and all the requests sent on the way. *)
Inductive session : list state -> list request -> Prop :=
| opened : session [initial] []
| acted st past sent reqs st' :
    session (st :: past) sent -> user_step st reqs st' ->
    session (st' :: st :: past) (sent ++ reqs)%list.

(** A user that one of these states listed without the base-admin
    mark. *)
Definition listed_unmarked (history : list state) (u : user) : Prop :=
  is_base_admin u = false
  /\ exists before, In before history /\ In u (users before).

(** What holds of the confirmation dialog and of the requests sent
    during a session. *)
Definition delete_dialog_ok (history : list state) (st : state) : Prop :=
  forall u, showDeleteDialog st = Some u -> listed_unmarked history u.

Definition deletes_ok (history : list state) (sent : list request) : Prop :=
  forall r, In r sent -> req_method r = DELETE ->
    exists u, r = Direct.perform w (Direct.users_delete (id u))
              /\ listed_unmarked history u.

End WithBrowser.
End UsersPage.

(** ** pages/ScanLogs.js *)

Module ScanLogs.
Import Http Toast.

Record log := {
  ip_address : string;
  user_agent : option string;
  scanned_at : string;
}.

Record state := {
  logs : list log;
  loading : bool;
  clearing : bool;
  showClearDialog : bool;
}.

Definition initial : state :=
  {| logs := []; loading := true; clearing := false;
     showClearDialog := false |}.

(** [s.includes(sub)] *)
Fixpoint includes (sub s : string) : bool :=
  String.prefix sub s
  || match s with
     | EmptyString => false
     | String _ rest => includes sub rest
     end.

(** The [name] of the device that [parseUserAgent] returns. *)
Definition parseUserAgent (ua : option string) : string :=
  match ua with
  | None => "Unknown"
  | Some s =>
      if negb (Js.truthy s) || (s =? "unknown") then "Unknown"
      else if includes "Mobile" s || includes "Android" s || includes "iPhone" s
      then "Mobile"
      else if includes "Chrome" s then "Chrome"
      else if includes "Firefox" s then "Firefox"
      else if includes "Safari" s then "Safari"
      else "Browser"
  end.

(** [todayCount]; [is_today] compares the day of a time stamp with the
    day of the clock. *)
Definition todayCount (is_today : string -> bool) (st : state) : nat :=
  length (List.filter (fun l => is_today (scanned_at l)) (logs st)).

(** [new Set(logs.map(l => l.ip_address)).size] *)
Definition uniqueIPs (st : state) : nat :=
  size (list_to_set (map ip_address (logs st)) : gset string).

(** The button that opens the dialog is drawn under [logs.length > 0]. *)
Definition clear_button_shown (st : state) : bool :=
  (0 <? length (logs st))%nat.

Section WithBrowser.
Variable w : browser.

Definition fetchLogs (st : state) : prog (list log) (state * list toast) :=
  Await (Api.perform w (Api.scanLogs_getAll None))
    (fun out =>
       match out with
       | Fulfilled d =>
           Ret ({| logs := d; loading := false; clearing := clearing st;
                   showClearDialog := showClearDialog st |}, [])
       | Rejected _ =>
           Ret ({| logs := logs st; loading := false; clearing := clearing st;
                   showClearDialog := showClearDialog st |},
                [Toast error (T "scanLogs.loadError")])
       end).

Definition handleClearLogs (st : state) : prog (list log) (state * list toast) :=
  Await (Api.perform w Api.scanLogs_clear)
    (fun out =>
       match out with
       | Fulfilled _ =>
           Ret ({| logs := []; loading := loading st; clearing := false;
                   showClearDialog := false |},
                [Toast success (T "scanLogs.cleared")])
       | Rejected _ =>
           Ret ({| logs := logs st; loading := loading st; clearing := false;
                   showClearDialog := false |},
                [Toast error (T "scanLogs.clearError")])
       end).

End WithBrowser.
End ScanLogs.

(** ** pages/VerifyPage.js: the PDF download *)

Module VerifyDownload.
Import Http Toast VerifyPage.

Definition setDownloading (b : bool) (st : state) : state :=
  {| data := data st; loading := loading st; downloading := b;
     error := error st; settings := settings st |}.

(** The file handed to the browser: the [download] attribute of the link
    and the bytes of the blob. *)
Record saved_file := {
  file_name : string;
  content : string;
}.

Section WithBrowser.
Variable w : browser.

(** [handleDownloadPdf]; [response.data] is the content of the PDF. *)
Definition handleDownloadPdf (certificateId : string) (st : state)
  : prog string (state * option saved_file * list toast) :=
  Await (Api.perform w (Api.diplomas_downloadPdfPublic certificateId))
    (fun out =>
       match out with
       | Fulfilled pdf =>
           Ret (setDownloading false st,
                Some {| file_name := "certificado_" +:+ certificateId +:+ ".pdf";
                        content := pdf |},
                [Toast Toast.success (T "diplomas.downloadSuccess")])
       | Rejected _ =>
           Ret (setDownloading false st, None,
                [Toast Toast.error (T "diplomas.downloadError")])
       end).

(** The download button of a rendered page. *)
Definition download_button (v : view) : bool :=
  match v with
  | Verdict _ _ b _ => b
  | _ => false
  end.

End WithBrowser.
End VerifyDownload.

(** ** pages/CourseForm.js *)

Module CourseForm.
Import Http Toast.

(** [formData] *)
Record form := {
  name : string;
  description : string;
  instructor : string;
  duration_hours : Z;
  start_date : string;
  end_date : string;
}.

(** [response.data] of [GET /api/courses/:id]. *)
Record course := {
  course_name : string;
  course_description : option string;
  course_instructor : string;
  course_duration_hours : Z;
  course_start_date : option string;
  course_end_date : option string;
}.

Record state := {
  loading : bool;
  fetching : bool;
  formData : form;
}.

(** [const { id } = useParams()] *)
Definition id_of (pathname : string) : option string :=
  match List.find (fun kv => fst kv =? "id") (App.useParams pathname) with
  | Some kv => Some (snd kv)
  | None => None
  end.

(** [Boolean(id)] *)
Definition isEdit (id : option string) : bool := Js.truthy_opt id.

(** The values given to [useState]. *)
Definition initial (id : option string) : state :=
  {| loading := false; fetching := isEdit id;
     formData := {| name := ""; description := ""; instructor := "";
                    duration_hours := 20; start_date := ""; end_date := "" |} |}.

(** [v || ''] *)
Definition or_empty (v : option string) : string :=
  match v with
  | Some s => s
  | None => ""
  end.

Definition form_of (c : course) : form :=
  {| name := course_name c;
     description := or_empty (course_description c);
     instructor := course_instructor c;
     duration_hours := course_duration_hours c;
     start_date := or_empty (course_start_date c);
     end_date := or_empty (course_end_date c) |}.

Definition form_json (f : form) : json :=
  JObj [("name", JStr (name f)); ("description", JStr (description f));
        ("instructor", JStr (instructor f));
        ("duration_hours", JNum (duration_hours f));
        ("start_date", JStr (start_date f)); ("end_date", JStr (end_date f))].

(** What a handler leaves behind: the state, the toasts and the address
    given to [navigate], if it was called. *)
Record effect := {
  after : state;
  toasts : list toast;
  navigated : option string;
}.

Section WithBrowser.
Variable w : browser.

Definition fetchCourse (id : string) (st : state) : prog course effect :=
  Await (Api.perform w (Api.courses_getById id))
    (fun out =>
       match out with
       | Fulfilled c =>
           Ret {| after := {| loading := loading st; fetching := false;
                              formData := form_of c |};
                  toasts := []; navigated := None |}
       | Rejected _ =>
           Ret {| after := {| loading := loading st; fetching := false;
                              formData := formData st |};
                  toasts := [Toast error (T "courses.loadError")];
                  navigated := Some "/courses" |}
       end).

(** The effect run when the page is shown: [if (isEdit) fetchCourse()]. *)
Definition onMount (id : option string) : prog course effect :=
  match id with
  | Some i =>
      if Js.truthy i then fetchCourse i (initial id)
      else Ret {| after := initial id; toasts := []; navigated := None |}
  | None => Ret {| after := initial id; toasts := []; navigated := None |}
  end.

(** The request [handleSubmit] sends. *)
Definition submit_request (id : option string) (st : state) : request :=
  match id with
  | Some i =>
      if Js.truthy i
      then Api.perform w (Api.courses_update i (form_json (formData st)))
      else Api.perform w (Api.courses_create (form_json (formData st)))
  | None => Api.perform w (Api.courses_create (form_json (formData st)))
  end.

Definition handleSubmit (id : option string) (st : state) : prog json effect :=
  Await (submit_request id st)
    (fun out =>
       match out with
       | Fulfilled _ =>
           Ret {| after := {| loading := false; fetching := fetching st;
                              formData := formData st |};
                  toasts := [Toast success
                               (T (if isEdit id then "courses.courseUpdated"
                                   else "courses.courseCreated"))];
                  navigated := Some "/courses" |}
       | Rejected err =>
           Ret {| after := {| loading := false; fetching := fetching st;
                              formData := formData st |};
                  toasts := [Toast error
                               (detail_or (err_detail err) "common.error")];
                  navigated := None |}
       end).

End WithBrowser.
End CourseForm.

(** ** Further sample inputs *)

Module Cases.

Definition diplomas_page : DiplomasPage.page :=
  {| DiplomasPage.base := Samples.two_listed_one_selected;
     DiplomasPage.actionDialog := Some (DiplomasPage.revoke, "d1");
     DiplomasPage.sendingEmailId := None;
     DiplomasPage.current_filters := DiplomasPage.initial_filters |}.

Definition accepts (_ : Http.request) : Http.outcome Http.json :=
  Http.Fulfilled Http.JNull.

Definition refuses (_ : Http.request) : Http.outcome Http.json :=
  Http.Rejected {| Http.err_status := Some 500%Z; Http.err_detail := None |}.

Definition course_a : Wizard.course :=
  {| Wizard.course_id := "course-a"; Wizard.course_name := "Algebra" |}.

Definition template_a : Wizard.template :=
  {| Wizard.template_id := "template-a"; Wizard.template_name := "Classic" |}.

Definition no_recipients (_ : Http.request)
  : Http.outcome (list Wizard.recipient) := Http.Fulfilled [].

Definition ana : Wizard.recipient :=
  {| Wizard.recipient_id := "r1"; Wizard.full_name := "Ana";
     Wizard.email := "ana@example.org" |}.

Definition ben : Wizard.recipient :=
  {| Wizard.recipient_id := "r2"; Wizard.full_name := "Ben";
     Wizard.email := "ben@example.org" |}.

Definition wizard_at_recipients : Wizard.wizard :=
  {| Wizard.core := Samples.wizard_ready;
     Wizard.courses := [course_a];
     Wizard.templates := [template_a];
     Wizard.recipients := [ana; ben] |}.

(** A reply of [GET /api/settings] from a server on which nothing has
    been configured yet, and a server that gives it. *)
Definition bare_reply : SettingsForm.reply :=
  {| SettingsForm.r_login_logo_url := None;
     SettingsForm.r_sidebar_logo_url := None;
     SettingsForm.r_favicon_url := None;
     SettingsForm.r_site_title := Some "Diplomas";
     SettingsForm.r_site_description := None;
     SettingsForm.r_email_enabled := None;
     SettingsForm.r_smtp_host := None;
     SettingsForm.r_smtp_port := Some "";
     SettingsForm.r_smtp_user := None;
     SettingsForm.r_smtp_password := None;
     SettingsForm.r_smtp_from_name := None;
     SettingsForm.r_smtp_from_email := None |}.

Definition settings_without_mail (_ : Http.request)
  : Http.outcome SettingsForm.reply := Http.Fulfilled bare_reply.

Definition blank_document : SettingsForm.document :=
  {| SettingsForm.title := "App"; SettingsForm.favicon := None |}.

Definition stores_upload (_ : Http.request)
  : Http.outcome SettingsForm.uploaded :=
  Http.Fulfilled {| SettingsForm.url := "/uploads/logo.png" |}.

Definition root_admin : UsersPage.user :=
  {| UsersPage.id := "u1"; UsersPage.name := "Root";
     UsersPage.email := "root@example.org"; UsersPage.is_base_admin := true |}.

Definition carla : UsersPage.user :=
  {| UsersPage.id := "u2"; UsersPage.name := "Carla";
     UsersPage.email := "carla@example.org";
     UsersPage.is_base_admin := false |}.

Definition lists_users (_ : Http.request)
  : Http.outcome (list UsersPage.user) := Http.Fulfilled [root_admin; carla].

Definition users_loaded : UsersPage.state :=
  UsersPage.setLoading false
    (UsersPage.setUsers [root_admin; carla] UsersPage.initial).

Definition refuses_upload (_ : Http.request)
  : Http.outcome SettingsForm.uploaded :=
  Http.Rejected {| Http.err_status := Some 413%Z; Http.err_detail := None |}.

Definition scan (ip : string) : ScanLogs.log :=
  {| ScanLogs.ip_address := ip;
     ScanLogs.user_agent :=
       Some "Mozilla/5.0 (Linux; Android 14) AppleWebKit/537.36 Chrome/126.0 Mobile Safari/537.36";
     ScanLogs.scanned_at := "2025-03-01T10:00:00Z" |}.

Definition three_scans : ScanLogs.state :=
  {| ScanLogs.logs := [scan "10.0.0.1"; scan "10.0.0.2"; scan "10.0.0.1"];
     ScanLogs.loading := false; ScanLogs.clearing := false;
     ScanLogs.showClearDialog := true |}.

Definition clears (_ : Http.request) : Http.outcome (list ScanLogs.log) :=
  Http.Fulfilled [].

(** User agents of a desktop Chrome, a desktop Safari and a Chrome on a
    phone. *)
Definition chrome_desktop : string :=
  "Mozilla/5.0 (Windows NT 10.0; Win64; x64) AppleWebKit/537.36 (KHTML, like Gecko) Chrome/126.0.0.0 Safari/537.36".

Definition safari_desktop : string :=
  "Mozilla/5.0 (Macintosh; Intel Mac OS X 10_15_7) AppleWebKit/605.1.15 (KHTML, like Gecko) Version/17.4 Safari/605.1.15".

Definition chrome_phone : string :=
  "Mozilla/5.0 (Linux; Android 14; Pixel 8) AppleWebKit/537.36 (KHTML, like Gecko) Chrome/126.0.0.0 Mobile Safari/537.36".

Definition serves_pdf (_ : Http.request) : Http.outcome string :=
  Http.Fulfilled "%PDF-1.7".

Definition algebra : CourseForm.course :=
  {| CourseForm.course_name := "Algebra";
     CourseForm.course_description := None;
     CourseForm.course_instructor := "Dr. Ruiz";
     CourseForm.course_duration_hours := 40;
     CourseForm.course_start_date := Some "2025-01-10";
     CourseForm.course_end_date := None |}.

Definition serves_course (_ : Http.request) : Http.outcome CourseForm.course :=
  Http.Fulfilled algebra.

(** The diplomas page with the status filter on revoked. *)
Definition revoked_only : DiplomasPage.page :=
  DiplomasPage.setFilters
    {| DiplomasPage.course_id := "all"; DiplomasPage.status_filter := "revoked";
       DiplomasPage.search := "" |} diplomas_page.

Definition lists_recipients (_ : Http.request)
  : Http.outcome (list Wizard.recipient) := Http.Fulfilled [ana; ben].

End Cases.

(** * Properties *)

(** ** The definitions at work *)

Example verify_request :
  Api.perform Samples.signed_in (Api.verify_verify "CERT-2024-0001")
  = {| Http.req_method := Http.GET;
       Http.req_url := "https://api.example.org/api/verify/CERT-2024-0001";
       Http.req_headers := ∅;
       Http.req_body := Http.NoBody;
       Http.req_responseType := None |}.
Proof. reflexivity. Qed.

Example upload_headers :
  Http.req_headers (Api.perform Samples.signed_in (Api.upload_upload "logo.png"))
  = {[ "Authorization" := "Bearer abc"; "Content-Type" := "multipart/form-data" ]}.
Proof. vm_compute. reflexivity. Qed.

Example diplomas_query :
  Http.req_url
    (Api.perform Samples.signed_out
       (Api.diplomas_getAll
          {| Api.filter_course_id := Some "c1"; Api.filter_status := Some "";
             Api.filter_search := Some "ada" |}))
  = "https://api.example.org/api/diplomas?course_id=c1&search=ada".
Proof. reflexivity. Qed.

Example route_edit_course :
  App.render Samples.admin "/Courses/42/edit/" = App.InLayout App.CourseForm.
Proof. reflexivity. Qed.

Example route_visitor_dashboard :
  App.render Samples.visitor "/" = App.Redirect "/login".
Proof. reflexivity. Qed.

Example route_empty_segment :
  App.render Samples.admin "/verify//x" = App.Redirect "/".
Proof. reflexivity. Qed.

Example round_half_up :
  (TemplateBuilder.Math_round (5 # 2), TemplateBuilder.Math_round (- 5 # 2))
  = (3%Z, (-2)%Z).
Proof. reflexivity. Qed.

Example transform_is_clamped :
  TemplateBuilder.qrSize
    (TemplateBuilder.onTransformEnd Samples.qr_element 9 (1 # 2) 10 20)
  = Some 400%Z.
Proof. reflexivity. Qed.

Example progress_stops_at_ninety : GenerateDiplomas.tick 12 0 = 90%Z.
Proof. reflexivity. Qed.

(** ** Truthiness *)

Lemma truthy_true (s : string) : Js.truthy s = true <-> s <> "".
Proof.
  unfold Js.truthy. rewrite negb_true_iff. apply String.eqb_neq.
Qed.

Lemma truthy_false (s : string) : Js.truthy s = false <-> s = "".
Proof.
  unfold Js.truthy. rewrite negb_false_iff. apply String.eqb_eq.
Qed.

Lemma truthy_opt_false (o : option string) :
  Js.truthy_opt o = false <-> o = None \/ o = Some "".
Proof.
  destruct o as [s|]; simpl.
  - rewrite truthy_false. split.
    + intros ->. now right.
    + intros [H|H]; congruence.
  - split; auto.
Qed.

(** ** The Authorization header (lib/api.js and the pages) *)

Section AuthorizationHeader.
Import Http Client.
Variable w : browser.

Lemma api_header_bearer (token : string) :
  localStorage w !! "token" = Some token -> token <> "" ->
  Api.getAuthHeader w !! "Authorization" = Some ("Bearer " +:+ token).
Proof.
  intros Hget Hne. unfold Api.getAuthHeader. rewrite Hget.
  apply truthy_true in Hne. rewrite Hne. apply lookup_singleton_eq.
Qed.

Lemma api_header_empty :
  Js.truthy_opt (localStorage w !! "token") = false ->
  Api.getAuthHeader w = ∅.
Proof.
  unfold Api.getAuthHeader, Js.truthy_opt.
  destruct (localStorage w !! "token") as [token|]; [|reflexivity].
  now intros ->.
Qed.

Lemma direct_header_eq : Direct.getAuthHeader w = Api.getAuthHeader w.
Proof. reflexivity. Qed.

Lemma admin_call_headers (c : call) :
  is_admin c = true ->
  authorization (request_of w c) = Api.getAuthHeader w !! "Authorization".
Proof.
  unfold authorization.
  destruct c as [op|op]; destruct op; simpl; intros H;
    try discriminate H; try reflexivity;
    apply lookup_insert_ne; discriminate.
Qed.

Lemma public_call_headers (c : call) :
  is_public c = true -> authorization (request_of w c) = None.
Proof.
  unfold authorization.
  destruct c as [op|op]; destruct op; simpl; intros H;
    try discriminate H; apply lookup_empty.
Qed.

Lemma layout_request_header (r : request) :
  Direct.layout_fetchSettings w = Some r ->
  exists token, localStorage w !! "token" = Some token /\ token <> ""
                /\ authorization r = Some ("Bearer " +:+ token).
Proof.
  unfold Direct.layout_fetchSettings.
  destruct (localStorage w !! "token") as [token|]; [|discriminate].
  destruct (Js.truthy token) eqn:Ht; [|discriminate].
  intros [= <-]. exists token. split; [reflexivity|]. split.
  - now apply truthy_true.
  - apply lookup_singleton_eq.
Qed.

End AuthorizationHeader.

(** C6. Every operation of the administrator's pages (courses, templates,
    recipients, diploma actions, settings, email templates, users, scan
    logs, uploads, dashboard) carries [Authorization: Bearer <token>] with
    the token read from [localStorage]; when no token is stored (the key
    is absent or holds the empty string) the request has no Authorization
    header at all.  The public operations (login, register, verify, public
    settings, public PDF download, diploma data, seed) never carry the
    header.  The layout's settings request is sent only with a token and
    then carries it. *)
Theorem C6_jwt_header_on_admin_calls_only (w : browser) (c : Client.call) :
  (Client.is_admin c = true ->
     (forall token, localStorage w !! "token" = Some token -> token <> "" ->
        Client.authorization (Client.request_of w c)
        = Some ("Bearer " +:+ token))
     /\ (Js.truthy_opt (localStorage w !! "token") = false ->
         Client.authorization (Client.request_of w c) = None))
  /\ (Client.is_public c = true ->
      Client.authorization (Client.request_of w c) = None)
  /\ (forall r, Direct.layout_fetchSettings w = Some r ->
        exists token, localStorage w !! "token" = Some token /\ token <> ""
                      /\ Client.authorization r = Some ("Bearer " +:+ token)).
Proof.
  split; [|split].
  - intros Hadmin. rewrite (admin_call_headers w c Hadmin). split.
    + intros token Hget Hne. now apply api_header_bearer.
    + intros Hnone. rewrite (api_header_empty w Hnone). apply lookup_empty.
  - apply public_call_headers.
  - apply layout_request_header.
Qed.

Lemma C6_witness :
  Client.is_admin (Client.ApiCall Api.courses_getAll) = true
  /\ localStorage Samples.signed_in !! "token" = Some "abc"
  /\ Client.authorization
       (Client.request_of Samples.signed_in (Client.ApiCall Api.courses_getAll))
     = Some "Bearer abc".
Proof.
  split; [reflexivity|]. split; [reflexivity|].
  apply (proj1 (proj1 (C6_jwt_header_on_admin_calls_only Samples.signed_in
                         (Client.ApiCall Api.courses_getAll)) eq_refl)).
  - reflexivity.
  - discriminate.
Defined.

(** ** The route table (App.js) *)

Section Routing.
Import App.

Lemma matchRoutes_In (routes : list route) (segs : list string) r params :
  matchRoutes routes segs = Some (r, params) ->
  In r routes /\ matchPath (path r) segs = Some params.
Proof.
  induction routes as [|r0 routes IH]; simpl; [discriminate|].
  destruct (matchPath (path r0) segs) as [p0|] eqn:Hm.
  - intros [= <- <-]. auto.
  - intros H. destruct (IH H) as [Hin Hp]. auto.
Qed.

Lemma matchRoutes_skip (routes tail : list route) (segs : list string) :
  (forall r, In r routes -> matchPath (path r) segs = None) ->
  matchRoutes (routes ++ tail) segs = matchRoutes tail segs.
Proof.
  induction routes as [|r0 routes IH]; simpl; intros Hnone; [reflexivity|].
  rewrite (Hnone r0) by auto. apply IH. intros r Hr. apply Hnone. auto.
Qed.

(** Two patterns matched by one location overlap. *)
Lemma matchPath_overlap (p q : list segment) (segs : list string) :
  is_Some (matchPath p segs) -> is_Some (matchPath q segs) ->
  overlap p q = true.
Proof.
  revert q segs. induction p as [|a p IH]; intros q segs Hp Hq.
  - destruct segs; simpl in Hp; [|destruct Hp; discriminate].
    destruct q as [|[s|n|] q]; simpl in *; try reflexivity;
      destruct Hq; discriminate.
  - destruct a as [s|n|]; [| |reflexivity].
    + destruct segs as [|x segs]; simpl in Hp; [destruct Hp; discriminate|].
      destruct (lower s =? lower x) eqn:Hs; [|destruct Hp; discriminate].
      apply String.eqb_eq in Hs.
      destruct q as [|[t|m|] q]; simpl in Hq |- *;
        try reflexivity; try (destruct Hq; discriminate).
      * destruct (lower t =? lower x) eqn:Ht; [|destruct Hq; discriminate].
        apply String.eqb_eq in Ht. rewrite Hs, Ht, String.eqb_refl. simpl.
        eapply IH; eassumption.
      * destruct (x =? ""); [destruct Hq; discriminate|].
        destruct (matchPath q segs) eqn:Hq'; [|destruct Hq; discriminate].
        eapply IH; [eassumption|]. rewrite Hq'. eauto.
    + destruct segs as [|x segs]; simpl in Hp; [destruct Hp; discriminate|].
      destruct (x =? "") eqn:Hx; [destruct Hp; discriminate|].
      destruct (matchPath p segs) eqn:Hp'; [|destruct Hp; discriminate].
      destruct q as [|[t|m|] q]; simpl in Hq |- *;
        try reflexivity; try (destruct Hq; discriminate).
      * destruct (lower t =? lower x); [|destruct Hq; discriminate].
        eapply IH; [rewrite Hp'; eauto|eassumption].
      * rewrite Hx in Hq.
        destruct (matchPath q segs) eqn:Hq'; [|destruct Hq; discriminate].
        eapply IH; [rewrite Hp'; eauto|rewrite Hq'; eauto].
Qed.

(** No two routes of the table, the catch-all apart, match the same
    location: whichever order the router ranks them in, the result is the
    one [matchRoutes] gives. *)
Lemma routes_unambiguous (segs : list string) (r1 r2 : route) :
  In r1 AppRoutes -> In r2 AppRoutes ->
  is_splat r1 = false -> is_splat r2 = false ->
  is_Some (matchPath (path r1) segs) -> is_Some (matchPath (path r2) segs) ->
  r1 = r2.
Proof.
  intros H1 H2 S1 S2 M1 M2.
  pose proof (matchPath_overlap _ _ _ M1 M2) as Hov.
  clear M1 M2. unfold AppRoutes in H1, H2. simpl in H1, H2.
  repeat (destruct H1 as [<-|H1]; [|]);
    try contradiction; try discriminate S1;
    repeat (destruct H2 as [<-|H2]; [|]);
    try contradiction; try discriminate S2;
    try reflexivity; vm_compute in Hov; discriminate Hov.
Qed.

(** The catch-all is the last route and takes what nothing else does. *)
Lemma unknown_matches_catch_all (pathname : string) :
  known pathname = false ->
  matchRoutes AppRoutes (segments pathname)
  = Some (Route [Splat] (Navigate "/"), []).
Proof.
  unfold known. intros Hk.
  change AppRoutes with (removelast AppRoutes ++ [Route [Splat] (Navigate "/")])%list.
  rewrite matchRoutes_skip; [reflexivity|].
  intros r Hr.
  rewrite <- not_true_iff_false, existsb_exists in Hk.
  destruct (matchPath (path r) (segments pathname)) as [params|] eqn:Hm;
    [|reflexivity].
  exfalso. apply Hk. exists r. split.
  - change AppRoutes with (removelast AppRoutes ++ [Route [Splat] (Navigate "/")])%list.
    apply in_or_app. now left.
  - rewrite Hm. apply andb_true_intro. split.
    + simpl in Hr. intuition (subst; reflexivity).
    + apply bool_decide_eq_true. eauto.
Qed.

Lemma bare_routes_are_public (r : route) (p : page) :
  In r AppRoutes -> elem r = Bare p -> is_public p = true.
Proof.
  unfold AppRoutes. simpl. intros Hin He.
  repeat (destruct Hin as [<-|Hin]; [simpl in He; try discriminate He;
                                     injection He as <-; reflexivity|]).
  contradiction.
Qed.

Lemma renderProtectedRoute_shows {U} (a : auth_state U) (child p : page) :
  shown_page (renderProtectedRoute a child) = Some p ->
  p = child /\ loading a = false /\ is_Some (user a).
Proof.
  unfold renderProtectedRoute.
  destruct (loading a); [discriminate|].
  destruct (user a) as [u|]; [|discriminate].
  simpl. intros [= <-]. eauto.
Qed.

(** *** Splitting the pathname of a verification link *)







Lemma url_plain_tokens (s : string) :
  url_plain s = true ->
  exists ts, tokens s = Some ts /\ bytes_of ts = s
             /\ utf8_ok 0 128 191 ts = true.
Proof.
  induction s as [|c s IH]; cbn [url_plain tokens].
  - intros _. exists []. repeat split.
  - intros H. apply andb_prop in H as [Hc Hs].
    destruct (IH Hs) as (ts & Ht & Hb & Hu).
    apply negb_true_iff in Hc. rewrite !orb_false_iff in Hc.
    destruct Hc as [_ Hpc]. rewrite Hpc, Ht.
    exists (Lit c :: ts). cbn [bytes_of utf8_ok Nat.eqb andb].
    rewrite Hb, Hu. repeat split.
Qed.

Lemma url_plain_decode (s : string) :
  url_plain s = true -> decode_param s = s.
Proof.
  intros H. destruct (url_plain_tokens s H) as (ts & Ht & Hb & Hu).
  unfold decode_param, decodeURIComponent. now rewrite Ht, Hu, Hb.
Qed.

End Routing.

(** C10. A page that is not public is shown only to a signed-in user: the
    guard shows the placeholder while the authentication state is
    loading, redirects to /login when loading is over and there is no
    user, and shows the page inside the layout only when there is a user.
    Every page the router shows is public or goes through the guard, and
    a location no route knows redirects to /. *)
Theorem C10_protected_pages_need_a_user {U} (a : App.auth_state U)
  (pathname : string) :
  (forall child,
      (App.loading a = true ->
       App.renderProtectedRoute a child = App.LoadingPlaceholder)
      /\ (App.loading a = false -> App.user a = None ->
          App.renderProtectedRoute a child = App.Redirect "/login")
      /\ (App.loading a = false -> is_Some (App.user a) ->
          App.renderProtectedRoute a child = App.InLayout child)
      /\ (forall p, App.shown_page (App.renderProtectedRoute a child) = Some p ->
            p = child /\ App.loading a = false /\ is_Some (App.user a)))
  /\ (forall p, App.shown_page (App.render a pathname) = Some p ->
        App.is_public p = false ->
        App.loading a = false /\ is_Some (App.user a)
        /\ App.render a pathname = App.InLayout p)
  /\ (App.known pathname = false -> App.render a pathname = App.Redirect "/").
Proof.
  split; [|split].
  - intros child. split; [|split; [|split]].
    + unfold App.renderProtectedRoute. now intros ->.
    + unfold App.renderProtectedRoute. now intros -> ->.
    + unfold App.renderProtectedRoute. intros -> [u ->]. reflexivity.
    + intros p. apply renderProtectedRoute_shows.
  - intros p Hshown Hpriv. unfold App.render in *.
    destruct (App.matchRoutes App.AppRoutes (App.segments pathname))
      as [[r params]|] eqn:Hm; [|discriminate].
    apply matchRoutes_In in Hm as [Hin _].
    destruct (App.elem r) as [q|child|to] eqn:He; simpl in *.
    + injection Hshown as ->.
      rewrite (bare_routes_are_public r p Hin He) in Hpriv. discriminate.
    + pose proof (renderProtectedRoute_shows a child p Hshown) as (-> & Hl & Hu).
      repeat split; try assumption.
      unfold App.renderProtectedRoute. rewrite Hl. now destruct Hu as [u ->].
    + discriminate.
  - intros Hunknown. unfold App.render.
    now rewrite (unknown_matches_catch_all pathname Hunknown).
Qed.

Lemma C10_witness :
  App.known "/nowhere" = false
  /\ App.render Samples.visitor "/nowhere" = App.Redirect "/".
Proof.
  split; [reflexivity|].
  apply (proj2 (proj2 (C10_protected_pages_need_a_user
                         Samples.visitor "/nowhere"))).
  reflexivity.
Defined.




(** ** The verification page (pages/VerifyPage.js) *)

Lemma string_app_assoc (a b c : string) : (a +:+ b) +:+ c = a +:+ b +:+ c.
Proof.
  induction a as [|x a IH]; [reflexivity|].
  change ((String x a +:+ b) +:+ c) with (String x ((a +:+ b) +:+ c)).
  now rewrite IH.
Qed.

Section Verification.
Import Http VerifyPage.
Variable w : browser.





End Verification.




(** ** The diplomas page (pages/Diplomas.js) *)

Section DiplomasPage.
Import Http Diplomas.

Lemma includes_In (l : list string) (x : string) :
  includes l x = true <-> In x l.
Proof.
  unfold includes. rewrite existsb_exists. split.
  - intros (y & Hy & Heq). apply String.eqb_eq in Heq. now subst.
  - intros Hin. exists x. split; [assumption|apply String.eqb_refl].
Qed.

Lemma sentIds_succeeded (r : bulk_response) (d : diploma) :
  includes (sentIds r) (id d) = true <-> succeeded r d.
Proof.
  rewrite includes_In. unfold sentIds, succeeded.
  rewrite in_map_iff. split.
  - intros (res & Hid & Hin). apply filter_In in Hin as [Hin Hok]. eauto.
  - intros (res & Hin & Hid & Hok). exists res. split; [assumption|].
    apply filter_In. auto.
Qed.

Lemma sentIds_not_succeeded (r : bulk_response) (d : diploma) :
  includes (sentIds r) (id d) = false <-> ~ succeeded r d.
Proof.
  rewrite <- sentIds_succeeded. symmetry. apply not_true_iff_false.
Qed.

Variable w : browser.

Lemma handleBulkSendEmail_empty (now : string) (st : state) :
  selectedDiplomas st = [] -> handleBulkSendEmail w now st = Ret (st, []).
Proof.
  intros Hsel. unfold handleBulkSendEmail. now rewrite Hsel.
Qed.

Lemma handleBulkSendEmail_fulfilled (now : string) (st : state)
  (server : request -> outcome bulk_response) (r : bulk_response) :
  selectedDiplomas st <> [] ->
  server (Api.perform w (Api.diplomas_sendBulkEmail (selectedDiplomas st)))
  = Fulfilled r ->
  let st' := fst (result server (handleBulkSendEmail w now st)) in
  selectedDiplomas st' = []
  /\ sendingBulk st' = false
  /\ diplomas st'
     = if (sent r >? 0)%Z
       then map (fun d => if includes (sentIds r) (id d)
                          then mark_sent now d else d) (diplomas st)
       else diplomas st.
Proof.
  intros Hsel Hreply. unfold handleBulkSendEmail, result.
  destruct (selectedDiplomas st) as [|i sel] eqn:Hs; [contradiction|].
  cbn [length Nat.eqb run]. rewrite Hreply.
  destruct (sent r >? 0)%Z; simpl; auto.
Qed.

(** When the request itself fails nothing is marked and the selection
    stays. *)
Lemma handleBulkSendEmail_rejected (now : string) (st : state)
  (server : request -> outcome bulk_response) (err : axios_error) :
  selectedDiplomas st <> [] ->
  server (Api.perform w (Api.diplomas_sendBulkEmail (selectedDiplomas st)))
  = Rejected err ->
  fst (result server (handleBulkSendEmail w now st)) = setSendingBulk false st.
Proof.
  intros Hsel Hreply. unfold handleBulkSendEmail, result.
  destruct (selectedDiplomas st) as [|i sel] eqn:Hs; [contradiction|].
  cbn [length Nat.eqb run]. now rewrite Hreply.
Qed.

End DiplomasPage.

(** C2, as the code has it.  For an empty selection no request is made and
    nothing changes.  For a non-empty selection the client sends all the
    selected ids in one POST to /api/diplomas/send-bulk-email.  When the
    reply's [sent] count is positive, a listed diploma is marked as
    email_sent exactly when one of the per-item results carries its id
    with success true, and every other diploma is left as it was (a
    failed item does not keep the others from being marked); when the
    count is not positive the list is left unchanged.  In both cases the
    selection is cleared. *)
Theorem C2_bulk_email_single_post (w : browser) (now : string)
  (st : Diplomas.state)
  (server : Http.request -> Http.outcome Diplomas.bulk_response) :
  (Diplomas.selectedDiplomas st = [] ->
     Http.run server (Diplomas.handleBulkSendEmail w now st) = ([], (st, [])))
  /\ (Diplomas.selectedDiplomas st <> [] ->
      exists request,
        Http.trace server (Diplomas.handleBulkSendEmail w now st) = [request]
        /\ Http.req_method request = Http.POST
        /\ Http.req_url request
           = REACT_APP_BACKEND_URL w +:+ "/api/diplomas/send-bulk-email"
        /\ Http.req_body request
           = Http.JsonBody
               (Http.JObj
                  [("diploma_ids",
                    Http.JArr (map Http.JStr (Diplomas.selectedDiplomas st)))])
        /\ forall r, server request = Http.Fulfilled r ->
             let st' :=
               fst (Http.result server (Diplomas.handleBulkSendEmail w now st)) in
             Diplomas.selectedDiplomas st' = []
             /\ length (Diplomas.diplomas st') = length (Diplomas.diplomas st)
             /\ forall (i : nat) d, Diplomas.diplomas st !! i = Some d ->
                  ((0 < Diplomas.sent r)%Z -> Diplomas.succeeded r d ->
                   Diplomas.diplomas st' !! i = Some (Diplomas.mark_sent now d))
                  /\ ((0 < Diplomas.sent r)%Z -> ~ Diplomas.succeeded r d ->
                      Diplomas.diplomas st' !! i = Some d)
                  /\ ((Diplomas.sent r <= 0)%Z ->
                      Diplomas.diplomas st' !! i = Some d)).
Proof.
  split.
  - intros Hsel. now rewrite (handleBulkSendEmail_empty w now st Hsel).
  - intros Hsel.
    exists (Api.perform w (Api.diplomas_sendBulkEmail (Diplomas.selectedDiplomas st))).
    split; [|split; [reflexivity|split; [|split; [reflexivity|]]]].
    + unfold Diplomas.handleBulkSendEmail, Http.trace.
      destruct (Diplomas.selectedDiplomas st) eqn:Hs; [contradiction|].
      simpl. now destruct (server _) as [r|err]; [destruct (_ >? _)%Z|].
    + cbn. unfold Api.API. rewrite string_app_assoc. reflexivity.
    + intros r Hreply.
      destruct (handleBulkSendEmail_fulfilled w now st server r Hsel Hreply)
        as (Hclear & _ & Hlist).
      cbv zeta. split; [exact Hclear|]. rewrite Hlist.
      destruct (Z.gtb_spec (Diplomas.sent r) 0) as [Hpos|Hnonpos].
      * split; [apply length_map|]. intros i d Hd.
        rewrite list_lookup_fmap, Hd. simpl. repeat split.
        -- intros _ Hok. apply sentIds_succeeded in Hok. now rewrite Hok.
        -- intros _ Hko. apply sentIds_not_succeeded in Hko. now rewrite Hko.
        -- intros Hle. lia.
      * split; [reflexivity|]. intros i d Hd. repeat split.
        -- intros Hlt. lia.
        -- intros Hlt. lia.
        -- intros _. exact Hd.
Qed.

Lemma C2_witness :
  Diplomas.selectedDiplomas Samples.two_listed_one_selected <> []
  /\ map Diplomas.email_sent
       (Diplomas.diplomas
          (fst (Http.result (fun _ => Http.Fulfilled Samples.reply_one_sent)
                  (Diplomas.handleBulkSendEmail Samples.signed_in "t1"
                     Samples.two_listed_one_selected))))
     = [true; false]
  /\ exists request,
       Http.trace (fun _ => Http.Fulfilled Samples.reply_one_sent)
         (Diplomas.handleBulkSendEmail Samples.signed_in "t1"
            Samples.two_listed_one_selected) = [request]
       /\ Http.req_method request = Http.POST.
Proof.
  split; [discriminate|]. split; [reflexivity|].
  destruct (proj2 (C2_bulk_email_single_post Samples.signed_in "t1"
                     Samples.two_listed_one_selected
                     (fun _ => Http.Fulfilled Samples.reply_one_sent)))
    as (request & Htrace & Hpost & _); [discriminate|].
  exists request. split; assumption.
Defined.

(** C2 read without the guard on the [sent] count fails: the reply lists
    diploma d1 with success true and a count of zero, the selection is not
    empty, and d1 is not marked. *)
Lemma C2_counterexample :
  let st := Samples.two_listed_one_selected in
  let r := Samples.reply_sent_zero in
  let st' :=
    fst (Http.result (fun _ => Http.Fulfilled r)
           (Diplomas.handleBulkSendEmail Samples.signed_in "t1" st)) in
  Diplomas.selectedDiplomas st <> []
  /\ Diplomas.diplomas st !! 0%nat = Some (Samples.pending_diploma "d1")
  /\ Diplomas.succeeded r (Samples.pending_diploma "d1")
  /\ Diplomas.diplomas st' !! 0%nat
     <> Some (Diplomas.mark_sent "t1" (Samples.pending_diploma "d1"))
  /\ map Diplomas.email_sent (Diplomas.diplomas st') = [false; false].
Proof.
  cbv zeta. split; [discriminate|]. split; [reflexivity|]. split.
  - eexists. split; [left; reflexivity|]. split; reflexivity.
  - split; [discriminate|reflexivity].
Qed.

(** C8. The select-all checkbox is an exact toggle: checking it selects
    the ids of all the listed diplomas, in the order of the list, and only
    those; unchecking it empties the selection; neither touches the list.
    The checkbox is drawn checked exactly when the selection has as many
    entries as the list and the list is not empty.  Select-all followed by
    deselect-all gives the empty selection from any state. *)
Theorem C8_select_all_toggle (st : Diplomas.state) :
  Diplomas.selectedDiplomas (Diplomas.handleSelectAll true st)
  = map Diplomas.id (Diplomas.diplomas st)
  /\ (forall i, In i (Diplomas.selectedDiplomas (Diplomas.handleSelectAll true st))
                <-> exists d, In d (Diplomas.diplomas st) /\ Diplomas.id d = i)
  /\ Diplomas.selectedDiplomas (Diplomas.handleSelectAll false st) = []
  /\ (forall b, Diplomas.diplomas (Diplomas.handleSelectAll b st)
                = Diplomas.diplomas st)
  /\ (Diplomas.select_all_checked st = true
      <-> length (Diplomas.selectedDiplomas st) = length (Diplomas.diplomas st)
          /\ 0 < length (Diplomas.diplomas st))
  /\ Diplomas.selectedDiplomas
       (Diplomas.handleSelectAll false (Diplomas.handleSelectAll true st)) = []
  /\ (Diplomas.select_all_checked (Diplomas.handleSelectAll true st) = true
      <-> Diplomas.diplomas st <> [])
  /\ Diplomas.select_all_checked (Diplomas.handleSelectAll false st) = false.
Proof.
  split; [reflexivity|]. split.
  { intros i. simpl. rewrite in_map_iff. split.
    - intros (d & Hid & Hin). eauto.
    - intros (d & Hin & Hid). eauto. }
  split; [reflexivity|]. split; [now intros []|]. split.
  { unfold Diplomas.select_all_checked.
    rewrite andb_true_iff, Nat.eqb_eq, Nat.ltb_lt. reflexivity. }
  split; [reflexivity|]. split.
  - unfold Diplomas.select_all_checked. simpl.
    rewrite length_map, Nat.eqb_refl. simpl.
    destruct (Diplomas.diplomas st) as [|d ds]; simpl.
    + split; [discriminate|]. intros Hne. now contradiction Hne.
    + split; [discriminate|reflexivity].
  - unfold Diplomas.select_all_checked. simpl.
    destruct (Diplomas.diplomas st); reflexivity.
Qed.

Lemma C8_witness :
  Diplomas.selectedDiplomas
    (Diplomas.handleSelectAll true Samples.two_listed_one_selected)
  = ["d1"; "d2"]
  /\ Diplomas.select_all_checked
       (Diplomas.handleSelectAll true Samples.two_listed_one_selected) = true.
Proof.
  split.
  - apply (proj1 (C8_select_all_toggle Samples.two_listed_one_selected)).
  - apply (proj2 (proj2 (proj2 (proj2 (proj2 (proj2
             (C8_select_all_toggle Samples.two_listed_one_selected))))))).
    discriminate.
Defined.

(** ** The generation wizard (pages/GenerateDiplomas.js) *)

Section Wizard.
Import Http GenerateDiplomas Toast.
Variable w : browser.

Lemma handleGenerate_refuses (ticks : nat) (st : state) :
  selectedCourse st = "" \/ selectedTemplate st = ""
  \/ selectedRecipients st = [] ->
  handleGenerate w ticks st
  = Ret (st, [Toast error (T "generate.completeSelections")]).
Proof.
  unfold handleGenerate. intros [H|[H|H]]; rewrite H; simpl.
  - reflexivity.
  - now rewrite orb_true_r.
  - now rewrite !orb_true_r.
Qed.

Lemma handleGenerate_run (ticks : nat) (st : state)
  (server : request -> outcome generate_response) :
  selectedCourse st <> "" -> selectedTemplate st <> "" ->
  selectedRecipients st <> [] ->
  let request := Api.perform w (Api.diplomas_generate (payload st)) in
  trace server (handleGenerate w ticks st) = [request]
  /\ step (fst (result server (handleGenerate w ticks st)))
     = match server request with
       | Fulfilled r => if (generated r >? 0)%Z then 4%Z else step st
       | Rejected _ => step st
       end.
Proof.
  intros Hc Ht Hr. unfold handleGenerate, trace, result.
  apply truthy_true in Hc, Ht. rewrite Hc, Ht.
  destruct (selectedRecipients st) as [|r0 rs] eqn:Hrs; [contradiction|].
  cbn [negb orb length Nat.eqb run].
  destruct (server _) as [r|err]; [destruct (generated r >? 0)%Z|];
    split; reflexivity.
Qed.

End Wizard.

(** C7. A click on generate with no course, no template or no recipient
    selected shows an error, sends no request and leaves the wizard as it
    is.  Otherwise it sends exactly one POST to /api/diplomas/generate
    whose body is the selected course_id, template_id and recipient_ids,
    and the wizard moves to the success step (step 4) exactly when the
    request succeeds with generated > 0; in every other case the step
    stays where it was. *)
Theorem C7_generate_under_precondition (w : browser) (ticks : nat)
  (st : GenerateDiplomas.state)
  (server : Http.request -> Http.outcome GenerateDiplomas.generate_response) :
  (GenerateDiplomas.selectedCourse st = ""
   \/ GenerateDiplomas.selectedTemplate st = ""
   \/ GenerateDiplomas.selectedRecipients st = [] ->
   Http.run server (GenerateDiplomas.handleGenerate w ticks st)
   = ([], (st, [Toast.Toast Toast.error (Toast.T "generate.completeSelections")])))
  /\ (GenerateDiplomas.selectedCourse st <> "" ->
      GenerateDiplomas.selectedTemplate st <> "" ->
      GenerateDiplomas.selectedRecipients st <> [] ->
      exists request,
        Http.trace server (GenerateDiplomas.handleGenerate w ticks st) = [request]
        /\ Http.req_method request = Http.POST
        /\ Http.req_url request
           = REACT_APP_BACKEND_URL w +:+ "/api/diplomas/generate"
        /\ Http.req_body request
           = Http.JsonBody
               (Http.JObj
                  [("course_id", Http.JStr (GenerateDiplomas.selectedCourse st));
                   ("template_id", Http.JStr (GenerateDiplomas.selectedTemplate st));
                   ("recipient_ids",
                    Http.JArr (map Http.JStr
                                 (GenerateDiplomas.selectedRecipients st)))])
        /\ (forall r, server request = Http.Fulfilled r ->
              (0 < GenerateDiplomas.generated r)%Z ->
              GenerateDiplomas.step
                (fst (Http.result server
                        (GenerateDiplomas.handleGenerate w ticks st))) = 4%Z)
        /\ ((forall r, server request = Http.Fulfilled r ->
               (GenerateDiplomas.generated r <= 0)%Z) ->
            GenerateDiplomas.step
              (fst (Http.result server
                      (GenerateDiplomas.handleGenerate w ticks st)))
            = GenerateDiplomas.step st)).
Proof.
  split.
  - intros Hmissing. now rewrite (handleGenerate_refuses w ticks st Hmissing).
  - intros Hc Ht Hr.
    destruct (handleGenerate_run w ticks st server Hc Ht Hr) as [Htrace Hstep].
    exists (Api.perform w (Api.diplomas_generate (GenerateDiplomas.payload st))).
    split; [exact Htrace|]. split; [reflexivity|].
    split; [cbn; unfold Api.API; rewrite string_app_assoc; reflexivity|].
    split; [reflexivity|]. rewrite Hstep. split.
    + intros r -> Hpos. apply Z.gtb_lt in Hpos. now rewrite Hpos.
    + intros Hnone. destruct (server _) as [r|err]; [|reflexivity].
      specialize (Hnone r eq_refl).
      destruct (Z.gtb_spec (GenerateDiplomas.generated r) 0); [lia|reflexivity].
Qed.

Lemma C7_witness :
  GenerateDiplomas.selectedTemplate Samples.wizard_no_template = ""
  /\ Http.run Samples.two_generated
       (GenerateDiplomas.handleGenerate Samples.signed_in 3
          Samples.wizard_no_template)
     = ([], (Samples.wizard_no_template,
             [Toast.Toast Toast.error (Toast.T "generate.completeSelections")]))
  /\ GenerateDiplomas.selectedCourse Samples.wizard_ready <> ""
  /\ GenerateDiplomas.selectedTemplate Samples.wizard_ready <> ""
  /\ GenerateDiplomas.selectedRecipients Samples.wizard_ready <> []
  /\ exists request,
       Http.trace Samples.two_generated
         (GenerateDiplomas.handleGenerate Samples.signed_in 3
            Samples.wizard_ready) = [request]
       /\ GenerateDiplomas.step
            (fst (Http.result Samples.two_generated
                    (GenerateDiplomas.handleGenerate Samples.signed_in 3
                       Samples.wizard_ready))) = 4%Z.
Proof.
  split; [reflexivity|]. split.
  - apply (proj1 (C7_generate_under_precondition Samples.signed_in 3
                    Samples.wizard_no_template Samples.two_generated)).
    right. left. reflexivity.
  - split; [discriminate|]. split; [discriminate|]. split; [discriminate|].
    destruct (proj2 (C7_generate_under_precondition Samples.signed_in 3
                       Samples.wizard_ready Samples.two_generated))
      as (request & Htrace & _ & _ & _ & Hstep & _); try discriminate.
    exists request. split; [exact Htrace|].
    apply (Hstep {| GenerateDiplomas.generated := 2;
                    GenerateDiplomas.response_diplomas :=
                      [Http.JStr "a"; Http.JStr "b"] |});
      [reflexivity|simpl; lia].
Defined.

(** ** The settings page (pages/SettingsPage.js) *)

Section Settings.
Import Http SettingsPage Toast.
Variable w : browser.

Lemma handleTestEmail_refuses (st : state) :
  smtp_user (current st) = "" \/ smtp_password (current st) = "" ->
  handleTestEmail w st
  = Ret (st, [Toast error (T "settings.emailConfigRequired")]).
Proof.
  unfold handleTestEmail. intros [H|H]; rewrite H; simpl.
  - reflexivity.
  - now rewrite orb_true_r.
Qed.

Lemma handleTestEmail_sends (st : state)
  (server : request -> outcome json) :
  smtp_user (current st) <> "" -> smtp_password (current st) <> "" ->
  trace server (handleTestEmail w st)
  = [Direct.perform w Direct.settingsPage_testEmail].
Proof.
  intros Hu Hp. unfold handleTestEmail, trace.
  apply truthy_true in Hu, Hp. rewrite Hu, Hp.
  cbn [negb orb run]. now destruct (server _).
Qed.

End Settings.

(** C9. With smtp_user or smtp_password empty the test-email button is
    disabled, and the handler, if it is called all the same, shows the
    error message, sends no request and changes nothing.  A request is
    sent only when both are non-empty, and then it is the one POST to
    /api/settings/test-email. *)
Theorem C9_test_email_needs_credentials (w : browser)
  (st : SettingsPage.state)
  (server : Http.request -> Http.outcome Http.json) :
  (SettingsPage.smtp_user (SettingsPage.current st) = ""
   \/ SettingsPage.smtp_password (SettingsPage.current st) = "" ->
   SettingsPage.test_email_disabled st = true
   /\ Http.run server (SettingsPage.handleTestEmail w st)
      = ([], (st, [Toast.Toast Toast.error
                     (Toast.T "settings.emailConfigRequired")])))
  /\ (Http.trace server (SettingsPage.handleTestEmail w st) <> [] ->
      SettingsPage.smtp_user (SettingsPage.current st) <> ""
      /\ SettingsPage.smtp_password (SettingsPage.current st) <> "")
  /\ (SettingsPage.smtp_user (SettingsPage.current st) <> "" ->
      SettingsPage.smtp_password (SettingsPage.current st) <> "" ->
      exists request,
        Http.trace server (SettingsPage.handleTestEmail w st) = [request]
        /\ Http.req_method request = Http.POST
        /\ Http.req_url request
           = REACT_APP_BACKEND_URL w +:+ "/api/settings/test-email"
        /\ SettingsPage.test_email_disabled st = SettingsPage.testing st).
Proof.
  split; [|split].
  - intros Hempty. split.
    + unfold SettingsPage.test_email_disabled.
      destruct Hempty as [H|H]; rewrite H; simpl;
        now rewrite ?orb_true_r.
    + now rewrite (handleTestEmail_refuses w st Hempty).
  - intros Hsent.
    destruct (String.eqb_spec (SettingsPage.smtp_user (SettingsPage.current st)) "")
      as [Hu|Hu].
    + exfalso. apply Hsent. unfold Http.trace.
      now rewrite (handleTestEmail_refuses w st (or_introl Hu)).
    + destruct (String.eqb_spec
                  (SettingsPage.smtp_password (SettingsPage.current st)) "")
        as [Hp|Hp]; [|auto].
      exfalso. apply Hsent. unfold Http.trace.
      now rewrite (handleTestEmail_refuses w st (or_intror Hp)).
  - intros Hu Hp. exists (Direct.perform w Direct.settingsPage_testEmail).
    split; [now apply handleTestEmail_sends|]. split; [reflexivity|].
    split; [reflexivity|].
    unfold SettingsPage.test_email_disabled.
    apply truthy_true in Hu, Hp. rewrite Hu, Hp. simpl.
    now rewrite !orb_false_r.
Qed.

Lemma C9_witness :
  SettingsPage.smtp_password
    (SettingsPage.current (Samples.smtp_settings "mailer@example.org" "")) = ""
  /\ SettingsPage.test_email_disabled
       (Samples.smtp_settings "mailer@example.org" "") = true
  /\ Http.trace (fun _ => Http.Fulfilled Http.JNull)
       (SettingsPage.handleTestEmail Samples.signed_in
          (Samples.smtp_settings "mailer@example.org" "")) = [].
Proof.
  split; [reflexivity|].
  destruct (proj1 (C9_test_email_needs_credentials Samples.signed_in
                     (Samples.smtp_settings "mailer@example.org" "")
                     (fun _ => Http.Fulfilled Http.JNull)))
    as [Hdisabled Hrun]; [right; reflexivity|].
  split; [exact Hdisabled|]. unfold Http.trace. now rewrite Hrun.
Defined.

(** ** The template builder (pages/TemplateBuilder.js) *)

Section Builder.
Import TemplateBuilder.

Lemma filter_keeps_all {A} (f : A -> bool) (l : list A) :
  (forall a, In a l -> f a = true) -> List.filter f l = l.
Proof.
  induction l as [|a l IH]; simpl; intros Hall; [reflexivity|].
  rewrite (Hall a) by auto. f_equal. apply IH. auto.
Qed.

Lemma filter_sublist {A} (f : A -> bool) (l : list A) :
  sublist (List.filter f l) l.
Proof.
  induction l as [|a l IH]; simpl.
  - constructor.
  - destruct (f a); now constructor.
Qed.

Lemma updateElement_lookup (u : element) (st : state) (i : nat) (el : element) :
  elements st !! i = Some el ->
  elements (updateElement u st) !! i
  = Some (if id el =? id u then u else el).
Proof.
  intros Hel. simpl. now rewrite list_lookup_fmap, Hel.
Qed.

Lemma deleteSelected_elements (st : state) (sel : string) :
  selectedId st = Some sel -> sel <> "" ->
  deleteSelected st
  = {| elements := List.filter (fun el => negb (id el =? sel)) (elements st);
       selectedId := None |}.
Proof.
  intros Hsel Hne. unfold deleteSelected. rewrite Hsel.
  apply truthy_true in Hne. now rewrite Hne.
Qed.

Lemma deleteSelected_nothing_selected (st : state) :
  Js.truthy_opt (selectedId st) = false -> deleteSelected st = st.
Proof.
  unfold deleteSelected, Js.truthy_opt.
  destruct (selectedId st) as [sel|]; [|reflexivity]. now intros ->.
Qed.

End Builder.

(** C3. The layout is a flat list: adding an element appends it.
    [updateElement] puts the updated element at every position whose
    element carries its id and leaves every other position, the length,
    the order and the selection as they were.  [deleteSelected] removes
    the elements whose id is the current selection and no other: what
    remains is the old list, in order, without them (with unique ids, the
    list without that one element), and the selection is cleared; with
    nothing selected it changes nothing. *)
Theorem C3_update_and_delete_are_framed (st : TemplateBuilder.state)
  (u : TemplateBuilder.element) :
  (forall now type variable,
      exists el,
        TemplateBuilder.elements (TemplateBuilder.addElement now type variable st)
        = (TemplateBuilder.elements st ++ [el])%list
        /\ TemplateBuilder.id el = pretty now)
  /\ length (TemplateBuilder.elements (TemplateBuilder.updateElement u st))
     = length (TemplateBuilder.elements st)
  /\ TemplateBuilder.selectedId (TemplateBuilder.updateElement u st)
     = TemplateBuilder.selectedId st
  /\ (forall (i : nat) el,
        TemplateBuilder.elements st !! i = Some el ->
        (TemplateBuilder.id el = TemplateBuilder.id u ->
         TemplateBuilder.elements (TemplateBuilder.updateElement u st) !! i
         = Some u)
        /\ (TemplateBuilder.id el <> TemplateBuilder.id u ->
            TemplateBuilder.elements (TemplateBuilder.updateElement u st) !! i
            = Some el))
  /\ (forall sel,
        TemplateBuilder.selectedId st = Some sel -> sel <> "" ->
        let st' := TemplateBuilder.deleteSelected st in
        TemplateBuilder.selectedId st' = None
        /\ sublist (TemplateBuilder.elements st') (TemplateBuilder.elements st)
        /\ (forall el, In el (TemplateBuilder.elements st')
                       <-> In el (TemplateBuilder.elements st)
                           /\ TemplateBuilder.id el <> sel)
        /\ (forall l1 el l2,
              TemplateBuilder.elements st = (l1 ++ el :: l2)%list ->
              TemplateBuilder.id el = sel ->
              (forall e, In e (l1 ++ l2)%list -> TemplateBuilder.id e <> sel) ->
              TemplateBuilder.elements st' = (l1 ++ l2)%list))
  /\ (Js.truthy_opt (TemplateBuilder.selectedId st) = false ->
      TemplateBuilder.deleteSelected st = st).
Proof.
  split; [|split; [|split; [|split; [|split]]]].
  - intros now type variable. eexists. split; reflexivity.
  - simpl. apply length_map.
  - reflexivity.
  - intros i el Hel. rewrite (updateElement_lookup u st i el Hel). split.
    + intros ->. now rewrite String.eqb_refl.
    + intros Hne. apply String.eqb_neq in Hne. now rewrite Hne.
  - intros sel Hsel Hne. cbv zeta.
    rewrite (deleteSelected_elements st sel Hsel Hne). simpl.
    split; [reflexivity|]. split; [apply filter_sublist|]. split.
    + intros el. rewrite filter_In, negb_true_iff, String.eqb_neq. reflexivity.
    + intros l1 el l2 Hsplit Hid Hothers. rewrite Hsplit, List.filter_app.
      simpl. rewrite Hid, String.eqb_refl. simpl.
      rewrite !filter_keeps_all; [reflexivity| |];
        intros e He; apply negb_true_iff, String.eqb_neq, Hothers, in_or_app;
        auto.
  - apply deleteSelected_nothing_selected.
Qed.

Lemma C3_witness :
  TemplateBuilder.selectedId Samples.layout = Some "1700000000000"
  /\ "1700000000000" <> ""
  /\ TemplateBuilder.elements (TemplateBuilder.deleteSelected Samples.layout)
     = [Samples.title_element].
Proof.
  split; [reflexivity|]. split; [discriminate|].
  destruct (proj1 (proj2 (proj2 (proj2 (proj2
              (C3_update_and_delete_are_framed Samples.layout
                 Samples.qr_element)))))
              "1700000000000" eq_refl) as (_ & _ & _ & Hexact);
    [discriminate|].
  apply (Hexact [] Samples.qr_element [Samples.title_element]);
    [reflexivity|reflexivity|].
  intros e [<-|[]]. discriminate.
Defined.

(** *** The size of a QR code element *)

Section QrSize.
Import TemplateBuilder.

Lemma ltb_lt (a b : Q) : ltb a b = true <-> (a < b)%Q.
Proof.
  unfold ltb. rewrite negb_true_iff, <- not_true_iff_false, Qle_bool_iff.
  split; [apply Qnot_le_lt|apply Qlt_not_le].
Qed.

Lemma ltb_ge (a b : Q) : ltb a b = false <-> (b <= a)%Q.
Proof.
  unfold ltb. rewrite negb_false_iff. apply Qle_bool_iff.
Qed.

Lemma clamp_in_range (n : Z) : (50 <= Z.max 50 (Z.min 400 n) <= 400)%Z.
Proof. lia. Qed.

Lemma onTransformEnd_in_range (e : element) (sx sy nx ny : Q) :
  qr_in_range (onTransformEnd e sx sy nx ny).
Proof.
  eexists. split; [reflexivity|apply clamp_in_range].
Qed.

Lemma onDragEnd_in_range (e : element) (tx ty : Q) :
  qr_in_range e -> qr_in_range (onDragEnd e tx ty).
Proof. intros Hin. exact Hin. Qed.

Lemma onSizeChange_in_range (e : element) (v : Z) :
  reports qr_size_slider v -> qr_in_range (onSizeChange e v).
Proof.
  intros Hv. exists v. split; [reflexivity|exact Hv].
Qed.

Lemma qr_event_preserves (e e' : element) :
  qr_event e e' -> qr_in_range e -> qr_in_range e'.
Proof.
  intros Hev Hin. destruct Hev as [e tx ty|e sx sy nx ny|e v Hv].
  - now apply onDragEnd_in_range.
  - apply onTransformEnd_in_range.
  - now apply onSizeChange_in_range.
Qed.

(** The invariant holds along any sequence of interactions. *)
Lemma qr_events_preserve (e e' : element) :
  rtc qr_event e e' -> qr_in_range e -> qr_in_range e'.
Proof.
  intros Hsteps. induction Hsteps as [e|e e1 e' Hstep _ IH]; [auto|].
  intros Hin. apply IH. now apply (qr_event_preserves e e1).
Qed.

Lemma boundBoxFunc_rejects (oldBox newBox : box) :
  (width newBox < 50 \/ height newBox < 50
   \/ 400 < width newBox \/ 400 < height newBox)%Q ->
  boundBoxFunc oldBox newBox = oldBox.
Proof.
  unfold boundBoxFunc. intros Hout.
  destruct (ltb (width newBox) 50) eqn:Hw; [reflexivity|].
  destruct (ltb (height newBox) 50) eqn:Hh; [reflexivity|].
  destruct (ltb 400 (width newBox)) eqn:Hw'; [reflexivity|].
  destruct (ltb 400 (height newBox)) eqn:Hh'; [reflexivity|].
  apply ltb_ge in Hw, Hh, Hw', Hh'. exfalso.
  destruct Hout as [H|[H|[H|H]]]; apply Qlt_not_le in H; contradiction.
Qed.

Lemma boundBoxFunc_accepts (oldBox newBox : box) :
  (50 <= width newBox <= 400 /\ 50 <= height newBox <= 400)%Q ->
  boundBoxFunc oldBox newBox = newBox.
Proof.
  unfold boundBoxFunc. intros [[Hw Hw'] [Hh Hh']].
  apply ltb_ge in Hw, Hw', Hh, Hh'. now rewrite Hw, Hw', Hh, Hh'.
Qed.

End QrSize.

(** C4. Every handler of a QR code element keeps 50 <= qrSize <= 400.  A
    drag changes x and y and nothing else.  A transform stores
    max(50, min(400, newSize)), where newSize is the rounded product of
    the current size and the larger scale factor, which lies in the range
    whatever the scale.  The transformer's bound-box function hands back
    the old box when the new one is below 50 or above 400 pixels in width
    or height, and the new box otherwise.  The size slider has min 50 and
    max 400, so every value it reports is in the range.  Hence the range
    holds after any sequence of drags, transforms and slider moves. *)
Theorem C4_qr_size_stays_in_range (e : TemplateBuilder.element) :
  (forall tx ty,
      let e' := TemplateBuilder.onDragEnd e tx ty in
      TemplateBuilder.x e' = tx /\ TemplateBuilder.y e' = ty
      /\ TemplateBuilder.id e' = TemplateBuilder.id e
      /\ TemplateBuilder.type e' = TemplateBuilder.type e
      /\ TemplateBuilder.variable e' = TemplateBuilder.variable e
      /\ TemplateBuilder.qrSize e' = TemplateBuilder.qrSize e
      /\ TemplateBuilder.props e' = TemplateBuilder.props e)
  /\ (forall sx sy nx ny,
        exists n,
          TemplateBuilder.qrSize (TemplateBuilder.onTransformEnd e sx sy nx ny)
          = Some n
          /\ n = Z.max 50
                   (Z.min 400
                      (TemplateBuilder.Math_round
                         (inject_Z (TemplateBuilder.size e)
                          * TemplateBuilder.Math_max sx sy)))
          /\ (50 <= n <= 400)%Z)
  /\ (forall oldBox newBox,
        ((TemplateBuilder.width newBox < 50
          \/ TemplateBuilder.height newBox < 50
          \/ 400 < TemplateBuilder.width newBox
          \/ 400 < TemplateBuilder.height newBox)%Q ->
         TemplateBuilder.boundBoxFunc oldBox newBox = oldBox)
        /\ ((50 <= TemplateBuilder.width newBox <= 400
             /\ 50 <= TemplateBuilder.height newBox <= 400)%Q ->
            TemplateBuilder.boundBoxFunc oldBox newBox = newBox))
  /\ TemplateBuilder.min TemplateBuilder.qr_size_slider = 50%Z
  /\ TemplateBuilder.max TemplateBuilder.qr_size_slider = 400%Z
  /\ (forall v,
        TemplateBuilder.reports TemplateBuilder.qr_size_slider v ->
        TemplateBuilder.qrSize (TemplateBuilder.onSizeChange e v) = Some v
        /\ (50 <= v <= 400)%Z)
  /\ (forall e',
        rtc TemplateBuilder.qr_event e e' ->
        TemplateBuilder.qr_in_range e -> TemplateBuilder.qr_in_range e').
Proof.
  split; [|split; [|split; [|split; [|split; [|split]]]]].
  - intros tx ty. cbv zeta. repeat split.
  - intros sx sy nx ny. eexists. split; [reflexivity|].
    split; [reflexivity|apply clamp_in_range].
  - intros oldBox newBox. split.
    + apply boundBoxFunc_rejects.
    + apply boundBoxFunc_accepts.
  - reflexivity.
  - reflexivity.
  - intros v Hv. split; [reflexivity|exact Hv].
  - apply qr_events_preserve.
Qed.

Lemma C4_witness :
  TemplateBuilder.qr_in_range Samples.qr_element
  /\ TemplateBuilder.qr_in_range
       (TemplateBuilder.onSizeChange
          (TemplateBuilder.onTransformEnd
             (TemplateBuilder.onDragEnd Samples.qr_element 10 20)
             9 (1 # 2) 10 20)
          60).
Proof.
  assert (Hstart : TemplateBuilder.qr_in_range Samples.qr_element).
  { exists 120%Z. split; [reflexivity|lia]. }
  split; [exact Hstart|].
  apply (proj2 (proj2 (proj2 (proj2 (proj2 (proj2
           (C4_qr_size_stays_in_range Samples.qr_element))))))); [|exact Hstart].
  eapply rtc_l; [apply TemplateBuilder.ev_drag|].
  eapply rtc_l; [apply TemplateBuilder.ev_transform|].
  eapply rtc_l; [apply TemplateBuilder.ev_slide|apply rtc_refl].
  unfold TemplateBuilder.reports. simpl. lia.
Defined.

(** * Further properties *)

(** ** Where the requests go (lib/api.js and the pages) *)

Section RequestShape.
Import Http Client.
Variable w : browser.




Lemma getAuthHeader_content_type :
  Api.getAuthHeader w !! "Content-Type" = None.
Proof.
  unfold Api.getAuthHeader.
  destruct (localStorage w !! "token") as [token|]; [|apply lookup_empty].
  destruct (Js.truthy token); [|apply lookup_empty].
  apply lookup_singleton_ne. discriminate.
Qed.

End RequestShape.



(** X2. A request carries form data exactly when it declares
    Content-Type: multipart/form-data, no other request sets a content
    type, and a blob is asked for only by GET requests. *)
Theorem form_data_is_declared_multipart (w : browser) (c : Client.call) :
  ((exists entries,
       Http.req_body (Client.request_of w c) = Http.FormData entries)
   <-> Http.req_headers (Client.request_of w c) !! "Content-Type"
       = Some "multipart/form-data")
  /\ ((forall entries,
         Http.req_body (Client.request_of w c) <> Http.FormData entries)
      <-> Http.req_headers (Client.request_of w c) !! "Content-Type" = None)
  /\ (Http.req_responseType (Client.request_of w c) = Some "blob"
      \/ Http.req_responseType (Client.request_of w c) = None)
  /\ (Http.req_responseType (Client.request_of w c) = Some "blob" ->
      Http.req_method (Client.request_of w c) = Http.GET
      /\ Http.req_body (Client.request_of w c) = Http.NoBody).
Proof.
  pose proof (getAuthHeader_content_type w) as Hct.
  destruct c as [op|op]; destruct op; simpl;
    try change (Direct.getAuthHeader w) with (Api.getAuthHeader w);
    rewrite ?lookup_insert_eq, ?Hct, ?lookup_empty;
    (split; [split; [intros [entries He]; try discriminate He; reflexivity
                    |intros He; try discriminate He; eauto]|]);
    (split; [split; [intros Hno; try reflexivity;
                     exfalso; eapply Hno; reflexivity
                    |intros He; try discriminate He;
                     intros entries; discriminate]|]);
    (split; [auto|]); intros Hb; try discriminate Hb; auto.
Qed.

Lemma form_data_is_declared_multipart_witness :
  Http.req_method
    (Client.request_of Samples.signed_in
       (Client.ApiCall (Api.diplomas_downloadPdfPublic "CERT-1"))) = Http.GET.
Proof.
  apply (proj2 (proj2 (proj2
           (form_data_is_declared_multipart Samples.signed_in
              (Client.ApiCall (Api.diplomas_downloadPdfPublic "CERT-1")))))).
  reflexivity.
Defined.

(** ** Where a location leads (App.js) *)

Section Redirects.
Import App Navigation.

Lemma matchRoutes_finds (routes : list route) (segs : list string) (r : route) :
  In r routes -> is_Some (matchPath (path r) segs) ->
  is_Some (matchRoutes routes segs).
Proof.
  induction routes as [|r0 routes IH]; simpl; [contradiction|].
  intros [->|Hin] Hm.
  - destruct Hm as [params ->]. eauto.
  - destruct (matchPath (path r0) segs); eauto.
Qed.

(** Because of the catch-all, some route always matches. *)
Lemma matchRoutes_total (segs : list string) :
  is_Some (matchRoutes AppRoutes segs).
Proof.
  apply (matchRoutes_finds AppRoutes segs (Route [Splat] (Navigate "/"))).
  - unfold AppRoutes. simpl. tauto.
  - simpl. eauto.
Qed.

Lemma render_cases {U} (a : auth_state U) (pathname : string) :
  (exists p, is_public p = true /\ render a pathname = Standalone p)
  \/ (exists child, render a pathname = renderProtectedRoute a child)
  \/ render a pathname = Redirect "/".
Proof.
  unfold render.
  destruct (matchRoutes_total (segments pathname)) as [[r params] Hm].
  rewrite Hm. apply matchRoutes_In in Hm as [Hin _].
  unfold AppRoutes in Hin. simpl in Hin.
  repeat (destruct Hin as [<-|Hin];
          [simpl; first [left; eexists; split; [|reflexivity]; reflexivity
                        |right; left; eexists; reflexivity
                        |right; right; reflexivity]|]).
  contradiction.
Qed.

Lemma render_root {U} (a : auth_state U) :
  render a "/" = renderProtectedRoute a Dashboard.
Proof. reflexivity. Qed.

Lemma render_login {U} (a : auth_state U) :
  render a "/login" = Standalone Login.
Proof. reflexivity. Qed.

End Redirects.

Section RouteOrder.
Import App.

Lemma inner_routes (r : route) :
  In r (removelast AppRoutes) -> In r AppRoutes /\ is_splat r = false.
Proof.
  unfold AppRoutes. cbn [removelast]. intros Hin.
  repeat (destruct Hin as [<-|Hin]; [split; [cbn; tauto|reflexivity]|]).
  contradiction.
Qed.

Lemma inner_routes_back (r : route) :
  In r AppRoutes -> is_splat r = false -> In r (removelast AppRoutes).
Proof.
  unfold AppRoutes. cbn [removelast]. intros Hin Hs.
  repeat (destruct Hin as [<-|Hin]; [cbn; tauto|]).
  destruct Hin as [<-|[]]. discriminate Hs.
Qed.

Lemma matchRoutes_none (routes : list route) (segs : list string) :
  matchRoutes routes segs = None ->
  forall r, In r routes -> matchPath (path r) segs = None.
Proof.
  intros Hnone r Hin.
  destruct (matchPath (path r) segs) as [params|] eqn:Hm; [|reflexivity].
  destruct (matchRoutes_finds routes segs r Hin) as [x Hx]; [eauto|].
  congruence.
Qed.

(** When only one route of a list can match, that route is what the
    router finds, wherever it stands in the list. *)
Lemma matchRoutes_only (routes tail : list route) (segs : list string)
  (r : route) (params : list (string * string)) :
  In r routes -> matchPath (path r) segs = Some params ->
  (forall r', In r' routes -> is_Some (matchPath (path r') segs) -> r' = r) ->
  matchRoutes (routes ++ tail) segs = Some (r, params).
Proof.
  induction routes as [|r0 routes IH]; [contradiction|].
  intros Hin Hm Honly. cbn [app matchRoutes].
  destruct (matchPath (path r0) segs) as [p0|] eqn:H0.
  - assert (r0 = r) as -> by (apply Honly; [now left|eauto]).
    congruence.
  - destruct Hin as [->|Hin]; [congruence|].
    apply IH; [assumption|assumption|].
    intros r' Hr' Hs. apply Honly; [now right|assumption].
Qed.

Lemma inner_match_is_found (segs : list string) (r : route)
  (params : list (string * string)) :
  In r AppRoutes -> is_splat r = false ->
  matchPath (path r) segs = Some params ->
  matchRoutes AppRoutes segs = Some (r, params).
Proof.
  intros Hin Hs Hm.
  change AppRoutes
    with (removelast AppRoutes ++ [Route [Splat] (Navigate "/")])%list.
  apply matchRoutes_only; [now apply inner_routes_back|assumption|].
  intros r' Hr' Hm'. destruct (inner_routes r' Hr') as [Hin' Hs'].
  apply (routes_unambiguous segs r' r); eauto.
Qed.

End RouteOrder.

(** X3. The order of the routes plays no role.  A location that a route
    other than the catch-all matches is given to that route, with the
    parameters of that match, and the page shown is that route's element;
    the router finds the same route and parameters when the routes before
    the catch-all are listed in any other order.  The catch-all is used
    exactly for the locations that no other route matches. *)
Theorem routes_never_compete {U} (a : App.auth_state U) (pathname : string) :
  (forall r params,
      In r App.AppRoutes -> App.is_splat r = false ->
      App.matchPath (App.path r) (App.segments pathname) = Some params ->
      App.matchRoutes App.AppRoutes (App.segments pathname) = Some (r, params)
      /\ App.render a pathname = App.renderElement a (App.elem r))
  /\ (forall routes,
        Permutation routes (removelast App.AppRoutes) ->
        App.matchRoutes
          (routes ++ [App.Route [App.Splat] (App.Navigate "/")])%list
          (App.segments pathname)
        = App.matchRoutes App.AppRoutes (App.segments pathname))
  /\ (App.matchRoutes App.AppRoutes (App.segments pathname)
      = Some (App.Route [App.Splat] (App.Navigate "/"), [])
      <-> App.known pathname = false).
Proof.
  split; [|split].
  - intros r params Hin Hs Hm.
    pose proof (inner_match_is_found _ r params Hin Hs Hm) as Hfound.
    split; [exact Hfound|]. unfold App.render. now rewrite Hfound.
  - intros routes Hperm.
    destruct (App.matchRoutes (removelast App.AppRoutes)
                (App.segments pathname)) as [[r params]|] eqn:Hinner.
    + apply matchRoutes_In in Hinner as [Hin Hm].
      destruct (inner_routes r Hin) as [Hin' Hs].
      rewrite (inner_match_is_found _ r params Hin' Hs Hm).
      apply matchRoutes_only; [|assumption|].
      * apply (Permutation_in r (Permutation_sym Hperm) Hin).
      * intros r' Hr' Hm'.
        destruct (inner_routes r' (Permutation_in r' Hperm Hr')) as [Hi' Hs'].
        apply (routes_unambiguous (App.segments pathname) r' r); eauto.
    + pose proof (matchRoutes_none _ _ Hinner) as Hnone.
      change App.AppRoutes
        with (removelast App.AppRoutes
              ++ [App.Route [App.Splat] (App.Navigate "/")])%list.
      rewrite !matchRoutes_skip; [reflexivity|exact Hnone|].
      intros r Hr. apply Hnone. apply (Permutation_in r Hperm Hr).
  - split; [|apply unknown_matches_catch_all].
    intros Hcatch. apply not_true_iff_false. intros Hknown.
    unfold App.known in Hknown. apply existsb_exists in Hknown.
    destruct Hknown as (r & Hin & Hr). apply andb_prop in Hr as [Hs Hm].
    apply negb_true_iff in Hs. apply bool_decide_eq_true in Hm.
    destruct Hm as [params Hm].
    rewrite (inner_match_is_found _ r params Hin Hs Hm) in Hcatch.
    injection Hcatch as Hr _. subst r. discriminate Hs.
Qed.

Lemma routes_never_compete_witness :
  App.matchRoutes App.AppRoutes (App.segments "/courses/new")
  = Some (App.Route [App.Static "courses"; App.Static "new"]
            (App.ProtectedRoute App.CourseForm), [])
  /\ App.render Samples.admin "/courses/new" = App.InLayout App.CourseForm.
Proof.
  apply (proj1 (routes_never_compete Samples.admin "/courses/new")
           (App.Route [App.Static "courses"; App.Static "new"]
              (App.ProtectedRoute App.CourseForm)) []).
  - unfold App.AppRoutes. cbn. tauto.
  - reflexivity.
  - reflexivity.
Defined.

(** X4. Every location shows something, and following the redirects ends
    after at most two of them: never in a loop and never on a blank page.
    A signed-out visitor always ends on a public page (an unknown or
    protected location leads to the login page), a signed-in user on a
    page and never on a redirect to /login, and while the authentication
    state is loading only public pages and the placeholder are shown. *)
Theorem redirects_settle_in_two_hops {U} (a : App.auth_state U)
  (pathname : string) :
  App.render a pathname <> App.Blank
  /\ Navigation.is_redirect (Navigation.settle 2 a pathname) = false
  /\ Navigation.settle 2 a pathname <> App.Blank
  /\ (App.loading a = false -> App.user a = None ->
      exists p, App.is_public p = true
                /\ Navigation.settle 2 a pathname = App.Standalone p)
  /\ (App.loading a = false -> App.user a = None ->
      App.known pathname = false ->
      Navigation.settle 2 a pathname = App.Standalone App.Login)
  /\ (App.loading a = false -> is_Some (App.user a) ->
      exists p, App.shown_page (Navigation.settle 2 a pathname) = Some p)
  /\ (App.loading a = true ->
      Navigation.settle 2 a pathname = App.LoadingPlaceholder
      \/ exists p, App.is_public p = true
                   /\ Navigation.settle 2 a pathname = App.Standalone p).
Proof.
  assert (Hroot : Navigation.settle 1 a "/"
                  = match App.renderProtectedRoute a App.Dashboard with
                    | App.Redirect _ => App.Standalone App.Login
                    | v => v
                    end).
  { simpl. rewrite render_root. unfold App.renderProtectedRoute.
    destruct (App.loading a); [reflexivity|].
    destruct (App.user a); reflexivity. }
  assert (Hprot : forall child,
             App.render a pathname = App.renderProtectedRoute a child ->
             Navigation.settle 2 a pathname
             = match App.renderProtectedRoute a child with
               | App.Redirect _ => App.Standalone App.Login
               | v => v
               end).
  { intros child Hr. cbn [Navigation.settle]. rewrite Hr.
    unfold App.renderProtectedRoute.
    destruct (App.loading a); [reflexivity|].
    destruct (App.user a); reflexivity. }
  destruct (render_cases a pathname) as [(p & Hpub & Hr)|[(child & Hr)|Hr]].
  - assert (Hs : Navigation.settle 2 a pathname = App.Standalone p)
      by (cbn [Navigation.settle]; now rewrite Hr).
    rewrite Hs, Hr. repeat split; try discriminate; eauto.
    intros _ _ Hunknown. unfold App.render in Hr.
    rewrite (unknown_matches_catch_all pathname Hunknown) in Hr. discriminate.
  - rewrite (Hprot child Hr), Hr. unfold App.renderProtectedRoute.
    destruct (App.loading a) eqn:Hl; [|destruct (App.user a) as [u|] eqn:Hu];
      repeat split; try discriminate; simpl; eauto;
      try (intros ? [? ?]; discriminate); try (intros [? ?]; discriminate).
    all: try (intros; exists App.Login; split; reflexivity).
  - assert (Hs : Navigation.settle 2 a pathname = Navigation.settle 1 a "/")
      by (cbn [Navigation.settle]; now rewrite Hr).
    rewrite Hs, Hroot, Hr. unfold App.renderProtectedRoute.
    destruct (App.loading a) eqn:Hl; [|destruct (App.user a) as [u|] eqn:Hu];
      repeat split; try discriminate; simpl; eauto;
      try (intros ? [? ?]; discriminate); try (intros [? ?]; discriminate).
    all: try (intros; exists App.Login; split; reflexivity).
Qed.

Lemma redirects_settle_in_two_hops_witness :
  App.known "/nowhere/at/all" = false
  /\ Navigation.settle 2 Samples.visitor "/nowhere/at/all"
     = App.Standalone App.Login.
Proof.
  split; [reflexivity|].
  apply (proj1 (proj2 (proj2 (proj2 (proj2
           (redirects_settle_in_two_hops Samples.visitor "/nowhere/at/all"))))));
    reflexivity.
Defined.

(** ** The rows of the diplomas page (pages/Diplomas.js) *)

Section DiplomaRows.
Import Http Toast Diplomas DiplomasPage.
Variable w : browser.

Lemma map_id_cond (c : diploma -> bool) (f : diploma -> diploma)
  (l : list diploma) :
  (forall d, id (f d) = id d) ->
  map id (map (fun d => if c d then f d else d) l) = map id l.
Proof.
  intros Hid. rewrite map_map. apply map_ext. intros d. now destruct (c d).
Qed.

Lemma map_id_update (i : string) (f : diploma -> diploma) (l : list diploma) :
  (forall d, id (f d) = id d) ->
  map id (map (fun d => if id d =? i then f d else d) l) = map id l.
Proof.
  intros Hid. rewrite map_map. apply map_ext. intros d.
  now destruct (id d =? i).
Qed.

Lemma map_id_filter (i : string) (l : list diploma) :
  map id (List.filter (fun d => negb (id d =? i)) l)
  = List.filter (fun s => negb (s =? i)) (map id l).
Proof.
  induction l as [|d l IH]; simpl; [reflexivity|].
  destruct (id d =? i); simpl; now rewrite IH.
Qed.

Lemma NoDup_filter_str (f : string -> bool) (l : list string) :
  List.NoDup l -> List.NoDup (List.filter f l).
Proof.
  induction 1 as [|x l Hx Hl IH]; simpl; [constructor|].
  destruct (f x); [|exact IH]. constructor; [|exact IH].
  intros Hin. apply filter_In in Hin as [Hin _]. now apply Hx.
Qed.

Lemma update_lookup (i : string) (f : diploma -> diploma)
  (l : list diploma) (k : nat) (d : diploma) :
  l !! k = Some d ->
  map (fun d => if id d =? i then f d else d) l !! k
  = Some (if id d =? i then f d else d).
Proof. intros Hd. now rewrite list_lookup_fmap, Hd. Qed.

Lemma handleRevoke_result (i : string) (p : page)
  (server : request -> outcome json) :
  run server (handleRevoke w i p)
  = ([Api.perform w (Api.diplomas_revoke i)],
     match server (Api.perform w (Api.diplomas_revoke i)) with
     | Fulfilled _ =>
         (setActionDialog None
            (with_base
               (setDiplomas
                  (map (fun d => if id d =? i then with_status "revoked" d else d)
                       (diplomas (base p))) (base p)) p),
          [Toast success (T "diplomas.revoked")])
     | Rejected _ =>
         (setActionDialog None p, [Toast error (T "diplomas.revokeError")])
     end).
Proof.
  unfold handleRevoke. cbn [run]. now destruct (server _).
Qed.

Lemma handleReactivate_result (i : string) (p : page)
  (server : request -> outcome json) :
  run server (handleReactivate w i p)
  = ([Api.perform w (Api.diplomas_reactivate i)],
     match server (Api.perform w (Api.diplomas_reactivate i)) with
     | Fulfilled _ =>
         (setActionDialog None
            (with_base
               (setDiplomas
                  (map (fun d => if id d =? i then with_status "valid" d else d)
                       (diplomas (base p))) (base p)) p),
          [Toast success (T "diplomas.reactivated")])
     | Rejected _ =>
         (setActionDialog None p, [Toast error (T "diplomas.reactivateError")])
     end).
Proof.
  unfold handleReactivate. cbn [run]. now destruct (server _).
Qed.

Lemma handleDelete_result (i : string) (p : page)
  (server : request -> outcome json) :
  run server (handleDelete w i p)
  = ([Api.perform w (Api.diplomas_delete i)],
     match server (Api.perform w (Api.diplomas_delete i)) with
     | Fulfilled _ =>
         (setActionDialog None
            (with_base
               (setSelectedDiplomas
                  (List.filter (fun sid => negb (sid =? i))
                     (selectedDiplomas (base p)))
                  (setDiplomas
                     (List.filter (fun d => negb (id d =? i))
                        (diplomas (base p))) (base p))) p),
          [Toast success (T "diplomas.deleted")])
     | Rejected _ =>
         (setActionDialog None p, [Toast error (T "diplomas.deleteError")])
     end).
Proof.
  unfold handleDelete. cbn [run]. now destruct (server _).
Qed.

Lemma handleSendEmail_result (d : diploma) (p : page)
  (server : request -> outcome send_response) :
  run server (handleSendEmail w d p)
  = ([Api.perform w (Api.diplomas_sendEmail (id d))],
     match server (Api.perform w (Api.diplomas_sendEmail (id d))) with
     | Fulfilled r =>
         (setSendingEmailId None
            (with_base
               (setDiplomas
                  (map (fun d' => if id d' =? id d
                                  then with_email_sent (response_email_sent_at r) d'
                                  else d')
                       (diplomas (base p))) (base p)) p),
          [Toast success (T "diplomas.emailSent")])
     | Rejected err =>
         (setSendingEmailId None p,
          [Toast error (detail_or (err_detail err) "diplomas.emailSendError")])
     end).
Proof.
  unfold handleSendEmail. cbn [run]. now destruct (server _).
Qed.

(** *** The selection stays a duplicate-free part of the list *)

Lemma selection_ok_same_ids (p : page) (l : list diploma) (sel : list string) :
  selection_ok p ->
  map id l = map id (diplomas (base p)) ->
  sel = selectedDiplomas (base p) \/ sel = [] ->
  List.NoDup (map id l) /\ List.NoDup sel /\ incl sel (map id l).
Proof.
  intros (Hids & Hsel & Hincl) Hl Hs. rewrite Hl.
  destruct Hs as [->| ->]; repeat split; auto.
  - constructor.
  - intros x [].
Qed.

Section OneAtATime.
Variable served : list diploma -> Prop.
Hypothesis served_distinct : forall l, served l -> List.NoDup (map id l).

Lemma one_at_a_time_keeps_selection_ok (p p' : page) :
  one_at_a_time w served p p' -> selection_ok p -> selection_ok p'.
Proof.
  intros Hstep Hok. pose proof Hok as (Hids & Hsel & Hincl).
  destruct Hstep as [p d Hd|p checked|p [| |] d server Hd Hm|p d server Hd
                    |p now server|p server Hl].
  - unfold selection_ok, handleSelectDiploma. simpl.
    destruct (includes (selectedDiplomas (base p)) (id d)) eqn:Hinc; simpl.
    + repeat split; [assumption|now apply NoDup_filter_str|].
      intros x Hx. apply filter_In in Hx as [Hx _]. now apply Hincl.
    + assert (Hnot : ~ In (id d) (selectedDiplomas (base p))).
      { intros Hin. apply includes_In in Hin. congruence. }
      repeat split; [assumption| |].
      * apply List.NoDup_app; [assumption|constructor; [intros []|constructor]|].
        intros x Hx [<-|[]]. exact (Hnot Hx).
      * intros x Hx. apply in_app_or in Hx as [Hx|[<-|[]]].
        -- now apply Hincl.
        -- now apply in_map.
  - unfold selection_ok. destruct checked; simpl.
    + repeat split; [assumption|assumption|apply incl_refl].
    + repeat split; [assumption|constructor|intros x []].
  - unfold confirmAction, result. cbn [fst snd]. rewrite handleRevoke_result.
    cbn [fst snd]. destruct (server _); [|exact Hok].
    simpl. apply (selection_ok_same_ids p); [exact Hok| |now left].
    now apply map_id_update.
  - unfold confirmAction, result. cbn [fst snd]. rewrite handleReactivate_result.
    cbn [fst snd]. destruct (server _); [|exact Hok].
    simpl. apply (selection_ok_same_ids p); [exact Hok| |now left].
    now apply map_id_update.
  - unfold confirmAction, result. cbn [fst snd]. rewrite handleDelete_result.
    cbn [fst snd]. destruct (server _); [|exact Hok].
    unfold selection_ok. simpl. rewrite map_id_filter.
    repeat split; [now apply NoDup_filter_str|now apply NoDup_filter_str|].
    intros x Hx. apply filter_In in Hx as [Hx Hne].
    apply filter_In. split; [now apply Hincl|assumption].
  - unfold result. rewrite handleSendEmail_result. cbn [fst snd].
    destruct (server _); [|exact Hok].
    simpl. apply (selection_ok_same_ids p); [exact Hok| |now left].
    now apply map_id_update.
  - assert (Hcase : selectedDiplomas (base p) = []
                    \/ selectedDiplomas (base p) <> [])
      by (destruct (selectedDiplomas (base p)); [left|right]; congruence).
    unfold selection_ok. simpl. destruct Hcase as [Hs|Hne].
    + rewrite (handleBulkSendEmail_empty w now (base p) Hs). simpl.
      repeat split; assumption.
    + destruct (server (Api.perform w
                  (Api.diplomas_sendBulkEmail (selectedDiplomas (base p)))))
        as [r|err] eqn:Hreply.
      * destruct (handleBulkSendEmail_fulfilled w now (base p) server r Hne Hreply)
          as (Hclear & _ & Hlist).
        rewrite Hclear, Hlist.
        destruct (sent r >? 0)%Z.
        -- rewrite (map_id_cond _ (mark_sent now)) by reflexivity.
           repeat split; [assumption|constructor|intros x []].
        -- repeat split; [assumption|constructor|intros x []].
      * rewrite (handleBulkSendEmail_rejected w now (base p) server err Hne Hreply).
        simpl. repeat split; assumption.
  - unfold result, fetchDiplomas. cbn [run fst snd].
    destruct (server _) as [l|err] eqn:Hreply; [|exact Hok].
    unfold selection_ok. simpl.
    repeat split; [now apply served_distinct, (Hl l)|constructor|intros x []].
Qed.

(** *** Requests in flight *)

Lemma apply_writes_distinct (xs : list write) (p : page) :
  Forall tidy_write xs -> distinct p -> distinct (apply_writes xs p).
Proof.
  unfold apply_writes. intros Hxs. revert p.
  induction Hxs as [|x xs Hx _ IH]; intros p Hp; [exact Hp|].
  cbn [fold_left]. apply IH. destruct Hp as [Hl Hs].
  destruct x; cbn in *; split; assumption.
Qed.

Lemma after_confirm_tidy (d : action * string) (seen : page)
  (out : outcome json) :
  distinct seen -> Forall tidy_write (after_confirm d seen out).
Proof.
  intros [Hl Hs]. destruct d as [[| |] i]; destruct out; cbn;
    repeat constructor; cbn.
  - now rewrite map_id_update.
  - now rewrite map_id_update.
  - rewrite map_id_filter. now apply NoDup_filter_str.
  - now apply NoDup_filter_str.
Qed.

Lemma after_send_tidy (d : diploma) (seen : page)
  (out : outcome send_response) :
  distinct seen -> Forall tidy_write (after_send d seen out).
Proof.
  intros [Hl Hs]. destruct out; cbn; repeat constructor; cbn.
  now rewrite map_id_update.
Qed.

Lemma after_bulk_tidy (now : string) (seen : page)
  (out : outcome bulk_response) :
  distinct seen -> Forall tidy_write (after_bulk now seen out).
Proof.
  intros [Hl Hs]. destruct out as [r|err]; cbn; [|repeat constructor].
  destruct (sent r >? 0)%Z; cbn; repeat constructor; cbn.
  now rewrite (map_id_cond _ (mark_sent now)).
Qed.

Lemma event_keeps_distinct (s s' : session) :
  event served s s' -> all_distinct s -> all_distinct s'.
Proof.
  intros Hev [Hlive Hseen]. pose proof Hlive as [Hl Hs].
  assert (Hpart : forall before f rest,
             in_flight s = (before ++ f :: rest)%list ->
             (forall f' seen, In f' (before ++ rest)%list ->
                              seen_by f' = Some seen -> distinct seen)
             /\ forall seen, seen_by f = Some seen -> distinct seen).
  { intros before f rest Heq. split.
    - intros f' seen Hin. apply Hseen. rewrite Heq.
      apply in_app_or in Hin as [Hin|Hin]; apply in_or_app;
        [now left|right; now right].
    - intros seen. apply Hseen. rewrite Heq. apply in_or_app.
      right. now left. }
  destruct Hev as [s d Hd|s checked|s f|s a d Hd Hm|s|s d Hd|s d Hd|s Hne|s
                  |s d seen out before rest Heq
                  |s d seen out before rest Heq
                  |s now seen out before rest Heq
                  |s out before rest Heq Hout
                  |s out before rest Heq Hout];
    split; cbn [live in_flight]; try exact Hseen; try exact Hlive.
  - unfold distinct, handleSelectDiploma. cbn.
    destruct (includes (selectedDiplomas (base (live s))) (id d)) eqn:Hinc; cbn.
    + split; [assumption|now apply NoDup_filter_str].
    + split; [assumption|].
      apply List.NoDup_app; [assumption|constructor; [intros []|constructor]|].
      intros x Hx [<-|[]]. apply includes_In in Hx. congruence.
  - unfold distinct. destruct checked; cbn; split;
      try assumption; constructor.
  - intros f seen [<-|Hin]; [intros [= <-]; exact Hlive|now apply Hseen].
  - intros f seen [<-|Hin]; [intros [= <-]; exact Hlive|now apply Hseen].
  - intros f seen [<-|Hin]; [intros [= <-]; exact Hlive|now apply Hseen].
  - intros f seen [<-|Hin]; [discriminate|now apply Hseen].
  - apply apply_writes_distinct; [|exact Hlive].
    apply after_confirm_tidy. now apply (proj2 (Hpart _ _ _ Heq)).
  - exact (proj1 (Hpart _ _ _ Heq)).
  - apply apply_writes_distinct; [|exact Hlive].
    apply after_send_tidy. now apply (proj2 (Hpart _ _ _ Heq)).
  - exact (proj1 (Hpart _ _ _ Heq)).
  - apply apply_writes_distinct; [|exact Hlive].
    apply after_bulk_tidy. now apply (proj2 (Hpart _ _ _ Heq)).
  - exact (proj1 (Hpart _ _ _ Heq)).
  - apply apply_writes_distinct; [|exact Hlive].
    destruct out as [l|err]; cbn; repeat constructor; cbn.
    now apply served_distinct, Hout.
  - exact (proj1 (Hpart _ _ _ Heq)).
  - apply apply_writes_distinct; [|exact Hlive].
    destruct out as [l|err]; cbn; repeat constructor; cbn.
    now apply served_distinct, Hout.
  - exact (proj1 (Hpart _ _ _ Heq)).
Qed.

Lemma events_keep_distinct (s s' : session) :
  rtc (event served) s s' -> all_distinct s -> all_distinct s'.
Proof.
  induction 1 as [s|s s1 s' Hev _ IH]; [auto|].
  intros Hs. apply IH. now apply (event_keeps_distinct s s1).
Qed.

Lemma with_base_same (p : page) : with_base (base p) p = p.
Proof. now destruct p. Qed.

(** Each action taken alone is a run of the page: the action, and then
    the reply before anything else happens. *)
Lemma one_at_a_time_is_a_run (p p' : page) :
  one_at_a_time w served p p' -> rtc (event served) (quiet p) (quiet p').
Proof.
  intros Hstep.
  destruct Hstep as [p d Hd|p checked|p a d server Hd Hm|p d server Hd
                    |p now server|p server Hl].
  - apply rtc_once. exact (tick_row served (quiet p) d Hd).
  - apply rtc_once. exact (tick_all served (quiet p) checked).
  - eapply rtc_l; [exact (open_dialog served (quiet p) a d Hd Hm)|].
    eapply rtc_l; [apply start_confirm; reflexivity|].
    apply rtc_once. cbn [live in_flight].
    pose proof (settle_confirm served
                  {| live := setActionDialog (Some (a, id d)) p;
                     in_flight := [confirming (a, id d)
                                     (setActionDialog (Some (a, id d)) p)] |}
                  (a, id d) (setActionDialog (Some (a, id d)) p)
                  (server (Api.perform w
                             match a with
                             | revoke => Api.diplomas_revoke (id d)
                             | reactivate => Api.diplomas_reactivate (id d)
                             | delete => Api.diplomas_delete (id d)
                             end)) [] [] eq_refl) as Hsettle.
    replace (quiet (fst (result server
                           (confirmAction w (a, id d)
                              (setActionDialog (Some (a, id d)) p)))))
      with {| live := apply_writes
                        (after_confirm (a, id d)
                           (setActionDialog (Some (a, id d)) p)
                           (server (Api.perform w
                                      match a with
                                      | revoke => Api.diplomas_revoke (id d)
                                      | reactivate =>
                                          Api.diplomas_reactivate (id d)
                                      | delete => Api.diplomas_delete (id d)
                                      end)))
                        (setActionDialog (Some (a, id d)) p);
              in_flight := ([] ++ [])%list |}; [exact Hsettle|].
    unfold quiet, confirmAction, result. cbn [fst snd app].
    destruct a; cbn [fst snd];
      [rewrite handleRevoke_result|rewrite handleReactivate_result
      |rewrite handleDelete_result];
      cbn [fst snd]; destruct (server _); reflexivity.
  - eapply rtc_l; [exact (start_send served (quiet p) d Hd)|].
    apply rtc_once. cbn [live in_flight quiet].
    pose proof (settle_send served
                  {| live := setSendingEmailId (Some (id d)) p;
                     in_flight := [sending d p] |}
                  d p (server (Api.perform w (Api.diplomas_sendEmail (id d))))
                  [] [] eq_refl) as Hsettle.
    replace (quiet (fst (result server (handleSendEmail w d p))))
      with {| live := apply_writes
                        (after_send d p
                           (server (Api.perform w
                                      (Api.diplomas_sendEmail (id d)))))
                        (setSendingEmailId (Some (id d)) p);
              in_flight := ([] ++ [])%list |}; [exact Hsettle|].
    unfold quiet, result. rewrite handleSendEmail_result. cbn [fst snd app].
    destruct (server _); reflexivity.
  - destruct (selectedDiplomas (base p)) as [|i sel] eqn:Hsel.
    + rewrite (handleBulkSendEmail_empty w now (base p) Hsel).
      unfold result. cbn [run fst snd].
      rewrite with_base_same. apply rtc_refl.
    + assert (Hne : selectedDiplomas (base p) <> []) by (rewrite Hsel; discriminate).
      eapply rtc_l; [exact (start_bulk served (quiet p) Hne)|].
      apply rtc_once. cbn [live in_flight quiet].
      pose proof (settle_bulk served
                    {| live := with_base (setSendingBulk true (base p)) p;
                       in_flight := [sending_bulk p] |}
                    now p
                    (server (Api.perform w
                               (Api.diplomas_sendBulkEmail
                                  (selectedDiplomas (base p)))))
                    [] [] eq_refl) as Hsettle.
      replace (quiet (with_base
                        (fst (result server
                                (handleBulkSendEmail w now (base p)))) p))
        with {| live := apply_writes
                          (after_bulk now p
                             (server (Api.perform w
                                        (Api.diplomas_sendBulkEmail
                                           (selectedDiplomas (base p))))))
                          (with_base (setSendingBulk true (base p)) p);
                in_flight := ([] ++ [])%list |}; [exact Hsettle|].
      unfold quiet, result, handleBulkSendEmail. rewrite Hsel.
      cbn [length Nat.eqb run fst snd app]. rewrite <- Hsel.
      destruct (server _) as [r|err]; cbn [run fst snd]; [|reflexivity].
      unfold apply_writes, after_bulk.
      destruct (sent r >? 0)%Z; reflexivity.
  - eapply rtc_l; [exact (start_fetch served (quiet p))|].
    apply rtc_once. cbn [live in_flight quiet].
    pose proof (settle_fetch served
                  {| live := p; in_flight := [fetching] |}
                  (server (Api.perform w
                             (Api.diplomas_getAll
                                (fetch_params (current_filters p)))))
                  [] [] eq_refl Hl) as Hsettle.
    replace (quiet (result server (fetchDiplomas w p)))
      with {| live := apply_writes
                        (after_fetch
                           (server (Api.perform w
                                      (Api.diplomas_getAll
                                         (fetch_params (current_filters p))))))
                        p;
              in_flight := ([] ++ [])%list |}; [exact Hsettle|].
    unfold quiet, result, fetchDiplomas. cbn [run fst snd app].
    destruct (server _); reflexivity.
Qed.

End OneAtATime.

Lemma header_checkbox_means_all (p : page) :
  selection_ok p ->
  select_all_checked (base p) = true
  <-> diplomas (base p) <> []
      /\ forall d, In d (diplomas (base p)) ->
                   includes (selectedDiplomas (base p)) (id d) = true.
Proof.
  intros (Hids & Hsel & Hincl). unfold select_all_checked.
  rewrite andb_true_iff, Nat.eqb_eq, Nat.ltb_lt. split.
  - intros [Hlen Hpos]. split.
    + intros Hnil. rewrite Hnil in Hpos. simpl in Hpos. lia.
    + intros d Hd. apply includes_In.
      apply (@List.NoDup_length_incl _ (selectedDiplomas (base p))
               (map id (diplomas (base p))) Hsel);
        [rewrite length_map; lia|assumption|now apply in_map].
  - intros [Hne Hall].
    assert (Hback : incl (map id (diplomas (base p))) (selectedDiplomas (base p))).
    { intros x Hx. apply in_map_iff in Hx as (d & <- & Hd).
      apply includes_In. now apply Hall. }
    pose proof (List.NoDup_incl_length Hsel Hincl) as H1.
    pose proof (List.NoDup_incl_length Hids Hback) as H2.
    rewrite length_map in H1, H2. split; [lia|].
    destruct (diplomas (base p)); [contradiction|simpl; lia].
Qed.

End DiplomaRows.

(** X5. Provided the lists the server sends have distinct ids, the
    diplomas page never lists an id twice nor selects an id twice, whatever
    the user does (row checkboxes, the header checkbox, the filters, the
    dialog, single and bulk email, reloads) and in whatever order the
    requests settle; the bulk button is shown exactly when the selection
    is not empty.  When each action has settled before the next one is
    taken, which is one of these runs, the selection moreover holds only
    ids of listed diplomas, and the header checkbox is ticked exactly when
    the list is not empty and every listed diploma is selected. *)
Theorem selection_follows_the_list (w : browser)
  (served : list Diplomas.diploma -> Prop) :
  (forall l, served l -> List.NoDup (map Diplomas.id l)) ->
  (forall s,
      rtc (DiplomasPage.event served) DiplomasPage.opening s ->
      List.NoDup (map Diplomas.id
                    (Diplomas.diplomas (DiplomasPage.base (DiplomasPage.live s))))
      /\ List.NoDup
           (Diplomas.selectedDiplomas (DiplomasPage.base (DiplomasPage.live s)))
      /\ (DiplomasPage.bulk_button_shown (DiplomasPage.live s) = true
          <-> Diplomas.selectedDiplomas
                (DiplomasPage.base (DiplomasPage.live s)) <> []))
  /\ (forall p p',
        DiplomasPage.selection_ok p ->
        rtc (DiplomasPage.one_at_a_time w served) p p' ->
        rtc (DiplomasPage.event served)
          (DiplomasPage.quiet p) (DiplomasPage.quiet p')
        /\ incl (Diplomas.selectedDiplomas (DiplomasPage.base p'))
             (map Diplomas.id (Diplomas.diplomas (DiplomasPage.base p')))
        /\ (Diplomas.select_all_checked (DiplomasPage.base p') = true
            <-> Diplomas.diplomas (DiplomasPage.base p') <> []
                /\ forall d, In d (Diplomas.diplomas (DiplomasPage.base p')) ->
                     In (Diplomas.id d)
                       (Diplomas.selectedDiplomas (DiplomasPage.base p')))).
Proof.
  intros Hserved. split.
  - intros s Hrun.
    assert (Hopen : DiplomasPage.all_distinct DiplomasPage.opening).
    { split; [split; constructor|].
      intros f seen [<-|[<-|[]]]; discriminate. }
    destruct (events_keep_distinct served Hserved _ _ Hrun Hopen)
      as [[Hl Hs] _].
    split; [exact Hl|]. split; [exact Hs|].
    unfold DiplomasPage.bulk_button_shown. rewrite Nat.ltb_lt.
    destruct (Diplomas.selectedDiplomas _);
      cbn [length]; split; (congruence || lia || discriminate).
  - intros p p' Hok Hsteps.
    assert (Hboth : DiplomasPage.selection_ok p'
                    /\ rtc (DiplomasPage.event served)
                         (DiplomasPage.quiet p) (DiplomasPage.quiet p')).
    { induction Hsteps as [p|p p1 p' Hstep _ IH]; [split; [exact Hok|apply rtc_refl]|].
      destruct IH as [Hok' Hrun];
        [now apply (one_at_a_time_keeps_selection_ok w served Hserved p p1)|].
      split; [exact Hok'|].
      transitivity (DiplomasPage.quiet p1); [|exact Hrun].
      now apply (one_at_a_time_is_a_run w served). }
    destruct Hboth as [Hok' Hrun]. split; [exact Hrun|].
    split; [exact (proj2 (proj2 Hok'))|].
    rewrite (header_checkbox_means_all p' Hok').
    split; intros [Hne Hall]; (split; [exact Hne|]); intros d Hd;
      apply includes_In; now apply Hall.
Qed.

Lemma selection_follows_the_list_witness :
  DiplomasPage.selection_ok Cases.diplomas_page
  /\ incl
       (Diplomas.selectedDiplomas
          (DiplomasPage.base
             (fst (Http.result Cases.accepts
                     (DiplomasPage.confirmAction Samples.signed_in
                        (DiplomasPage.delete, "d1")
                        (DiplomasPage.setActionDialog
                           (Some (DiplomasPage.delete, "d1"))
                           Cases.diplomas_page))))))
       (map Diplomas.id
          (Diplomas.diplomas
             (DiplomasPage.base
                (fst (Http.result Cases.accepts
                     (DiplomasPage.confirmAction Samples.signed_in
                        (DiplomasPage.delete, "d1")
                        (DiplomasPage.setActionDialog
                           (Some (DiplomasPage.delete, "d1"))
                           Cases.diplomas_page))))))).
Proof.
  assert (Hok : DiplomasPage.selection_ok Cases.diplomas_page).
  { unfold DiplomasPage.selection_ok. simpl. repeat split.
    - repeat constructor; simpl; intuition discriminate.
    - repeat constructor; simpl; intuition discriminate.
    - intros x [<-|[]]. simpl. tauto. }
  split; [exact Hok|].
  refine (proj1 (proj2 (proj2 (selection_follows_the_list Samples.signed_in
                          (fun l => List.NoDup (map Diplomas.id l))
                          (fun l H => H))
                          Cases.diplomas_page _ Hok _))).
  apply rtc_once.
  exact (DiplomasPage.step_confirm Samples.signed_in _ Cases.diplomas_page
           DiplomasPage.delete (Samples.pending_diploma "d1") Cases.accepts
           ltac:(left; reflexivity) ltac:(right; reflexivity)).
Defined.

(** X30. A reply that arrives late writes back the list of the render in
    which its handler was called.  When the list is reloaded while an
    email is being sent, and a row of the new list is ticked before the
    email's reply arrives, the reply replaces the reloaded list by the
    earlier list with the diploma marked as sent, and the ticked row stays
    selected: the selection then holds an id that is not listed whenever
    the earlier list did not have it. *)
Theorem late_reply_writes_back_the_old_list
  (served : list Diplomas.diploma -> Prop) (p : DiplomasPage.page)
  (d d' : Diplomas.diploma) (l : list Diplomas.diploma)
  (r : DiplomasPage.send_response) :
  In d (Diplomas.diplomas (DiplomasPage.base p)) ->
  served l -> In d' l ->
  exists s,
    rtc (DiplomasPage.event served) (DiplomasPage.quiet p) s
    /\ DiplomasPage.in_flight s = []
    /\ Diplomas.diplomas (DiplomasPage.base (DiplomasPage.live s))
       = map (fun x => if Diplomas.id x =? Diplomas.id d
                       then DiplomasPage.with_email_sent
                              (DiplomasPage.response_email_sent_at r) x
                       else x)
           (Diplomas.diplomas (DiplomasPage.base p))
    /\ Diplomas.selectedDiplomas (DiplomasPage.base (DiplomasPage.live s))
       = [Diplomas.id d']
    /\ (~ In (Diplomas.id d')
          (map Diplomas.id (Diplomas.diplomas (DiplomasPage.base p))) ->
        ~ incl
            (Diplomas.selectedDiplomas (DiplomasPage.base (DiplomasPage.live s)))
            (map Diplomas.id
               (Diplomas.diplomas (DiplomasPage.base (DiplomasPage.live s))))).
Proof.
  intros Hd Hl Hd'.
  eexists. split.
  - eapply rtc_l;
      [exact (DiplomasPage.start_send served (DiplomasPage.quiet p) d Hd)|].
    eapply rtc_l; [apply DiplomasPage.start_fetch|].
    eapply rtc_l.
    { apply (DiplomasPage.settle_fetch served _ (Http.Fulfilled l) []
               [DiplomasPage.sending d p]); [reflexivity|].
      now intros l' [= <-]. }
    eapply rtc_l.
    { apply (DiplomasPage.tick_row served _ d'). exact Hd'. }
    eapply rtc_l.
    { apply (DiplomasPage.settle_send served _ d p (Http.Fulfilled r) [] []).
      reflexivity. }
    apply rtc_refl.
  - cbn. split; [reflexivity|]. split; [reflexivity|]. split; [reflexivity|].
    intros Hnew Hincl. apply Hnew.
    specialize (Hincl (Diplomas.id d') ltac:(now left)).
    now rewrite (map_id_update (Diplomas.id d)) in Hincl.
Qed.

Lemma late_reply_writes_back_the_old_list_witness :
  exists s,
    rtc (DiplomasPage.event (fun _ => True))
      (DiplomasPage.quiet Cases.diplomas_page) s
    /\ Diplomas.selectedDiplomas (DiplomasPage.base (DiplomasPage.live s))
       = ["d9"]
    /\ map Diplomas.id
         (Diplomas.diplomas (DiplomasPage.base (DiplomasPage.live s)))
       = ["d1"; "d2"].
Proof.
  destruct (late_reply_writes_back_the_old_list (fun _ => True)
              Cases.diplomas_page (Samples.pending_diploma "d1")
              (Samples.pending_diploma "d9") [Samples.pending_diploma "d9"]
              {| DiplomasPage.response_email_sent_at := Some "t1" |}
              ltac:(left; reflexivity) I ltac:(left; reflexivity))
    as (s & Hrun & _ & Hlist & Hsel & _).
  exists s. split; [exact Hrun|]. split; [exact Hsel|].
  rewrite Hlist. reflexivity.
Defined.

(** X6. Revoking sends one POST to /api/diplomas/{id}/revoke and
    reactivating one POST to /api/diplomas/{id}/reactivate; each closes the
    dialog whatever the outcome.  When the request fails the list is
    untouched; when it succeeds only the status of the diplomas with that
    id changes, to "revoked" or to "valid" (every other row, the email
    flags and the selection stay).  The row menu offers revoke exactly
    for a row whose status is "valid" and reactivate exactly for any
    other row, so it offers reactivate after a revoke and revoke after a
    reactivation.  Revoking and then reactivating a diploma whose status
    was "valid" gives back the list as it was. *)
Theorem revoke_and_reactivate_round_trip (w : browser) (i : string)
  (p q : DiplomasPage.page)
  (server server' : Http.request -> Http.outcome Http.json) :
  let p1 := fst (Http.result server (DiplomasPage.handleRevoke w i p)) in
  let p2 := fst (Http.result server' (DiplomasPage.handleReactivate w i p1)) in
  let request := Api.perform w (Api.diplomas_revoke i) in
  Http.trace server (DiplomasPage.handleRevoke w i p) = [request]
  /\ Http.req_method request = Http.POST
  /\ Http.req_url request
     = REACT_APP_BACKEND_URL w +:+ "/api/diplomas/" +:+ i +:+ "/revoke"
  /\ DiplomasPage.actionDialog p1 = None
  /\ Diplomas.selectedDiplomas (DiplomasPage.base p1)
     = Diplomas.selectedDiplomas (DiplomasPage.base p)
  /\ ((exists err, server request = Http.Rejected err) ->
      DiplomasPage.base p1 = DiplomasPage.base p)
  /\ ((exists data, server request = Http.Fulfilled data) ->
      forall (k : nat) d,
        Diplomas.diplomas (DiplomasPage.base p) !! k = Some d ->
        (Diplomas.id d <> i ->
         Diplomas.diplomas (DiplomasPage.base p1) !! k = Some d)
        /\ (Diplomas.id d = i ->
            exists d',
              Diplomas.diplomas (DiplomasPage.base p1) !! k = Some d'
              /\ Diplomas.status d' = "revoked"
              /\ DiplomasPage.offered d' = DiplomasPage.reactivate
              /\ Diplomas.email_sent d' = Diplomas.email_sent d
              /\ Diplomas.certificate_id d' = Diplomas.certificate_id d))
  /\ ((exists data, server request = Http.Fulfilled data) ->
      (exists data, server' (Api.perform w (Api.diplomas_reactivate i))
                    = Http.Fulfilled data) ->
      (forall d, In d (Diplomas.diplomas (DiplomasPage.base p)) ->
                 Diplomas.id d = i -> Diplomas.status d = "valid") ->
      Diplomas.diplomas (DiplomasPage.base p2)
      = Diplomas.diplomas (DiplomasPage.base p))
  /\ (let q1 := fst (Http.result server' (DiplomasPage.handleReactivate w i q)) in
      let reactivation := Api.perform w (Api.diplomas_reactivate i) in
      Http.trace server' (DiplomasPage.handleReactivate w i q) = [reactivation]
      /\ Http.req_method reactivation = Http.POST
      /\ Http.req_url reactivation
         = REACT_APP_BACKEND_URL w +:+ "/api/diplomas/" +:+ i +:+ "/reactivate"
      /\ DiplomasPage.actionDialog q1 = None
      /\ Diplomas.selectedDiplomas (DiplomasPage.base q1)
         = Diplomas.selectedDiplomas (DiplomasPage.base q)
      /\ ((exists err, server' reactivation = Http.Rejected err) ->
          DiplomasPage.base q1 = DiplomasPage.base q)
      /\ ((exists data, server' reactivation = Http.Fulfilled data) ->
          forall (k : nat) d,
            Diplomas.diplomas (DiplomasPage.base q) !! k = Some d ->
            (Diplomas.id d <> i ->
             Diplomas.diplomas (DiplomasPage.base q1) !! k = Some d)
            /\ (Diplomas.id d = i ->
                exists d',
                  Diplomas.diplomas (DiplomasPage.base q1) !! k = Some d'
                  /\ Diplomas.status d' = "valid"
                  /\ DiplomasPage.offered d' = DiplomasPage.revoke
                  /\ Diplomas.email_sent d' = Diplomas.email_sent d
                  /\ Diplomas.certificate_id d'
                     = Diplomas.certificate_id d)))
  /\ (forall d,
        (DiplomasPage.offered d = DiplomasPage.revoke
         <-> Diplomas.status d = "valid")
        /\ (DiplomasPage.offered d = DiplomasPage.reactivate
            <-> Diplomas.status d <> "valid")).
Proof.
  cbv zeta. unfold Http.trace, Http.result.
  rewrite handleRevoke_result. cbn [fst snd].
  split; [reflexivity|]. split; [reflexivity|].
  split; [cbn; unfold Api.API; rewrite !string_app_assoc; reflexivity|].
  split; [now destruct (server _)|].
  split; [now destruct (server _)|].
  split; [intros [err ->]; reflexivity|]. split; [|split; [|split]].
  - intros [data ->] k d Hd. cbn.
    rewrite (update_lookup i (DiplomasPage.with_status "revoked") _ k d Hd).
    split.
    + intros Hne. apply String.eqb_neq in Hne. now rewrite Hne.
    + intros ->. rewrite String.eqb_refl. eexists. split; [reflexivity|].
      repeat split.
  - intros [data ->] [data' Hreply'] Hvalid.
    rewrite handleReactivate_result, Hreply'. cbn.
    rewrite map_map. rewrite <- (map_id (Diplomas.diplomas (DiplomasPage.base p)))
      at 2.
    apply map_ext_in. intros d Hd.
    destruct (Diplomas.id d =? i) eqn:Hi; cbn; rewrite Hi; [|reflexivity].
    apply String.eqb_eq in Hi. specialize (Hvalid d Hd Hi).
    destruct d. cbn in *. now subst.
  - rewrite handleReactivate_result. cbn [fst snd].
    split; [reflexivity|]. split; [reflexivity|].
    split; [cbn; unfold Api.API; rewrite !string_app_assoc; reflexivity|].
    split; [now destruct (server' _)|].
    split; [now destruct (server' _)|].
    split; [intros [err ->]; reflexivity|].
    intros [data ->] k d Hd. cbn.
    rewrite (update_lookup i (DiplomasPage.with_status "valid") _ k d Hd).
    split.
    + intros Hne. apply String.eqb_neq in Hne. now rewrite Hne.
    + intros ->. rewrite String.eqb_refl. eexists. split; [reflexivity|].
      repeat split.
  - intros d. unfold DiplomasPage.offered.
    destruct (Diplomas.status d =? "valid") eqn:Hs.
    + apply String.eqb_eq in Hs. split; split; (tauto || discriminate || congruence).
    + apply String.eqb_neq in Hs. split; split; (tauto || discriminate || congruence).
Qed.

Lemma revoke_and_reactivate_round_trip_witness :
  (forall d, In d (Diplomas.diplomas (DiplomasPage.base Cases.diplomas_page)) ->
             Diplomas.id d = "d1" -> Diplomas.status d = "valid")
  /\ Diplomas.diplomas
       (DiplomasPage.base
          (fst (Http.result Cases.accepts
                  (DiplomasPage.handleReactivate Samples.signed_in "d1"
                     (fst (Http.result Cases.accepts
                             (DiplomasPage.handleRevoke Samples.signed_in "d1"
                                Cases.diplomas_page)))))))
     = Diplomas.diplomas (DiplomasPage.base Cases.diplomas_page).
Proof.
  assert (Hvalid : forall d,
             In d (Diplomas.diplomas (DiplomasPage.base Cases.diplomas_page)) ->
             Diplomas.id d = "d1" -> Diplomas.status d = "valid").
  { intros d [<-|[<-|[]]]; reflexivity. }
  split; [exact Hvalid|].
  apply (proj1 (proj2 (proj2 (proj2 (proj2 (proj2 (proj2 (proj2
           (revoke_and_reactivate_round_trip Samples.signed_in "d1"
              Cases.diplomas_page Cases.diplomas_page
              Cases.accepts Cases.accepts)))))))));
    [eexists; reflexivity|eexists; reflexivity|exact Hvalid].
Defined.

(** X7. Confirming a delete sends one DELETE to /api/diplomas/{id}.  When
    it succeeds the diploma is gone from the list and from the selection
    (so a later bulk send cannot name it), and every other row and every
    other selected id stays, in order; when it fails the page is as
    before.  The dialog is closed in both cases. *)
Theorem delete_removes_row_and_selection (w : browser) (i : string)
  (p : DiplomasPage.page)
  (server : Http.request -> Http.outcome Http.json) :
  let p' :=
    fst (Http.result server
           (DiplomasPage.confirmAction w (DiplomasPage.delete, i) p)) in
  let request := Api.perform w (Api.diplomas_delete i) in
  Http.trace server (DiplomasPage.confirmAction w (DiplomasPage.delete, i) p)
  = [request]
  /\ Http.req_method request = Http.DELETE
  /\ Http.req_url request = REACT_APP_BACKEND_URL w +:+ "/api/diplomas/" +:+ i
  /\ DiplomasPage.actionDialog p' = None
  /\ ((exists err, server request = Http.Rejected err) ->
      DiplomasPage.base p' = DiplomasPage.base p)
  /\ ((exists data, server request = Http.Fulfilled data) ->
      ~ In i (map Diplomas.id (Diplomas.diplomas (DiplomasPage.base p')))
      /\ ~ In i (Diplomas.selectedDiplomas (DiplomasPage.base p'))
      /\ sublist (Diplomas.diplomas (DiplomasPage.base p'))
                 (Diplomas.diplomas (DiplomasPage.base p))
      /\ (forall d, Diplomas.id d <> i ->
            (In d (Diplomas.diplomas (DiplomasPage.base p'))
             <-> In d (Diplomas.diplomas (DiplomasPage.base p))))
      /\ (forall s, s <> i ->
            (In s (Diplomas.selectedDiplomas (DiplomasPage.base p'))
             <-> In s (Diplomas.selectedDiplomas (DiplomasPage.base p))))).
Proof.
  cbv zeta. unfold Http.trace, Http.result, DiplomasPage.confirmAction.
  cbn [fst snd]. rewrite handleDelete_result. cbn [fst snd].
  split; [reflexivity|]. split; [reflexivity|].
  split; [cbn; unfold Api.API; rewrite !string_app_assoc; reflexivity|].
  split; [now destruct (server _)|].
  split; [intros [err ->]; reflexivity|].
  intros [data ->]. cbn. rewrite map_id_filter. repeat split.
  - intros Hin. apply filter_In in Hin as [_ Hne].
    now rewrite String.eqb_refl in Hne.
  - intros Hin. apply filter_In in Hin as [_ Hne].
    now rewrite String.eqb_refl in Hne.
  - apply filter_sublist.
  - intros Hin. now apply filter_In in Hin as [Hin _].
  - intros Hin. apply filter_In. split; [assumption|].
    now apply negb_true_iff, String.eqb_neq.
  - intros Hin. now apply filter_In in Hin as [Hin _].
  - intros Hin. apply filter_In. split; [assumption|].
    now apply negb_true_iff, String.eqb_neq.
Qed.

Lemma delete_removes_row_and_selection_witness :
  (exists data, Cases.accepts (Api.perform Samples.signed_in
                                 (Api.diplomas_delete "d1"))
                = Http.Fulfilled data)
  /\ ~ In "d1"
       (Diplomas.selectedDiplomas
          (DiplomasPage.base
             (fst (Http.result Cases.accepts
                     (DiplomasPage.confirmAction Samples.signed_in
                        (DiplomasPage.delete, "d1") Cases.diplomas_page))))).
Proof.
  assert (Hok : exists data,
             Cases.accepts (Api.perform Samples.signed_in
                              (Api.diplomas_delete "d1"))
             = Http.Fulfilled data) by (eexists; reflexivity).
  split; [exact Hok|].
  apply (proj2 (proj2 (proj2 (proj2 (proj2
           (delete_removes_row_and_selection Samples.signed_in "d1"
              Cases.diplomas_page Cases.accepts))))) Hok).
Defined.

(** X8. Sending one email posts to /api/diplomas/{id}/send-email.  On
    success exactly the diplomas with that id are marked as sent, with the
    time the server reports, and nothing else about any row changes; on
    failure the list stays and the toast shows the server's detail when
    there is one and the generic message otherwise.  The spinner id is
    cleared in both cases and the selection is never touched. *)
Theorem send_email_marks_one_diploma (w : browser) (d : Diplomas.diploma)
  (p : DiplomasPage.page)
  (server : Http.request -> Http.outcome DiplomasPage.send_response) :
  let p' := fst (Http.result server (DiplomasPage.handleSendEmail w d p)) in
  let toasts := snd (Http.result server (DiplomasPage.handleSendEmail w d p)) in
  let request := Api.perform w (Api.diplomas_sendEmail (Diplomas.id d)) in
  Http.trace server (DiplomasPage.handleSendEmail w d p) = [request]
  /\ Http.req_method request = Http.POST
  /\ Http.req_url request
     = REACT_APP_BACKEND_URL w +:+ "/api/diplomas/" +:+ Diplomas.id d
       +:+ "/send-email"
  /\ DiplomasPage.sendingEmailId p' = None
  /\ Diplomas.selectedDiplomas (DiplomasPage.base p')
     = Diplomas.selectedDiplomas (DiplomasPage.base p)
  /\ (forall r, server request = Http.Fulfilled r ->
        forall (k : nat) d0,
          Diplomas.diplomas (DiplomasPage.base p) !! k = Some d0 ->
          (Diplomas.id d0 <> Diplomas.id d ->
           Diplomas.diplomas (DiplomasPage.base p') !! k = Some d0)
          /\ (Diplomas.id d0 = Diplomas.id d ->
              Diplomas.diplomas (DiplomasPage.base p') !! k
              = Some (DiplomasPage.with_email_sent
                        (DiplomasPage.response_email_sent_at r) d0)))
  /\ (forall err, server request = Http.Rejected err ->
        DiplomasPage.base p' = DiplomasPage.base p
        /\ (forall detail, Http.err_detail err = Some detail -> detail <> "" ->
              toasts = [Toast.Toast Toast.error (Toast.Raw detail)])
        /\ (Js.truthy_opt (Http.err_detail err) = false ->
            toasts = [Toast.Toast Toast.error
                        (Toast.T "diplomas.emailSendError")])).
Proof.
  cbv zeta. unfold Http.trace, Http.result.
  rewrite handleSendEmail_result. cbn [fst snd].
  split; [reflexivity|]. split; [reflexivity|].
  split; [cbn; unfold Api.API; rewrite !string_app_assoc; reflexivity|].
  split; [now destruct (server _)|].
  split; [now destruct (server _)|]. split.
  - intros r -> k d0 Hd0. cbn.
    rewrite (update_lookup (Diplomas.id d)
               (DiplomasPage.with_email_sent
                  (DiplomasPage.response_email_sent_at r)) _ k d0 Hd0).
    split.
    + intros Hne. apply String.eqb_neq in Hne. now rewrite Hne.
    + intros ->. now rewrite String.eqb_refl.
  - intros err ->. cbn. split; [reflexivity|]. split.
    + intros detail -> Hne. unfold Toast.detail_or.
      apply truthy_true in Hne. now rewrite Hne.
    + unfold Toast.detail_or, Js.truthy_opt.
      destruct (Http.err_detail err) as [detail|]; [|reflexivity].
      now intros ->.
Qed.

Lemma send_email_marks_one_diploma_witness :
  Diplomas.diplomas Samples.two_listed_one_selected !! 0%nat
  = Some (Samples.pending_diploma "d1")
  /\ Diplomas.diplomas
       (DiplomasPage.base
          (fst (Http.result
                  (fun _ => Http.Fulfilled
                              {| DiplomasPage.response_email_sent_at :=
                                   Some "2026-02-24T10:00:00Z" |})
                  (DiplomasPage.handleSendEmail Samples.signed_in
                     (Samples.pending_diploma "d1") Cases.diplomas_page))))
     !! 0%nat
     = Some (DiplomasPage.with_email_sent (Some "2026-02-24T10:00:00Z")
               (Samples.pending_diploma "d1")).
Proof.
  split; [reflexivity|].
  apply (proj2 (proj1 (proj2 (proj2 (proj2 (proj2 (proj2
           (send_email_marks_one_diploma Samples.signed_in
              (Samples.pending_diploma "d1") Cases.diplomas_page
              (fun _ => Http.Fulfilled
                          {| DiplomasPage.response_email_sent_at :=
                               Some "2026-02-24T10:00:00Z" |})))))))
           _ eq_refl 0%nat (Samples.pending_diploma "d1") eq_refl));
    reflexivity.
Defined.

Section ListFilters.
Import Http Diplomas DiplomasPage.
Variable w : browser.

Lemma app_not_empty (a : string) (c : ascii) (b : string) :
  a +:+ String c b <> "".
Proof. destruct a; discriminate. Qed.

Lemma queryString_truthy (kv : string * string) (rest : list (string * string)) :
  Js.truthy (Api.queryString w (kv :: rest)) = true.
Proof.
  apply truthy_true. destruct kv as [k v].
  destruct rest as [|kv' rest]; cbn [Api.queryString]; apply app_not_empty.
Qed.

Lemma append_if_inactive (k v : string) :
  v = "all" \/ v = "" ->
  Api.append_if k (if v =? "all" then None else Some v) = [].
Proof. intros [-> | ->]; reflexivity. Qed.

Lemma append_if_active (k v : string) :
  v <> "all" -> v <> "" ->
  Api.append_if k (if v =? "all" then None else Some v) = [(k, v)].
Proof.
  intros Hall Hne. apply String.eqb_neq in Hall. rewrite Hall.
  unfold Api.append_if. apply truthy_true in Hne. now rewrite Hne.
Qed.

Lemma append_if_search (v : string) :
  Api.append_if "search" (if Js.truthy v then Some v else None)
  = if Js.truthy v then [("search", v)] else [].
Proof.
  unfold Api.append_if. destruct (Js.truthy v) eqn:Hv; [now rewrite Hv|reflexivity].
Qed.

Lemma getAll_url (params : Api.diploma_filters) :
  req_url (Api.perform w (Api.diplomas_getAll params))
  = REACT_APP_BACKEND_URL w +:+ "/api/diplomas"
    +:+ (let qs := Api.queryString w
                     (Api.append_if "course_id" (Api.filter_course_id params)
                      ++ Api.append_if "status" (Api.filter_status params)
                      ++ Api.append_if "search" (Api.filter_search params))%list in
         if Js.truthy qs then "?" +:+ qs else "").
Proof.
  cbn. unfold Api.API. rewrite !string_app_assoc. reflexivity.
Qed.

Lemma queryString_concat (params : list (string * string)) :
  Api.queryString w params
  = String.concat "&"
      (map (fun kv => url_encode w (fst kv) +:+ "=" +:+ url_encode w (snd kv))
           params).
Proof.
  induction params as [|[k v] rest IH]; [reflexivity|].
  destruct rest as [|kv rest]; [reflexivity|].
  cbn [Api.queryString map String.concat fst snd] in *.
  destruct kv as [k' v']. rewrite IH. cbn [fst snd].
  now rewrite !string_app_assoc.
Qed.

Lemma append_if_choice (k v : string) :
  Api.append_if k (if v =? "all" then None else Some v)
  = if negb (v =? "all") && Js.truthy v then [(k, v)] else [].
Proof.
  unfold Api.append_if. destruct (v =? "all"); [reflexivity|].
  now destruct (Js.truthy v).
Qed.

End ListFilters.

(** X9. Reloading the list sends one GET to /api/diplomas whose query
    holds exactly the filters that are set, in the order course_id,
    status, search, each as name=value (both encoded) and joined by an
    ampersand: the course and the status are sent unless they are "all" or
    empty, the search unless it is empty, and with nothing set the URL has
    no question mark.  A successful reload replaces the list and empties
    the selection; a failed one leaves the page as it is (nothing is shown
    to the user). *)
Theorem reload_sends_only_the_set_filters (w : browser)
  (p : DiplomasPage.page)
  (server : Http.request -> Http.outcome (list Diplomas.diploma)) :
  let f := DiplomasPage.current_filters p in
  let p' := Http.result server (DiplomasPage.fetchDiplomas w p) in
  let chosen v := negb (v =? "all") && negb (v =? "") in
  let pairs :=
    ((if chosen (DiplomasPage.course_id f)
      then [("course_id", DiplomasPage.course_id f)] else [])
     ++ (if chosen (DiplomasPage.status_filter f)
         then [("status", DiplomasPage.status_filter f)] else [])
     ++ (if negb (DiplomasPage.search f =? "")
         then [("search", DiplomasPage.search f)] else []))%list in
  let pair kv := url_encode w (fst kv) +:+ "=" +:+ url_encode w (snd kv) in
  exists request,
    Http.trace server (DiplomasPage.fetchDiplomas w p) = [request]
    /\ Http.req_method request = Http.GET
    /\ Http.req_url request
       = REACT_APP_BACKEND_URL w +:+ "/api/diplomas"
         +:+ match pairs with
             | [] => ""
             | _ => "?" +:+ String.concat "&" (map pair pairs)
             end
    /\ (chosen (DiplomasPage.course_id f) = false ->
        chosen (DiplomasPage.status_filter f) = false ->
        DiplomasPage.search f = "" ->
        Http.req_url request = REACT_APP_BACKEND_URL w +:+ "/api/diplomas")
    /\ (chosen (DiplomasPage.course_id f) = false ->
        chosen (DiplomasPage.status_filter f) = true ->
        DiplomasPage.search f = "" ->
        Http.req_url request
        = REACT_APP_BACKEND_URL w +:+ "/api/diplomas?"
          +:+ url_encode w "status" +:+ "="
          +:+ url_encode w (DiplomasPage.status_filter f))
    /\ (chosen (DiplomasPage.course_id f) = true ->
        chosen (DiplomasPage.status_filter f) = true ->
        DiplomasPage.search f <> "" ->
        Http.req_url request
        = REACT_APP_BACKEND_URL w +:+ "/api/diplomas?"
          +:+ url_encode w "course_id" +:+ "="
          +:+ url_encode w (DiplomasPage.course_id f) +:+ "&"
          +:+ url_encode w "status" +:+ "="
          +:+ url_encode w (DiplomasPage.status_filter f) +:+ "&"
          +:+ url_encode w "search" +:+ "="
          +:+ url_encode w (DiplomasPage.search f))
    /\ (forall l, server request = Http.Fulfilled l ->
          Diplomas.diplomas (DiplomasPage.base p') = l
          /\ Diplomas.selectedDiplomas (DiplomasPage.base p') = []
          /\ DiplomasPage.current_filters p' = f)
    /\ (forall err, server request = Http.Rejected err -> p' = p).
Proof.
  cbv zeta.
  exists (Api.perform w
            (Api.diplomas_getAll
               (DiplomasPage.fetch_params (DiplomasPage.current_filters p)))).
  unfold Http.trace, Http.result, DiplomasPage.fetchDiplomas. cbn [Http.run fst snd].
  split; [now destruct (server _)|]. split; [reflexivity|].
  assert (Hurl :
    Http.req_url
      (Api.perform w
         (Api.diplomas_getAll
            (DiplomasPage.fetch_params (DiplomasPage.current_filters p))))
    = REACT_APP_BACKEND_URL w +:+ "/api/diplomas"
      +:+ match
            ((if negb (DiplomasPage.course_id (DiplomasPage.current_filters p)
                       =? "all")
                 && negb (DiplomasPage.course_id
                            (DiplomasPage.current_filters p) =? "")
              then [("course_id",
                     DiplomasPage.course_id (DiplomasPage.current_filters p))]
              else [])
             ++ (if negb (DiplomasPage.status_filter
                            (DiplomasPage.current_filters p) =? "all")
                    && negb (DiplomasPage.status_filter
                               (DiplomasPage.current_filters p) =? "")
                 then [("status",
                        DiplomasPage.status_filter
                          (DiplomasPage.current_filters p))]
                 else [])
             ++ (if negb (DiplomasPage.search (DiplomasPage.current_filters p)
                          =? "")
                 then [("search",
                        DiplomasPage.search (DiplomasPage.current_filters p))]
                 else []))%list
          with
          | [] => ""
          | pairs =>
              "?" +:+ String.concat "&"
                        (map (fun kv => url_encode w (fst kv) +:+ "="
                                        +:+ url_encode w (snd kv)) pairs)
          end).
  { rewrite getAll_url. unfold DiplomasPage.fetch_params.
    cbn [Api.filter_course_id Api.filter_status Api.filter_search].
    rewrite append_if_search, !append_if_choice. cbv zeta.
    change (fun s : string => negb (s =? "")) with Js.truthy.
    unfold Js.truthy at 1 2 3.
    set (l := (_ ++ _ ++ _)%list). f_equal. f_equal.
    destruct l as [|kv l']; [reflexivity|].
    pose proof (queryString_truthy w kv l') as Ht. unfold Js.truthy in Ht.
    rewrite Ht. now rewrite queryString_concat. }
  split; [|split; [|split; [|split; [|split]]]].
  - rewrite Hurl.
    destruct (_ ++ _ ++ _)%list; reflexivity.
  - intros Hc Hs Hq. rewrite Hurl, Hc, Hs, Hq. reflexivity.
  - intros Hc Hs Hq. rewrite Hurl, Hc, Hs, Hq.
    cbn [String.eqb negb app map String.concat fst snd].
    rewrite ?string_app_assoc. reflexivity.
  - intros Hc Hs Hq. apply String.eqb_neq in Hq. rewrite Hurl, Hc, Hs, Hq.
    cbn [String.eqb negb app map String.concat fst snd].
    rewrite ?string_app_assoc. reflexivity.
  - intros l ->. auto.
  - intros err ->. reflexivity.
Qed.

Lemma reload_sends_only_the_set_filters_witness :
  exists request,
    Http.trace (fun _ => Http.Fulfilled [])
      (DiplomasPage.fetchDiplomas Samples.signed_in Cases.revoked_only)
    = [request]
    /\ Http.req_url request
       = "https://api.example.org" +:+ "/api/diplomas?" +:+ "status" +:+ "="
         +:+ "revoked".
Proof.
  destruct (reload_sends_only_the_set_filters Samples.signed_in
              Cases.revoked_only (fun _ => Http.Fulfilled []))
    as (request & Htrace & _ & _ & _ & Hstatus & _).
  exists request. split; [exact Htrace|].
  apply Hstatus; reflexivity.
Defined.

(** X10. Ticking a row adds its id at the end of the selection, and the
    row then shows as checked.  Unticking removes every occurrence of the
    id and keeps the other ids in their order.  Ticking a row that is not
    selected and unticking it again gives back the selection as it was;
    neither changes the list. *)
Theorem row_checkbox_round_trip (st : Diplomas.state) (i : string) :
  Diplomas.selectedDiplomas (Diplomas.handleSelectDiploma i true st)
  = (Diplomas.selectedDiplomas st ++ [i])%list
  /\ sublist
       (Diplomas.selectedDiplomas (Diplomas.handleSelectDiploma i false st))
       (Diplomas.selectedDiplomas st)
  /\ (~ In i (Diplomas.selectedDiplomas st) ->
   Diplomas.selectedDiplomas
     (Diplomas.handleSelectDiploma i false
        (Diplomas.handleSelectDiploma i true st))
   = Diplomas.selectedDiplomas st)
  /\ ~ In i (Diplomas.selectedDiplomas (Diplomas.handleSelectDiploma i false st))
  /\ (forall j, j <> i ->
        (In j (Diplomas.selectedDiplomas (Diplomas.handleSelectDiploma i false st))
         <-> In j (Diplomas.selectedDiplomas st)))
  /\ Diplomas.includes
       (Diplomas.selectedDiplomas (Diplomas.handleSelectDiploma i true st)) i
     = true
  /\ (forall j,
        In j (Diplomas.selectedDiplomas (Diplomas.handleSelectDiploma i true st))
        <-> In j (Diplomas.selectedDiplomas st) \/ j = i)
  /\ (forall checked,
        Diplomas.diplomas (Diplomas.handleSelectDiploma i checked st)
        = Diplomas.diplomas st
        /\ Diplomas.sendingBulk (Diplomas.handleSelectDiploma i checked st)
           = Diplomas.sendingBulk st).
Proof.
  split; [reflexivity|]. split; [apply filter_sublist|].
  split; [|split; [|split; [|split; [|split]]]].
  - intros Hnot. simpl. rewrite List.filter_app. simpl.
    rewrite String.eqb_refl. simpl. rewrite app_nil_r.
    apply filter_keeps_all. intros j Hj.
    apply negb_true_iff, String.eqb_neq. intros ->. contradiction.
  - simpl. intros Hin. apply filter_In in Hin as [_ Hne].
    now rewrite String.eqb_refl in Hne.
  - intros j Hne. simpl. rewrite filter_In. split; [tauto|].
    intros Hin. split; [assumption|]. now apply negb_true_iff, String.eqb_neq.
  - simpl. apply includes_In, in_or_app. right. now left.
  - intros j. simpl. rewrite in_app_iff. simpl. intuition.
  - now intros [].
Qed.

Lemma row_checkbox_round_trip_witness :
  ~ In "d2" (Diplomas.selectedDiplomas Samples.two_listed_one_selected)
  /\ Diplomas.selectedDiplomas
       (Diplomas.handleSelectDiploma "d2" false
          (Diplomas.handleSelectDiploma "d2" true
             Samples.two_listed_one_selected))
     = ["d1"].
Proof.
  assert (Hnot : ~ In "d2"
                   (Diplomas.selectedDiplomas Samples.two_listed_one_selected))
    by (intros [H|[]]; discriminate H).
  split; [exact Hnot|].
  apply (proj1 (proj2 (proj2
           (row_checkbox_round_trip Samples.two_listed_one_selected "d2")))
           Hnot).
Defined.

(** ** The element list of the template builder (pages/TemplateBuilder.js) *)

Section ElementList.
Import TemplateBuilder BuilderPanel.

Lemma pretty_N_go_not_empty (x : N) (s : string) :
  s <> "" -> pretty_N_go x s <> "".
Proof.
  revert s. induction (N.lt_wf_0 x) as [x _ IH]; intros s Hs.
  destruct (N.eq_0_gt_0_cases x) as [->|Hpos].
  - now rewrite pretty_N_go_0.
  - rewrite pretty_N_go_step by assumption. apply IH.
    + now apply N.div_lt.
    + discriminate.
Qed.

Lemma pretty_positive_not_empty (p : positive) : pretty p <> "".
Proof.
  unfold pretty, pretty_positive, pretty, pretty_N.
  destruct (decide (N.pos p = 0%N)) as [H|_]; [discriminate H|].
  rewrite pretty_N_go_step by reflexivity.
  apply pretty_N_go_not_empty. discriminate.
Qed.

(** The id made from a timestamp is never empty. *)
Lemma pretty_Z_not_empty (z : Z) : pretty z <> "".
Proof.
  destruct z as [|p|p]; unfold pretty, pretty_Z.
  - discriminate.
  - apply pretty_positive_not_empty.
  - discriminate.
Qed.

Lemma map_id_updateElement (u : element) (l : list element) :
  map id (map (fun el => if id el =? id u then u else el) l) = map id l.
Proof.
  rewrite map_map. apply map_ext. intros el.
  destruct (id el =? id u) eqn:He; [|reflexivity].
  apply String.eqb_eq in He. congruence.
Qed.






End ElementList.

(** X11. [updateElement] never changes which ids the layout holds nor
    their order.  Updating with an id the layout does not hold changes
    nothing; of two updates that carry the same id the second overrides
    the first, so updating twice with the same element is the same as
    once; updates of elements with different ids can be done in either
    order. *)
Theorem updates_keep_ids_and_commute (st : TemplateBuilder.state)
  (u v : TemplateBuilder.element) :
  map TemplateBuilder.id
    (TemplateBuilder.elements (TemplateBuilder.updateElement u st))
  = map TemplateBuilder.id (TemplateBuilder.elements st)
  /\ ((forall el, In el (TemplateBuilder.elements st) ->
                  TemplateBuilder.id el <> TemplateBuilder.id u) ->
      TemplateBuilder.elements (TemplateBuilder.updateElement u st)
      = TemplateBuilder.elements st)
  /\ (TemplateBuilder.id u = TemplateBuilder.id v ->
      TemplateBuilder.updateElement v (TemplateBuilder.updateElement u st)
      = TemplateBuilder.updateElement v st)
  /\ TemplateBuilder.updateElement u (TemplateBuilder.updateElement u st)
     = TemplateBuilder.updateElement u st
  /\ (TemplateBuilder.id u <> TemplateBuilder.id v ->
      TemplateBuilder.updateElement u (TemplateBuilder.updateElement v st)
      = TemplateBuilder.updateElement v (TemplateBuilder.updateElement u st)).
Proof.
  split; [apply map_id_updateElement|]. split; [|split; [|split]].
  - intros Hfresh. simpl.
    rewrite <- (map_id (TemplateBuilder.elements st)) at 2.
    apply map_ext_in. intros el Hin.
    specialize (Hfresh el Hin). apply String.eqb_neq in Hfresh.
    now rewrite Hfresh.
  - intros Hsame. unfold TemplateBuilder.updateElement. simpl. f_equal.
    rewrite map_map. apply map_ext. intros el. rewrite <- Hsame.
    destruct (TemplateBuilder.id el =? TemplateBuilder.id u) eqn:He.
    + now rewrite String.eqb_refl.
    + now rewrite He.
  - unfold TemplateBuilder.updateElement. simpl. f_equal.
    rewrite map_map. apply map_ext. intros el.
    destruct (TemplateBuilder.id el =? TemplateBuilder.id u) eqn:He.
    + now rewrite String.eqb_refl.
    + now rewrite He.
  - intros Hne. unfold TemplateBuilder.updateElement. simpl. f_equal.
    rewrite !map_map. apply map_ext. intros el.
    destruct (TemplateBuilder.id el =? TemplateBuilder.id v) eqn:Hv;
      destruct (TemplateBuilder.id el =? TemplateBuilder.id u) eqn:Hu;
      rewrite ?Hv, ?Hu, ?String.eqb_refl; try reflexivity.
    + apply String.eqb_eq in Hv, Hu. congruence.
    + apply String.eqb_neq in Hne as Hne'. rewrite String.eqb_sym in Hne'.
      now rewrite Hne'.
    + apply String.eqb_neq in Hne as Hne'. now rewrite Hne'.
Qed.

Lemma updates_keep_ids_and_commute_witness :
  TemplateBuilder.id Samples.qr_element
  <> TemplateBuilder.id Samples.title_element
  /\ TemplateBuilder.updateElement Samples.qr_element
       (TemplateBuilder.updateElement Samples.title_element Samples.layout)
     = TemplateBuilder.updateElement Samples.title_element
         (TemplateBuilder.updateElement Samples.qr_element Samples.layout).
Proof.
  assert (Hne : TemplateBuilder.id Samples.qr_element
                <> TemplateBuilder.id Samples.title_element) by discriminate.
  split; [exact Hne|].
  apply (proj2 (proj2 (proj2 (proj2
           (updates_keep_ids_and_commute Samples.layout Samples.qr_element
              Samples.title_element)))) Hne).
Defined.

(** X12. Adding an element and deleting it at once removes, besides the
    new element, every older element that carries the same id (the id is
    the clock's millisecond); when no older element carries that id the
    layout is back as it was.  In particular this holds when all the
    older elements were added at other times. *)
Theorem add_then_delete (st : TemplateBuilder.state) (now : Z)
  (type : string) (variable : option string) :
  let st' :=
    TemplateBuilder.deleteSelected
      (TemplateBuilder.addElement now type variable st) in
  TemplateBuilder.selectedId st' = None
  /\ TemplateBuilder.elements st'
     = List.filter (fun el => negb (TemplateBuilder.id el =? pretty now))
         (TemplateBuilder.elements st)
  /\ ((forall el, In el (TemplateBuilder.elements st) ->
                  TemplateBuilder.id el <> pretty now) ->
      TemplateBuilder.elements st' = TemplateBuilder.elements st)
  /\ ((forall el, In el (TemplateBuilder.elements st) ->
                  exists t : Z, t <> now /\ TemplateBuilder.id el = pretty t) ->
      TemplateBuilder.elements st' = TemplateBuilder.elements st).
Proof.
  cbv zeta.
  assert (Hdel : TemplateBuilder.deleteSelected
                   (TemplateBuilder.addElement now type variable st)
                 = {| TemplateBuilder.elements :=
                        List.filter
                          (fun el => negb (TemplateBuilder.id el =? pretty now))
                          (TemplateBuilder.elements st);
                      TemplateBuilder.selectedId := None |}).
  { rewrite (deleteSelected_elements _ (pretty now));
      [|reflexivity|apply pretty_Z_not_empty].
    f_equal. cbn [TemplateBuilder.addElement TemplateBuilder.elements].
    rewrite List.filter_app. cbn [List.filter TemplateBuilder.id].
    rewrite String.eqb_refl. cbn. apply app_nil_r. }
  rewrite Hdel. cbn.
  assert (Hfresh : (forall el, In el (TemplateBuilder.elements st) ->
                               TemplateBuilder.id el <> pretty now) ->
                   List.filter
                     (fun el => negb (TemplateBuilder.id el =? pretty now))
                     (TemplateBuilder.elements st)
                   = TemplateBuilder.elements st).
  { intros Hf. apply filter_keeps_all. intros el Hin.
    now apply negb_true_iff, String.eqb_neq, Hf. }
  split; [reflexivity|]. split; [reflexivity|]. split; [exact Hfresh|].
  intros Hclock. apply Hfresh. intros el Hin Hid.
  destruct (Hclock el Hin) as (t & Hne & Ht). rewrite Ht in Hid.
  apply (inj pretty) in Hid. contradiction.
Qed.

Lemma add_then_delete_witness :
  (forall el, In el (TemplateBuilder.elements Samples.layout) ->
              TemplateBuilder.id el <> pretty 1700000000002%Z)
  /\ TemplateBuilder.elements
       (TemplateBuilder.deleteSelected
          (TemplateBuilder.addElement 1700000000002 "text" None Samples.layout))
     = TemplateBuilder.elements Samples.layout.
Proof.
  assert (Hfresh : forall el, In el (TemplateBuilder.elements Samples.layout) ->
                              TemplateBuilder.id el <> pretty 1700000000002%Z).
  { intros el [<-|[<-|[]]]; vm_compute; discriminate. }
  split; [exact Hfresh|].
  apply (proj1 (proj2 (proj2
           (add_then_delete Samples.layout 1700000000002 "text" None))) Hfresh).
Defined.



(** ** Image elements (pages/TemplateBuilder.js) *)

Section Images.
Import TemplateBuilder ImageElement.

Lemma Math_round_integer (z : Z) : Math_round (inject_Z z) = z.
Proof.
  unfold Math_round, Qfloor, Qplus, inject_Z. cbn [Qnum Qden].
  symmetry. apply (Z.div_unique _ _ _ 1%Z); lia.
Qed.

Lemma Math_round_product (a k : Z) :
  Math_round (inject_Z a * inject_Z k) = (a * k)%Z.
Proof.
  change (inject_Z a * inject_Z k)%Q with (inject_Z (a * k)).
  apply Math_round_integer.
Qed.

Lemma stored_width (e : image) (n : Z) :
  imageWidth e = Some n -> (20 <= n)%Z -> width e = n.
Proof.
  intros Hw Hn. unfold width. rewrite Hw.
  destruct (Z.eqb_spec n 0); [lia|reflexivity].
Qed.

Lemma stored_height (e : image) (n : Z) :
  imageHeight e = Some n -> (20 <= n)%Z -> height e = n.
Proof.
  intros Hh Hn. unfold height. rewrite Hh.
  destruct (Z.eqb_spec n 0); [lia|reflexivity].
Qed.

Lemma image_event_keeps_size (e e' : image) :
  image_event e e' ->
  (20 <= width e)%Z /\ (20 <= height e)%Z ->
  (20 <= width e')%Z /\ (20 <= height e')%Z
  /\ id e' = id e /\ imageUrl e' = imageUrl e.
Proof.
  intros Hev [Hw Hh].
  destruct Hev as [e tx ty|e sx sy nx ny r|e v Hv|e v Hv|e v Hv|e v Hv].
  - repeat split; assumption.
  - repeat split.
    + erewrite stored_width; [|reflexivity|]; lia.
    + erewrite stored_height; [|reflexivity|]; lia.
  - unfold reports in Hv. simpl in Hv. repeat split; [|assumption].
    erewrite stored_width; [|reflexivity|]; lia.
  - unfold reports in Hv. simpl in Hv. repeat split; [assumption|].
    erewrite stored_height; [|reflexivity|]; lia.
  - repeat split; assumption.
  - repeat split; assumption.
Qed.

Lemma image_events_keep_size (e e' : image) :
  rtc image_event e e' ->
  (20 <= width e)%Z /\ (20 <= height e)%Z ->
  (20 <= width e')%Z /\ (20 <= height e')%Z
  /\ id e' = id e /\ imageUrl e' = imageUrl e.
Proof.
  intros Hsteps. induction Hsteps as [e|e e1 e' Hstep _ IH];
    [intros [Hw Hh]; repeat split; assumption|].
  intros Hsize.
  pose proof (image_event_keeps_size e e1 Hstep Hsize) as (Hw & Hh & Hid & Hurl).
  destruct (IH (conj Hw Hh)) as (Hw' & Hh' & Hid' & Hurl').
  repeat split; congruence.
Qed.

End Images.

(** X14. An image on the canvas never gets smaller than 20 pixels.  A
    new image measures 150 by 150.  Dragging moves the image and keeps
    its size and everything else.  A resize stores
    max(20, round(size * scale)) for width and height, the numbers being
    taken as exact rationals; the transformer refuses a box with a side
    below 20 and accepts any other.  The width and height sliders report
    values from 20 to 500, and the image then has the reported size.  So
    the bound holds after any sequence of drags, resizes and slider
    moves, which also leave the id and the image URL alone.  There is no
    upper bound on a resize: an integer scale factor multiplies the width
    exactly, beyond the slider's maximum of 500 if need be. *)
Theorem image_size_never_below_twenty (e e' : ImageElement.image) :
  (forall tx ty,
      ImageElement.width (ImageElement.onDragEnd e tx ty)
      = ImageElement.width e
      /\ ImageElement.height (ImageElement.onDragEnd e tx ty)
         = ImageElement.height e
      /\ ImageElement.imageWidth (ImageElement.onDragEnd e tx ty)
         = ImageElement.imageWidth e
      /\ ImageElement.imageHeight (ImageElement.onDragEnd e tx ty)
         = ImageElement.imageHeight e
      /\ ImageElement.x (ImageElement.onDragEnd e tx ty) = tx
      /\ ImageElement.y (ImageElement.onDragEnd e tx ty) = ty
      /\ ImageElement.rotation (ImageElement.onDragEnd e tx ty)
         = ImageElement.rotation e
      /\ ImageElement.opacity (ImageElement.onDragEnd e tx ty)
         = ImageElement.opacity e)
  /\ (forall sx sy nx ny r,
        ImageElement.width (ImageElement.onTransformEnd e sx sy nx ny r)
        = Z.max 20
            (TemplateBuilder.Math_round
               (inject_Z (ImageElement.width e) * sx))
        /\ ImageElement.height (ImageElement.onTransformEnd e sx sy nx ny r)
           = Z.max 20
               (TemplateBuilder.Math_round
                  (inject_Z (ImageElement.height e) * sy)))
  /\ (forall v,
        (TemplateBuilder.reports ImageElement.width_slider v ->
         (20 <= v <= 500)%Z
         /\ ImageElement.width (ImageElement.onWidthChange e v) = v
         /\ ImageElement.height (ImageElement.onWidthChange e v)
            = ImageElement.height e)
        /\ (TemplateBuilder.reports ImageElement.height_slider v ->
            (20 <= v <= 500)%Z
            /\ ImageElement.height (ImageElement.onHeightChange e v) = v
            /\ ImageElement.width (ImageElement.onHeightChange e v)
               = ImageElement.width e))
  /\ (forall sx sy nx ny r,
      (20 <= ImageElement.width (ImageElement.onTransformEnd e sx sy nx ny r))%Z
      /\ (20 <= ImageElement.height
                  (ImageElement.onTransformEnd e sx sy nx ny r))%Z)
  /\ (forall oldBox newBox,
        ((TemplateBuilder.width newBox < 20
          \/ TemplateBuilder.height newBox < 20)%Q ->
         ImageElement.boundBoxFunc oldBox newBox = oldBox)
        /\ ((20 <= TemplateBuilder.width newBox
             /\ 20 <= TemplateBuilder.height newBox)%Q ->
            ImageElement.boundBoxFunc oldBox newBox = newBox))
  /\ (rtc ImageElement.image_event e e' ->
      (20 <= ImageElement.width e)%Z /\ (20 <= ImageElement.height e)%Z ->
      (20 <= ImageElement.width e')%Z /\ (20 <= ImageElement.height e')%Z
      /\ ImageElement.id e' = ImageElement.id e
      /\ ImageElement.imageUrl e' = ImageElement.imageUrl e)
  /\ (forall k sy nx ny r,
        (1 <= k)%Z -> (20 <= ImageElement.width e)%Z ->
        ImageElement.width
          (ImageElement.onTransformEnd e (inject_Z k) sy nx ny r)
        = (ImageElement.width e * k)%Z)
  /\ (forall w now uploaded,
        ImageElement.width (ImageElement.newImage w now uploaded) = 150%Z
        /\ ImageElement.height (ImageElement.newImage w now uploaded) = 150%Z).
Proof.
  split; [|split; [|split; [|split; [|split; [|split; [|split]]]]]].
  - intros tx ty. repeat split.
  - intros sx sy nx ny r. split.
    + erewrite stored_width; [reflexivity|reflexivity|lia].
    + erewrite stored_height; [reflexivity|reflexivity|lia].
  - intros v.
    unfold TemplateBuilder.reports, ImageElement.width_slider,
      ImageElement.height_slider.
    cbn [TemplateBuilder.min TemplateBuilder.max]. split; intros Hv.
    + split; [exact Hv|]. split; [|reflexivity].
      erewrite stored_width; [reflexivity|reflexivity|lia].
    + split; [exact Hv|]. split; [|reflexivity].
      erewrite stored_height; [reflexivity|reflexivity|lia].
  - intros sx sy nx ny r. split.
    + erewrite stored_width; [|reflexivity|]; lia.
    + erewrite stored_height; [|reflexivity|]; lia.
  - intros oldBox newBox. unfold ImageElement.boundBoxFunc. split.
    + intros [H|H]; apply ltb_lt in H; rewrite H; [reflexivity|].
      now rewrite orb_true_r.
    + intros [Hw Hh]. apply ltb_ge in Hw, Hh. now rewrite Hw, Hh.
  - apply image_events_keep_size.
  - intros k sy nx ny r Hk Hw.
    assert (Hp : (20 <= ImageElement.width e * k)%Z) by nia.
    rewrite (stored_width _
               (Z.max 20
                  (TemplateBuilder.Math_round
                     (inject_Z (ImageElement.width e) * inject_Z k))));
      [|reflexivity|]; rewrite Math_round_product; lia.
  - intros w now uploaded. split; reflexivity.
Qed.

Lemma image_size_never_below_twenty_witness :
  (20 <= ImageElement.width
           (ImageElement.newImage Samples.signed_in 1700000000003 "/u/logo.png"))%Z
  /\ ImageElement.width
       (ImageElement.onTransformEnd
          (ImageElement.newImage Samples.signed_in 1700000000003 "/u/logo.png")
          (inject_Z 4) 1 0 0 0)
     = 600%Z.
Proof.
  assert (Hw : (20 <= ImageElement.width
                        (ImageElement.newImage Samples.signed_in 1700000000003
                           "/u/logo.png"))%Z)
    by (unfold ImageElement.width; simpl; lia).
  split; [exact Hw|].
  apply (proj1 (proj2 (proj2 (proj2 (proj2 (proj2 (proj2
           (image_size_never_below_twenty
              (ImageElement.newImage Samples.signed_in 1700000000003
                 "/u/logo.png")
              (ImageElement.newImage Samples.signed_in 1700000000003
                 "/u/logo.png"))))))))
           4%Z 1%Q 0%Q 0%Q 0%Q); [lia|exact Hw].
Defined.

(** ** The generation wizard, step by step (pages/GenerateDiplomas.js) *)

Section WizardSteps.
Import Http Toast GenerateDiplomas Wizard.
Variable w : browser.

Lemma handleGenerate_frame (ticks : nat) (st : state)
  (server : request -> outcome generate_response) :
  let st' := fst (result server (handleGenerate w ticks st)) in
  selectedCourse st' = selectedCourse st
  /\ selectedTemplate st' = selectedTemplate st
  /\ selectedRecipients st' = selectedRecipients st
  /\ (step st' = step st \/ step st' = 4%Z)
  /\ (generating st = false -> generating st' = false).
Proof.
  cbv zeta. unfold handleGenerate, result.
  destruct (negb (Js.truthy (selectedCourse st))
            || negb (Js.truthy (selectedTemplate st))
            || (length (selectedRecipients st) =? 0)%nat).
  - simpl. repeat split; auto.
  - cbn [run]. destruct (server _) as [r|err];
      [destruct (generated r >? 0)%Z|]; simpl; repeat split; auto.
Qed.

Lemma chooseCourse_core (i : string) (z : wizard)
  (server : request -> outcome (list recipient)) :
  let z' := result server (chooseCourse w i z) in
  step (core z') = step (core z)
  /\ generating (core z') = generating (core z)
  /\ selectedTemplate (core z') = selectedTemplate (core z)
  /\ courses z' = courses z /\ templates z' = templates z.
Proof.
  cbv zeta. unfold chooseCourse, result.
  destruct (i =? selectedCourse (core z)); [simpl; repeat split; auto|].
  destruct (Js.truthy i); [|simpl; repeat split; auto].
  unfold fetchRecipients. cbn [run].
  destruct (server _); simpl; repeat split; auto.
Qed.

Lemma drawn_sound (z : wizard) (c : control) :
  In c (drawn z) -> drawn_means z c.
Proof.
  unfold drawn. rewrite !in_app_iff. intros [H|[H|[H|H]]].
  - destruct (Z.eqb_spec (step (core z)) 1) as [Hs|_]; [|destruct H].
    destruct (courses z) as [|c0 cs] eqn:Hc; cbn in H.
    + destruct H as [<-|[]]. now split.
    + destruct H as [<-|[<-|[]]]; (split; [assumption|congruence]).
  - destruct (Z.eqb_spec (step (core z)) 2) as [Hs|_]; [|destruct H].
    destruct (templates z) as [|t0 ts] eqn:Ht.
    + destruct H as [<-|[]]. now split.
    + rewrite <- Ht in H. apply in_app_iff in H as [H|H].
      * apply in_map_iff in H as (t & <- & Hin). now split.
      * destruct H as [<-|[<-|[]]]; (split; [assumption|congruence]).
  - destruct (Z.eqb_spec (step (core z)) 3) as [Hs|_]; [|destruct H].
    destruct (recipients z) as [|r0 rs] eqn:Hr.
    + destruct H as [<-|[]]. now split.
    + rewrite <- Hr in H. destruct H as [<-|H]; [split; [assumption|congruence]|].
      apply in_app_iff in H as [H|H].
      * apply in_map_iff in H as (r & <- & Hin). now split.
      * destruct H as [<-|[<-|[]]]; (split; [assumption|congruence]).
  - destruct (Z.eqb_spec (step (core z)) 4) as [Hs|_]; [|destruct H].
    destruct H as [<-|[<-|[]]]; assumption.
Qed.

Lemma user_step_well_formed (z z' : wizard) :
  user_step w z z' -> well_formed z -> well_formed z'.
Proof.
  intros Hstep (Hrange & Hcourse & Htemplate & Hidle).
  destruct Hstep as [z c server [Hd Hen] Hc|z [Hd Hen]|z t [Hd Hen]|z [Hd Hen]
                    |z [Hd Hen]|z r [Hd Hen]|z [Hd Hen]|z [Hd Hen]
                    |z ticks server [Hd Hen]|z [Hd Hen]];
    apply drawn_sound in Hd; cbn [drawn_means] in Hd;
    match type of Hd with
    | _ /\ _ => destruct Hd as [Hs Hlist]
    | _ => rename Hd into Hs
    end;
    cbn [disabled] in Hen.
  all: try (destruct (chooseCourse_core (course_id c) z server)
              as (H1 & H2 & H3 & _));
    try (destruct (handleGenerate_frame ticks (core z) server)
           as (Hc' & Ht' & _ & Hstep' & Hg'));
    try (unfold next1_disabled in Hen; apply negb_false_iff, truthy_true in Hen);
    try (unfold next2_disabled in Hen; apply negb_false_iff, truthy_true in Hen);
    unfold well_formed; simpl;
    rewrite ?H1, ?H2, ?H3, ?Hc', ?Ht', ?Hs;
    repeat split;
    solve [ lia | assumption
          | intros; lia
          | intros; exact Hen
          | intros; apply Hcourse; lia
          | intros; apply Htemplate; lia
          | destruct Hstep' as [Hq|Hq]; rewrite Hq; lia
          | now apply Hg' ].
Qed.

Lemma start_well_formed (cs : list course) (ts : list template) :
  well_formed (start cs ts).
Proof. unfold well_formed. simpl. repeat split; lia. Qed.

Lemma reachable_well_formed (z z' : wizard) :
  rtc (user_step w) z z' -> well_formed z -> well_formed z'.
Proof.
  intros Hsteps. induction Hsteps as [z|z z1 z' Hstep _ IH]; [auto|].
  intros Hwf. apply IH. now apply (user_step_well_formed z z1).
Qed.

End WizardSteps.

(** X15. In every state the wizard can reach from its start through the
    controls it draws, a step beyond the first has a course chosen and a
    step beyond the second a template.  So whenever the generate button
    is drawn and enabled, pressing it sends exactly one request, the POST
    to /api/diplomas/generate with the chosen course, template and
    recipients as its body: the "complete your selections" refusal can
    never be produced through the page. *)
Theorem generate_button_always_sends (w : browser)
  (cs : list Wizard.course) (ts : list Wizard.template) (z : Wizard.wizard)
  (ticks : nat)
  (server : Http.request -> Http.outcome GenerateDiplomas.generate_response) :
  rtc (Wizard.user_step w) (Wizard.start cs ts) z ->
  Wizard.well_formed z
  /\ (Wizard.can_press z Wizard.generate_btn ->
      let request :=
        Api.perform w
          (Api.diplomas_generate (GenerateDiplomas.payload (Wizard.core z))) in
      Http.trace server
        (GenerateDiplomas.handleGenerate w ticks (Wizard.core z)) = [request]
      /\ Http.req_method request = Http.POST
      /\ Http.req_url request = Api.API w +:+ "/diplomas/generate"
      /\ Http.req_body request
         = Http.JsonBody
             (Http.JObj
                [("course_id",
                  Http.JStr (GenerateDiplomas.selectedCourse (Wizard.core z)));
                 ("template_id",
                  Http.JStr (GenerateDiplomas.selectedTemplate (Wizard.core z)));
                 ("recipient_ids",
                  Http.JArr
                    (map Http.JStr
                       (GenerateDiplomas.selectedRecipients (Wizard.core z))))])
      /\ GenerateDiplomas.selectedCourse (Wizard.core z) <> ""
      /\ GenerateDiplomas.selectedTemplate (Wizard.core z) <> ""
      /\ GenerateDiplomas.selectedRecipients (Wizard.core z) <> []
      /\ ~ In (Toast.Toast Toast.error (Toast.T "generate.completeSelections"))
             (snd (Http.result server
                     (GenerateDiplomas.handleGenerate w ticks (Wizard.core z))))).
Proof.
  intros Hreach.
  pose proof (reachable_well_formed w _ _ Hreach (start_well_formed cs ts))
    as Hwf.
  split; [exact Hwf|]. intros [Hd Hen]. cbv zeta.
  apply drawn_sound in Hd. destruct Hd as [Hstep _]. cbn [Wizard.disabled] in Hen.
  destruct Hwf as (_ & Hcourse & Htemplate & _).
  assert (Hc : GenerateDiplomas.selectedCourse (Wizard.core z) <> "")
    by (apply Hcourse; lia).
  assert (Ht : GenerateDiplomas.selectedTemplate (Wizard.core z) <> "")
    by (apply Htemplate; lia).
  assert (Hr : GenerateDiplomas.selectedRecipients (Wizard.core z) <> []).
  { unfold Wizard.generate_disabled in Hen. apply orb_false_elim in Hen as [Hl _].
    intros Hnil. rewrite Hnil in Hl. discriminate. }
  destruct (handleGenerate_run w ticks (Wizard.core z) server Hc Ht Hr)
    as [Htrace _].
  split; [exact Htrace|]. split; [reflexivity|]. split; [reflexivity|].
  split; [reflexivity|]. split; [exact Hc|]. split; [exact Ht|].
  split; [exact Hr|].
  unfold GenerateDiplomas.handleGenerate, Http.result.
  apply truthy_true in Hc, Ht. rewrite Hc, Ht.
  destruct (GenerateDiplomas.selectedRecipients (Wizard.core z)) eqn:Hsel;
    [contradiction|].
  cbn [negb orb length Nat.eqb Http.run].
  destruct (server _) as [r|err];
    [destruct (GenerateDiplomas.generated r >? 0)%Z|];
    simpl; intros [H|[]]; discriminate H.
Qed.

Lemma generate_button_always_sends_witness :
  exists z,
    rtc (Wizard.user_step Samples.signed_in)
      (Wizard.start [Cases.course_a] [Cases.template_a]) z
    /\ Wizard.can_press z Wizard.generate_btn
    /\ Http.trace Samples.two_generated
         (GenerateDiplomas.handleGenerate Samples.signed_in 0 (Wizard.core z))
       = [Api.perform Samples.signed_in
            (Api.diplomas_generate
               (Http.JObj
                  [("course_id", Http.JStr "course-a");
                   ("template_id", Http.JStr "template-a");
                   ("recipient_ids",
                    Http.JArr [Http.JStr "r1"; Http.JStr "r2"])]))].
Proof.
  eexists. split; [|split].
  - eapply rtc_l.
    { apply (Wizard.choose_course Samples.signed_in _ Cases.course_a
               Cases.lists_recipients);
        [split; [left; reflexivity|reflexivity]|now left]. }
    eapply rtc_l.
    { apply Wizard.next1. split; [right; left; reflexivity|reflexivity]. }
    eapply rtc_l.
    { apply (Wizard.choose_template Samples.signed_in _ Cases.template_a).
      split; [left; reflexivity|reflexivity]. }
    eapply rtc_l.
    { apply Wizard.next2.
      split; [right; right; left; reflexivity|reflexivity]. }
    apply rtc_refl.
  - split; [|reflexivity]. cbn. tauto.
  - refine (proj1 (proj2 (generate_button_always_sends Samples.signed_in
                            [Cases.course_a] [Cases.template_a] _ 0
                            Samples.two_generated _) _)).
    + eapply rtc_l.
      { apply (Wizard.choose_course Samples.signed_in _ Cases.course_a
                 Cases.lists_recipients);
          [split; [left; reflexivity|reflexivity]|now left]. }
      eapply rtc_l.
      { apply Wizard.next1. split; [right; left; reflexivity|reflexivity]. }
      eapply rtc_l.
      { apply (Wizard.choose_template Samples.signed_in _ Cases.template_a).
        split; [left; reflexivity|reflexivity]. }
      eapply rtc_l.
      { apply Wizard.next2.
        split; [right; right; left; reflexivity|reflexivity]. }
      apply rtc_refl.
    + split; [|reflexivity]. cbn. tauto.
Defined.

(** X16. A step of the wizard whose list is empty (no course at step 1, no
    template at step 2, no recipient at step 3) draws a single control, a
    link that leaves the page: no button of the wizard is drawn there, not
    even the one that goes back, so nothing can be done on the page.
    Such a dead end can be reached: a course without recipients leads to
    step 3 with an empty list.  A step whose list is not empty draws its
    buttons, and the link is not among them. *)
Theorem empty_list_is_a_dead_end (w : browser) (z : Wizard.wizard) :
  (GenerateDiplomas.step (Wizard.core z) = 1%Z -> Wizard.courses z = [] ->
   Wizard.drawn z = [Wizard.create_course_link])
  /\ (GenerateDiplomas.step (Wizard.core z) = 2%Z -> Wizard.templates z = [] ->
      Wizard.drawn z = [Wizard.create_template_link])
  /\ (GenerateDiplomas.step (Wizard.core z) = 3%Z -> Wizard.recipients z = [] ->
      Wizard.drawn z = [Wizard.add_recipients_link])
  /\ ((GenerateDiplomas.step (Wizard.core z) = 1%Z /\ Wizard.courses z = []
       \/ GenerateDiplomas.step (Wizard.core z) = 2%Z /\ Wizard.templates z = []
       \/ GenerateDiplomas.step (Wizard.core z) = 3%Z
          /\ Wizard.recipients z = []) ->
      (forall c, In c (Wizard.drawn z) -> Wizard.leaves_the_page c = true)
      /\ forall z', ~ Wizard.user_step w z z')
  /\ (GenerateDiplomas.step (Wizard.core z) = 3%Z -> Wizard.recipients z <> [] ->
      In Wizard.back_to_2 (Wizard.drawn z)
      /\ In Wizard.generate_btn (Wizard.drawn z)
      /\ In Wizard.select_all_recipients (Wizard.drawn z)
      /\ ~ In Wizard.add_recipients_link (Wizard.drawn z)
      /\ Wizard.disabled z Wizard.generate_btn
         = ((length (GenerateDiplomas.selectedRecipients (Wizard.core z)) =? 0)%nat
            || GenerateDiplomas.generating (Wizard.core z)))
  /\ (forall c t (server : Http.request -> Http.outcome (list Wizard.recipient)),
        Wizard.course_id c <> "" -> Wizard.template_id t <> "" ->
        (forall r, server r = Http.Fulfilled []) ->
        exists stuck,
          rtc (Wizard.user_step w) (Wizard.start [c] [t]) stuck
          /\ GenerateDiplomas.step (Wizard.core stuck) = 3%Z
          /\ Wizard.recipients stuck = []).
Proof.
  assert (H1 : GenerateDiplomas.step (Wizard.core z) = 1%Z ->
               Wizard.courses z = [] ->
               Wizard.drawn z = [Wizard.create_course_link]).
  { intros Hs Hl. unfold Wizard.drawn. now rewrite Hs, Hl. }
  assert (H2 : GenerateDiplomas.step (Wizard.core z) = 2%Z ->
               Wizard.templates z = [] ->
               Wizard.drawn z = [Wizard.create_template_link]).
  { intros Hs Hl. unfold Wizard.drawn. now rewrite Hs, Hl. }
  assert (H3 : GenerateDiplomas.step (Wizard.core z) = 3%Z ->
               Wizard.recipients z = [] ->
               Wizard.drawn z = [Wizard.add_recipients_link]).
  { intros Hs Hl. unfold Wizard.drawn. now rewrite Hs, Hl. }
  split; [exact H1|]. split; [exact H2|]. split; [exact H3|].
  split; [|split].
  - intros Hempty.
    assert (Hlinks : forall c, In c (Wizard.drawn z) ->
                               Wizard.leaves_the_page c = true).
    { intros c Hin.
      destruct Hempty as [[Hs Hl]|[[Hs Hl]|[Hs Hl]]];
        [rewrite (H1 Hs Hl) in Hin|rewrite (H2 Hs Hl) in Hin
        |rewrite (H3 Hs Hl) in Hin];
        destruct Hin as [<-|[]]; reflexivity. }
    split; [exact Hlinks|].
    intros z' Hstep.
    destruct Hstep as [z c server [Hd _] _|z [Hd _]|z t [Hd _]|z [Hd _]
                      |z [Hd _]|z r [Hd _]|z [Hd _]|z [Hd _]
                      |z ticks server [Hd _]|z [Hd _]];
      apply Hlinks in Hd; discriminate Hd.
  - intros Hs Hne. unfold Wizard.drawn. rewrite Hs.
    destruct (Wizard.recipients z) as [|r0 rs] eqn:Hr; [contradiction|].
    cbn [Z.eqb Pos.eqb app]. rewrite app_nil_r.
    repeat split.
    + right. apply in_or_app. right. now left.
    + right. apply in_or_app. right. right. now left.
    + now left.
    + intros [H|H]; [discriminate H|].
      apply in_app_or in H as [H|[H|[H|[]]]]; try discriminate H.
      apply in_map_iff in H as (r & H & _). discriminate H.
  - intros c t server Hc Ht Hempty.
    set (z0 := Wizard.start [c] [t]).
    set (z1 := Http.result server (Wizard.chooseCourse w (Wizard.course_id c) z0)).
    assert (E1 : z1 = {| Wizard.core :=
                           Wizard.setSelectedRecipients []
                             (Wizard.setSelectedCourse (Wizard.course_id c)
                                (Wizard.core z0));
                         Wizard.courses := [c]; Wizard.templates := [t];
                         Wizard.recipients := [] |}).
    { unfold z1, Wizard.chooseCourse, Http.result. simpl.
      apply String.eqb_neq in Hc as Hc'. rewrite Hc'.
      apply truthy_true in Hc as Hc''. rewrite Hc''.
      unfold Wizard.fetchRecipients. cbn [Http.run]. rewrite Hempty.
      reflexivity. }
    set (z2 := Wizard.with_core (Wizard.setStep 2 (Wizard.core z1)) z1).
    set (z3 := Wizard.with_core
                 (Wizard.setSelectedTemplate (Wizard.template_id t)
                    (Wizard.core z2)) z2).
    set (z4 := Wizard.with_core (Wizard.setStep 3 (Wizard.core z3)) z3).
    exists z4. split; [|split].
    + eapply rtc_l.
      { apply (Wizard.choose_course w z0 c server);
          [split; [left; reflexivity|reflexivity]|now left]. }
      fold z1. eapply rtc_l.
      { apply (Wizard.next1 w z1). rewrite E1. split.
        - right. left. reflexivity.
        - unfold Wizard.disabled, Wizard.next1_disabled. simpl.
          apply negb_false_iff. now apply truthy_true. }
      fold z2. eapply rtc_l.
      { apply (Wizard.choose_template w z2 t). unfold z2. rewrite E1.
        split; [left; reflexivity|reflexivity]. }
      fold z3. eapply rtc_l; [|apply rtc_refl].
      apply (Wizard.next2 w z3). unfold z3, z2. rewrite E1. split.
      * right. right. left. reflexivity.
      * unfold Wizard.disabled, Wizard.next2_disabled. simpl.
        apply negb_false_iff. now apply truthy_true.
    + reflexivity.
    + unfold z4, z3, z2. rewrite E1. reflexivity.
Qed.

Lemma empty_list_is_a_dead_end_witness :
  Wizard.drawn (Wizard.start [] [Cases.template_a])
  = [Wizard.create_course_link]
  /\ forall z', ~ Wizard.user_step Samples.signed_in
                    (Wizard.start [] [Cases.template_a]) z'.
Proof.
  destruct (empty_list_is_a_dead_end Samples.signed_in
              (Wizard.start [] [Cases.template_a]))
    as (Hdrawn & _ & _ & Hdead & _).
  split; [exact (Hdrawn eq_refl eq_refl)|].
  apply Hdead. left. split; reflexivity.
Defined.

(** X17. Choosing another course asks for its recipients with one GET to
    /api/recipients?course_id={id}.  When the list arrives every recipient
    of the course is selected and the select-all box is checked.  When the
    request fails nothing is shown and the recipients and the selection of
    the course chosen before stay, so that a generation started now would
    send them together with the new course id.  Choosing the course that
    is already chosen sends nothing. *)
Theorem choosing_a_course_loads_its_recipients (w : browser) (i : string)
  (z : Wizard.wizard)
  (server : Http.request -> Http.outcome (list Wizard.recipient)) :
  let z' := Http.result server (Wizard.chooseCourse w i z) in
  (i = GenerateDiplomas.selectedCourse (Wizard.core z) ->
   Http.run server (Wizard.chooseCourse w i z) = ([], z))
  /\ (i <> GenerateDiplomas.selectedCourse (Wizard.core z) -> i <> "" ->
      exists request,
        Http.trace server (Wizard.chooseCourse w i z) = [request]
        /\ Http.req_method request = Http.GET
        /\ Http.req_url request
           = REACT_APP_BACKEND_URL w +:+ "/api/recipients?course_id=" +:+ i
        /\ GenerateDiplomas.selectedCourse (Wizard.core z') = i
        /\ (forall l, server request = Http.Fulfilled l ->
              Wizard.recipients z' = l
              /\ GenerateDiplomas.selectedRecipients (Wizard.core z')
                 = map Wizard.recipient_id l
              /\ Wizard.all_checked z' = true)
        /\ (forall err, server request = Http.Rejected err ->
              Wizard.recipients z' = Wizard.recipients z
              /\ GenerateDiplomas.selectedRecipients (Wizard.core z')
                 = GenerateDiplomas.selectedRecipients (Wizard.core z)
              /\ GenerateDiplomas.payload (Wizard.core z')
                 = Http.JObj
                     [("course_id", Http.JStr i);
                      ("template_id",
                       Http.JStr (GenerateDiplomas.selectedTemplate (Wizard.core z)));
                      ("recipient_ids",
                       Http.JArr
                         (map Http.JStr
                            (GenerateDiplomas.selectedRecipients
                               (Wizard.core z))))])).
Proof.
  cbv zeta. split.
  - intros ->. unfold Wizard.chooseCourse. now rewrite String.eqb_refl.
  - intros Hne Hi. unfold Wizard.chooseCourse, Http.trace, Http.result.
    apply String.eqb_neq in Hne. rewrite Hne.
    apply truthy_true in Hi as Hi'. rewrite Hi'.
    unfold Wizard.fetchRecipients. cbn [Http.run fst snd].
    eexists. split; [now destruct (server _)|]. split; [reflexivity|].
    split.
    { cbn. rewrite Hi'. unfold Api.API. rewrite !string_app_assoc. reflexivity. }
    split; [now destruct (server _)|]. split.
    + intros l Hl. cbn in Hl. cbn. rewrite Hl. cbn.
      repeat split. unfold Wizard.all_checked. cbn.
      rewrite length_map. apply Nat.eqb_refl.
    + intros err He. cbn in He. cbn. rewrite He. cbn. repeat split.
Qed.

Lemma choosing_a_course_loads_its_recipients_witness :
  "course-b" <> GenerateDiplomas.selectedCourse
                  (Wizard.core Cases.wizard_at_recipients)
  /\ "course-b" <> ""
  /\ exists request,
       Http.trace (fun _ => Http.Rejected
                              {| Http.err_status := None;
                                 Http.err_detail := None |})
         (Wizard.chooseCourse Samples.signed_in "course-b"
            Cases.wizard_at_recipients) = [request]
       /\ Http.req_url request
          = "https://api.example.org" +:+ "/api/recipients?course_id="
            +:+ "course-b".
Proof.
  split; [discriminate|]. split; [discriminate|].
  destruct (proj2 (choosing_a_course_loads_its_recipients Samples.signed_in
                     "course-b" Cases.wizard_at_recipients
                     (fun _ => Http.Rejected
                                 {| Http.err_status := None;
                                    Http.err_detail := None |})))
    as (request & Htrace & _ & Hurl & _); try discriminate.
  exists request. split; assumption.
Defined.

Section RecipientBoxes.
Import Wizard.

Lemma includes_filter_out (l : list string) (i j : string) :
  Diplomas.includes (List.filter (fun r => negb (r =? i)) l) j
  = negb (j =? i) && Diplomas.includes l j.
Proof.
  apply eq_true_iff_eq. rewrite andb_true_iff, negb_true_iff, String.eqb_neq.
  rewrite !includes_In, filter_In, negb_true_iff, String.eqb_neq. tauto.
Qed.

Lemma includes_append (l : list string) (i j : string) :
  Diplomas.includes (l ++ [i]) j = Diplomas.includes l j || (j =? i).
Proof.
  apply eq_true_iff_eq. rewrite orb_true_iff, !includes_In, in_app_iff.
  rewrite String.eqb_eq. simpl. intuition congruence.
Qed.

Lemma tick_closed_form (n : nat) (p : Z) :
  (p <= 90)%Z ->
  GenerateDiplomas.tick n p = Z.min (p + 10 * Z.of_nat n) 90.
Proof.
  revert p. induction n as [|n IH]; intros p Hp.
  - simpl. lia.
  - cbn [GenerateDiplomas.tick]. rewrite IH by lia. lia.
Qed.

End RecipientBoxes.

(** X18. The checkbox of a recipient flips the membership of that
    recipient and of no other, and keeps a duplicate-free selection
    duplicate-free; ticking an unselected recipient and unticking it again
    gives the selection back.  The select-all box empties the selection
    when it shows as checked and selects every recipient otherwise, so
    with a non-empty list each click inverts what the box shows. *)
Theorem recipient_boxes_toggle (z : Wizard.wizard) (i : string) :
  (forall j,
      Diplomas.includes
        (GenerateDiplomas.selectedRecipients
           (Wizard.core (Wizard.toggleRecipient i z))) j
      = if j =? i
        then negb (Diplomas.includes
                     (GenerateDiplomas.selectedRecipients (Wizard.core z)) i)
        else Diplomas.includes
               (GenerateDiplomas.selectedRecipients (Wizard.core z)) j)
  /\ (List.NoDup (GenerateDiplomas.selectedRecipients (Wizard.core z)) ->
      List.NoDup (GenerateDiplomas.selectedRecipients
                    (Wizard.core (Wizard.toggleRecipient i z))))
  /\ (~ In i (GenerateDiplomas.selectedRecipients (Wizard.core z)) ->
      GenerateDiplomas.selectedRecipients
        (Wizard.core (Wizard.toggleRecipient i (Wizard.toggleRecipient i z)))
      = GenerateDiplomas.selectedRecipients (Wizard.core z))
  /\ (Wizard.all_checked z = true ->
      GenerateDiplomas.selectedRecipients
        (Wizard.core (Wizard.toggleAllRecipients z)) = [])
  /\ (Wizard.all_checked z = false ->
      GenerateDiplomas.selectedRecipients
        (Wizard.core (Wizard.toggleAllRecipients z))
      = map Wizard.recipient_id (Wizard.recipients z))
  /\ (Wizard.recipients z <> [] ->
      Wizard.all_checked (Wizard.toggleAllRecipients z)
      = negb (Wizard.all_checked z))
  /\ Wizard.recipients (Wizard.toggleAllRecipients z) = Wizard.recipients z.
Proof.
  split; [|split; [|split; [|split; [|split; [|split]]]]].
  - intros j. unfold Wizard.toggleRecipient.
    cbn [Wizard.core Wizard.with_core Wizard.setSelectedRecipients
         GenerateDiplomas.selectedRecipients].
    destruct (Diplomas.includes
                (GenerateDiplomas.selectedRecipients (Wizard.core z)) i) eqn:Hi.
    + rewrite includes_filter_out.
      destruct (j =? i) eqn:Hj; [reflexivity|reflexivity].
    + rewrite includes_append. destruct (j =? i) eqn:Hj.
      * apply orb_true_r.
      * apply orb_false_r.
  - intros Hnd. unfold Wizard.toggleRecipient.
    cbn [Wizard.core Wizard.with_core Wizard.setSelectedRecipients
         GenerateDiplomas.selectedRecipients].
    destruct (Diplomas.includes
                (GenerateDiplomas.selectedRecipients (Wizard.core z)) i) eqn:Hi.
    + now apply NoDup_filter_str.
    + apply List.NoDup_app; [assumption|constructor; [intros []|constructor]|].
      intros x Hx [<-|[]]. apply includes_In in Hx. congruence.
  - intros Hnot. unfold Wizard.toggleRecipient.
    cbn [Wizard.core Wizard.with_core Wizard.setSelectedRecipients
         GenerateDiplomas.selectedRecipients].
    assert (Hi : Diplomas.includes
                   (GenerateDiplomas.selectedRecipients (Wizard.core z)) i
                 = false).
    { apply not_true_iff_false. intros H. now apply includes_In in H. }
    rewrite Hi.
    cbn [Wizard.core Wizard.with_core Wizard.setSelectedRecipients
         GenerateDiplomas.selectedRecipients].
    rewrite includes_append, String.eqb_refl, orb_true_r.
    rewrite List.filter_app. cbn [List.filter]. rewrite String.eqb_refl.
    cbn [negb]. rewrite app_nil_r. apply filter_keeps_all. intros j Hj.
    apply negb_true_iff, String.eqb_neq. intros ->. contradiction.
  - unfold Wizard.all_checked, Wizard.toggleAllRecipients. cbn. now intros ->.
  - unfold Wizard.all_checked, Wizard.toggleAllRecipients. cbn. now intros ->.
  - intros Hne. unfold Wizard.all_checked, Wizard.toggleAllRecipients. cbn.
    destruct (length (GenerateDiplomas.selectedRecipients (Wizard.core z))
              =? length (Wizard.recipients z))%nat eqn:Hl; cbn.
    + destruct (Wizard.recipients z); [contradiction|reflexivity].
    + rewrite length_map. apply Nat.eqb_refl.
  - reflexivity.
Qed.

Lemma recipient_boxes_toggle_witness :
  Wizard.recipients Cases.wizard_at_recipients <> []
  /\ Wizard.all_checked Cases.wizard_at_recipients = true
  /\ Wizard.all_checked (Wizard.toggleAllRecipients Cases.wizard_at_recipients)
     = false.
Proof.
  split; [discriminate|]. split; [reflexivity|].
  rewrite (proj1 (proj2 (proj2 (proj2 (proj2 (proj2
             (recipient_boxes_toggle Cases.wizard_at_recipients "r1"))))))).
  - reflexivity.
  - discriminate.
Defined.

(** X19. Once generation has been started with complete selections the
    spinner is always taken down.  The progress bar shows 100 exactly
    when the request succeeded; after a failure it stays where the timer
    had brought it, at ten per tick and never above 90.  A success that
    generated nothing leaves the wizard on its step with an information
    toast. *)
Theorem progress_bar_reports_the_outcome (w : browser) (ticks : nat)
  (st : GenerateDiplomas.state)
  (server : Http.request -> Http.outcome GenerateDiplomas.generate_response) :
  GenerateDiplomas.selectedCourse st <> "" ->
  GenerateDiplomas.selectedTemplate st <> "" ->
  GenerateDiplomas.selectedRecipients st <> [] ->
  let request := Api.perform w (Api.diplomas_generate (GenerateDiplomas.payload st)) in
  let st' := fst (Http.result server (GenerateDiplomas.handleGenerate w ticks st)) in
  let toasts := snd (Http.result server (GenerateDiplomas.handleGenerate w ticks st)) in
  GenerateDiplomas.generating st' = false
  /\ (GenerateDiplomas.progress st' = 100%Z
      <-> exists r, server request = Http.Fulfilled r)
  /\ (forall err, server request = Http.Rejected err ->
        GenerateDiplomas.progress st' = Z.min (10 * Z.of_nat ticks) 90
        /\ (0 <= GenerateDiplomas.progress st' <= 90)%Z
        /\ toasts = [Toast.Toast Toast.error (Toast.T "generate.error")])
  /\ (forall r, server request = Http.Fulfilled r ->
        (GenerateDiplomas.generated r <= 0)%Z ->
        GenerateDiplomas.step st' = GenerateDiplomas.step st
        /\ GenerateDiplomas.generatedDiplomas st'
           = GenerateDiplomas.generatedDiplomas st
        /\ toasts = [Toast.Toast Toast.info (Toast.T "generate.noNew")])
  /\ (forall r, server request = Http.Fulfilled r ->
        (0 < GenerateDiplomas.generated r)%Z ->
        GenerateDiplomas.generatedDiplomas st'
        = GenerateDiplomas.response_diplomas r
        /\ toasts = [Toast.Toast Toast.success
                       (Toast.TCount "generate.success"
                          (GenerateDiplomas.generated r))]).
Proof.
  intros Hc Ht Hr. cbv zeta.
  unfold GenerateDiplomas.handleGenerate, Http.result.
  apply truthy_true in Hc, Ht. rewrite Hc, Ht.
  destruct (GenerateDiplomas.selectedRecipients st) as [|r0 rs] eqn:Hrs;
    [contradiction|].
  cbn [negb orb length Nat.eqb Http.run fst snd].
  pose proof (tick_closed_form ticks 0) as Htick.
  destruct (server _) as [r|err] eqn:Hreply.
  - destruct (Z.gtb_spec (GenerateDiplomas.generated r) 0) as [Hpos|Hnon]; cbn.
    + split; [reflexivity|]. split; [split; eauto|].
      split; [intros err He; discriminate He|]. split.
      * intros r' [= <-] Hle. lia.
      * intros r' [= <-] _. split; reflexivity.
    + split; [reflexivity|]. split; [split; eauto|].
      split; [intros err He; discriminate He|]. split.
      * intros r' [= <-] _. repeat split.
      * intros r' [= <-] Hlt. lia.
  - cbn. split; [reflexivity|]. split.
    + split.
      * intros H100. rewrite Htick in H100 by lia. lia.
      * intros [r Hr']. discriminate Hr'.
    + split.
      * intros err' _. rewrite Htick by lia. repeat split; lia.
      * split; intros r Hr'; discriminate Hr'.
Qed.

Lemma progress_bar_reports_the_outcome_witness :
  GenerateDiplomas.selectedCourse Samples.wizard_ready <> ""
  /\ GenerateDiplomas.selectedTemplate Samples.wizard_ready <> ""
  /\ GenerateDiplomas.selectedRecipients Samples.wizard_ready <> []
  /\ GenerateDiplomas.generating
       (fst (Http.result Samples.two_generated
               (GenerateDiplomas.handleGenerate Samples.signed_in 4
                  Samples.wizard_ready))) = false.
Proof.
  split; [discriminate|]. split; [discriminate|]. split; [discriminate|].
  apply (proj1 (progress_bar_reports_the_outcome Samples.signed_in 4
                  Samples.wizard_ready Samples.two_generated
                  ltac:(discriminate) ltac:(discriminate) ltac:(discriminate))).
Defined.

(** ** The settings form: loading, saving and uploading *)


Lemma or_default_given (s d : string) :
  s <> "" -> SettingsForm.or_default (Some s) d = s.
Proof.
  intros Hs. unfold SettingsForm.or_default.
  now rewrite (proj2 (truthy_true s) Hs).
Qed.

Lemma or_default_missing (v : option string) (d : string) :
  v = None \/ v = Some "" -> SettingsForm.or_default v d = d.
Proof. intros [->| ->]; reflexivity. Qed.




Lemma or_default_text (text : string) :
  SettingsForm.or_default (Some text) "" = text.
Proof.
  unfold SettingsForm.or_default. destruct (Js.truthy text) eqn:Ht; [reflexivity|].
  symmetry. now apply truthy_false.
Qed.

(** X21. Saving straight after a load sends one PUT to [/api/settings]
    whose body carries what the form was filled with: for the SMTP host
    and port the value of the server, or smtp.gmail.com and 587 when the
    server had none or an empty one; for each of the nine other texts the
    value of the server, or the empty string when the server had none;
    for the e-mail switch the value of the server, or false.  The form
    itself is not changed by saving.  The title of the document is
    replaced only when the save succeeded and the site title is not
    empty; a failed save leaves the document as it was. *)
Theorem load_then_save_writes_defaults (w : browser) (p : SettingsForm.page)
  (doc : SettingsForm.document) (d : SettingsForm.reply)
  (server : Http.request -> Http.outcome SettingsForm.reply)
  (store : Http.request -> Http.outcome Http.json) :
  server (Direct.perform w Direct.settingsPage_fetch) = Http.Fulfilled d ->
  let loaded := fst (Http.result server (SettingsForm.fetchSettings w p)) in
  let body := SettingsForm.to_json (SettingsPage.current (SettingsForm.core loaded)) in
  let request := Direct.perform w (Direct.settingsPage_save body) in
  let saved := Http.result store (SettingsForm.handleSave w doc loaded) in
  Http.trace store (SettingsForm.handleSave w doc loaded) = [request]
  /\ Http.req_method request = Http.PUT
  /\ Http.req_url request = REACT_APP_BACKEND_URL w +:+ "/api/settings"
  /\ (SettingsForm.r_smtp_host d = None \/ SettingsForm.r_smtp_host d = Some "" ->
      SettingsForm.field "smtp_host" body = Some (Http.JStr "smtp.gmail.com"))
  /\ (SettingsForm.r_smtp_port d = None \/ SettingsForm.r_smtp_port d = Some "" ->
      SettingsForm.field "smtp_port" body = Some (Http.JStr "587"))
  /\ (forall h, SettingsForm.r_smtp_host d = Some h -> h <> "" ->
        SettingsForm.field "smtp_host" body = Some (Http.JStr h))
  /\ (forall n, SettingsForm.r_smtp_port d = Some n -> n <> "" ->
        SettingsForm.field "smtp_port" body = Some (Http.JStr n))
  /\ (forall key got,
        In (key, got)
          [("login_logo_url", SettingsForm.r_login_logo_url d);
           ("sidebar_logo_url", SettingsForm.r_sidebar_logo_url d);
           ("favicon_url", SettingsForm.r_favicon_url d);
           ("site_title", SettingsForm.r_site_title d);
           ("site_description", SettingsForm.r_site_description d);
           ("smtp_user", SettingsForm.r_smtp_user d);
           ("smtp_password", SettingsForm.r_smtp_password d);
           ("smtp_from_name", SettingsForm.r_smtp_from_name d);
           ("smtp_from_email", SettingsForm.r_smtp_from_email d)] ->
        (got = None -> SettingsForm.field key body = Some (Http.JStr ""))
        /\ (forall text, got = Some text ->
              SettingsForm.field key body = Some (Http.JStr text)))
  /\ (SettingsForm.r_email_enabled d = None ->
      SettingsForm.field "email_enabled" body = Some (Http.JBool false))
  /\ (forall b, SettingsForm.r_email_enabled d = Some b ->
        SettingsForm.field "email_enabled" body = Some (Http.JBool b))
  /\ (forall key,
        SettingsForm.field key body <> None
        <-> In key ["login_logo_url"; "sidebar_logo_url"; "favicon_url";
                    "site_title"; "site_description"; "email_enabled";
                    "smtp_host"; "smtp_port"; "smtp_user"; "smtp_password";
                    "smtp_from_name"; "smtp_from_email"])
  /\ SettingsForm.core (fst (fst saved)) = SettingsForm.core loaded
  /\ SettingsForm.saving (fst (fst saved)) = false
  /\ (forall err, store request = Http.Rejected err -> snd (fst saved) = doc)
  /\ (forall j, store request = Http.Fulfilled j ->
        (forall t, SettingsForm.r_site_title d = Some t -> t <> "" ->
           SettingsForm.title (snd (fst saved)) = t)
        /\ (SettingsForm.r_site_title d = None
            \/ SettingsForm.r_site_title d = Some "" ->
            SettingsForm.title (snd (fst saved)) = SettingsForm.title doc)).
Proof.
  intros Hload. cbv zeta.
  assert (Hbody :
    let body := SettingsForm.to_json (SettingsForm.normalise d) in
    (SettingsForm.r_smtp_host d = None \/ SettingsForm.r_smtp_host d = Some "" ->
     SettingsForm.field "smtp_host" body = Some (Http.JStr "smtp.gmail.com"))
    /\ (SettingsForm.r_smtp_port d = None \/ SettingsForm.r_smtp_port d = Some "" ->
        SettingsForm.field "smtp_port" body = Some (Http.JStr "587"))
    /\ (forall h, SettingsForm.r_smtp_host d = Some h -> h <> "" ->
          SettingsForm.field "smtp_host" body = Some (Http.JStr h))
    /\ (forall n, SettingsForm.r_smtp_port d = Some n -> n <> "" ->
          SettingsForm.field "smtp_port" body = Some (Http.JStr n))
    /\ (forall key got,
          In (key, got)
            [("login_logo_url", SettingsForm.r_login_logo_url d);
             ("sidebar_logo_url", SettingsForm.r_sidebar_logo_url d);
             ("favicon_url", SettingsForm.r_favicon_url d);
             ("site_title", SettingsForm.r_site_title d);
             ("site_description", SettingsForm.r_site_description d);
             ("smtp_user", SettingsForm.r_smtp_user d);
             ("smtp_password", SettingsForm.r_smtp_password d);
             ("smtp_from_name", SettingsForm.r_smtp_from_name d);
             ("smtp_from_email", SettingsForm.r_smtp_from_email d)] ->
          (got = None -> SettingsForm.field key body = Some (Http.JStr ""))
          /\ (forall text, got = Some text ->
                SettingsForm.field key body = Some (Http.JStr text)))
    /\ (SettingsForm.r_email_enabled d = None ->
        SettingsForm.field "email_enabled" body = Some (Http.JBool false))
    /\ (forall b, SettingsForm.r_email_enabled d = Some b ->
          SettingsForm.field "email_enabled" body = Some (Http.JBool b))
    /\ (forall key,
          SettingsForm.field key body <> None
          <-> In key ["login_logo_url"; "sidebar_logo_url"; "favicon_url";
                      "site_title"; "site_description"; "email_enabled";
                      "smtp_host"; "smtp_port"; "smtp_user"; "smtp_password";
                      "smtp_from_name"; "smtp_from_email"])).
  { cbv zeta.
    split. { intros H. cbn. now rewrite (or_default_missing _ _ H). }
    split. { intros H. cbn. now rewrite (or_default_missing _ _ H). }
    split. { intros h Hd Hh. cbn. rewrite Hd. now rewrite or_default_given. }
    split. { intros n Hd Hn. cbn. rewrite Hd. now rewrite or_default_given. }
    split.
    { intros key got Hin.
      repeat (destruct Hin as [[= <- <-]|Hin];
              [split; [intros Hd; cbn; rewrite Hd; reflexivity
                      |intros text Hd; cbn; rewrite Hd;
                       now rewrite or_default_text]|]).
      destruct Hin. }
    split. { intros H. cbn. now rewrite H. }
    split. { intros b H. cbn. now rewrite H. }
    intros key. unfold SettingsForm.to_json, SettingsForm.field.
    cbn [List.find fst snd In].
    repeat (match goal with
            | |- context [(?a =? key)] =>
                destruct (String.eqb_spec a key) as [<-|?]
            end; [split; [intros _; tauto|intros _; discriminate]|]).
    split; [intros H; now contradiction H|].
    intros H. repeat (destruct H as [H|H]; [congruence|]). destruct H. }
  cbv zeta in Hbody.
  destruct Hbody as (B1 & B2 & B3 & B4 & B5 & B6 & B7 & B8).
  unfold SettingsForm.fetchSettings, SettingsForm.handleSave, Http.trace,
    Http.result.
  cbn [Http.run fst snd]. rewrite Hload. cbn [Http.run fst snd].
  cbn [SettingsForm.core SettingsForm.setLoading SettingsForm.setCurrent
       SettingsPage.current].
  destruct (store _) as [j|err] eqn:Hstore; cbn [Http.run fst snd].
  - split; [reflexivity|]. split; [reflexivity|]. split; [reflexivity|].
    split; [exact B1|]. split; [exact B2|]. split; [exact B3|].
    split; [exact B4|]. split; [exact B5|]. split; [exact B6|].
    split; [exact B7|]. split; [exact B8|].
    split; [reflexivity|]. split; [reflexivity|]. split.
    + intros err He. discriminate He.
    + intros j' _. cbn. split.
      * intros t Ht Hne. rewrite Ht, (or_default_given t "" Hne).
        now rewrite (proj2 (truthy_true t) Hne).
      * intros H. now rewrite (or_default_missing _ "" H).
  - split; [reflexivity|]. split; [reflexivity|]. split; [reflexivity|].
    split; [exact B1|]. split; [exact B2|]. split; [exact B3|].
    split; [exact B4|]. split; [exact B5|]. split; [exact B6|].
    split; [exact B7|]. split; [exact B8|].
    split; [reflexivity|]. split; [reflexivity|]. split.
    + intros err' _. reflexivity.
    + intros j Hj. discriminate Hj.
Qed.

Lemma load_then_save_writes_defaults_witness :
  SettingsForm.field "smtp_host"
    (SettingsForm.to_json
       (SettingsPage.current
          (SettingsForm.core
             (fst (Http.result Cases.settings_without_mail
                     (SettingsForm.fetchSettings Samples.signed_in
                        SettingsForm.initial))))))
  = Some (Http.JStr "smtp.gmail.com").
Proof.
  destruct (load_then_save_writes_defaults Samples.signed_in
              SettingsForm.initial Cases.blank_document Cases.bare_reply
              Cases.settings_without_mail Cases.accepts eq_refl)
    as (_ & _ & _ & Hhost & _).
  apply Hhost. left. reflexivity.
Defined.

(** X22. Choosing no file sends nothing and changes nothing.  Choosing a
    file sends one multipart POST to [/api/upload]; when it succeeds
    exactly the field the control belongs to becomes the backend address
    followed by the path in the reply, and the other eleven settings stay;
    when it fails no setting changes.  Either way the control's spinner
    is taken down, and nothing is saved to [/api/settings] by the
    upload. *)
Theorem upload_sets_one_address (w : browser) (f : SettingsForm.upload_field)
  (file : string) (p : SettingsForm.page)
  (server : Http.request -> Http.outcome SettingsForm.uploaded) :
  let request := Direct.perform w (Direct.settingsPage_upload file) in
  let p' := fst (Http.result server (SettingsForm.handleUpload w f (Some file) p)) in
  let s := SettingsPage.current (SettingsForm.core p) in
  let s' := SettingsPage.current (SettingsForm.core p') in
  Http.run server (SettingsForm.handleUpload w f None p) = ([], (p, []))
  /\ Http.trace server (SettingsForm.handleUpload w f (Some file) p) = [request]
  /\ Http.req_method request = Http.POST
  /\ Http.req_url request = REACT_APP_BACKEND_URL w +:+ "/api/upload"
  /\ Http.req_headers request !! "Content-Type" = Some "multipart/form-data"
  /\ SettingsForm.uploading p' !! SettingsForm.field_name f = Some false
  /\ (forall r, server request = Http.Fulfilled r ->
        SettingsForm.field (SettingsForm.field_name f) (SettingsForm.to_json s')
        = Some (Http.JStr (REACT_APP_BACKEND_URL w +:+ SettingsForm.url r))
        /\ forall key, key <> SettingsForm.field_name f ->
             SettingsForm.field key (SettingsForm.to_json s')
             = SettingsForm.field key (SettingsForm.to_json s))
  /\ (forall err, server request = Http.Rejected err -> s' = s).
Proof.
  cbv zeta. unfold SettingsForm.handleUpload, Http.trace, Http.result.
  cbn [Http.run fst snd].
  split; [reflexivity|].
  assert (Hct : Http.req_headers
                  (Direct.perform w (Direct.settingsPage_upload file))
                !! "Content-Type" = Some "multipart/form-data").
  { cbn. apply lookup_insert_eq. }
  destruct (server _) as [r|err] eqn:Hreply; cbn [Http.run fst snd].
  - split; [reflexivity|]. split; [reflexivity|]. split; [reflexivity|].
    split; [exact Hct|].
    split; [cbn; apply lookup_insert_eq|]. split.
    + intros r' [= <-]. split.
      * destruct f; reflexivity.
      * intros key Hkey.
        cbn [SettingsForm.core SettingsForm.setUploading
             SettingsForm.setCurrent SettingsPage.current].
        unfold SettingsForm.to_json, SettingsForm.field.
        destruct f; cbn [SettingsForm.field_name] in Hkey;
          cbn [List.find fst snd SettingsForm.with_upload
               SettingsPage.login_logo_url SettingsPage.sidebar_logo_url
               SettingsPage.favicon_url SettingsPage.site_title
               SettingsPage.site_description SettingsPage.email_enabled
               SettingsPage.smtp_host SettingsPage.smtp_port
               SettingsPage.smtp_user SettingsPage.smtp_password
               SettingsPage.smtp_from_name SettingsPage.smtp_from_email];
          repeat match goal with
                 | |- context [(?a =? key)] =>
                     destruct (String.eqb_spec a key);
                     [try (subst key; contradiction); try reflexivity|]
                 end; reflexivity.
    + intros err He. discriminate He.
  - split; [reflexivity|]. split; [reflexivity|]. split; [reflexivity|].
    split; [exact Hct|].
    split; [cbn; apply lookup_insert_eq|]. split.
    + intros r Hr. discriminate Hr.
    + intros err' _. reflexivity.
Qed.

Lemma upload_sets_one_address_witness :
  SettingsPage.current
    (SettingsForm.core
       (fst (Http.result Cases.refuses_upload
               (SettingsForm.handleUpload Samples.signed_in
                  SettingsForm.favicon_image (Some "icon.png")
                  SettingsForm.initial))))
  = SettingsPage.current (SettingsForm.core SettingsForm.initial).
Proof.
  destruct (upload_sets_one_address Samples.signed_in
              SettingsForm.favicon_image "icon.png" SettingsForm.initial
              Cases.refuses_upload) as (_ & _ & _ & _ & _ & _ & _ & Hfail).
  exact (Hfail _ eq_refl).
Defined.

(** ** The users page *)

Section Users.
Variable w : browser.

Lemma handleSave_sends (st : UsersPage.state) :
  UsersPage.form_name (UsersPage.formData st) <> "" ->
  UsersPage.form_email (UsersPage.formData st) <> "" ->
  (UsersPage.editingUser st = None ->
   UsersPage.form_password (UsersPage.formData st) <> "") ->
  UsersPage.handleSave w st
  = Http.Await (UsersPage.save_request w st)
      (fun out =>
         match out with
         | Http.Fulfilled _ =>
             let done :=
               Toast.Toast Toast.success
                 (Toast.T (match UsersPage.editingUser st with
                           | Some _ => "users.updated"
                           | None => "users.created"
                           end)) in
             Http.Await (Direct.perform w Direct.users_fetch)
               (fun out2 =>
                  match out2 with
                  | Http.Fulfilled d =>
                      Http.Ret
                        (UsersPage.setLoading false
                           (UsersPage.setUsers d
                              (UsersPage.setSaving false
                                 (UsersPage.setShowDialog false st))),
                         [done])
                  | Http.Rejected _ =>
                      Http.Ret
                        (UsersPage.setLoading false
                           (UsersPage.setSaving false
                              (UsersPage.setShowDialog false st)),
                         [done; Toast.Toast Toast.error
                                  (Toast.T "users.loadError")])
                  end)
         | Http.Rejected err =>
             Http.Ret
               (UsersPage.setSaving false st,
                [Toast.Toast Toast.error
                   (Toast.detail_or (Http.err_detail err) "users.saveError")])
         end).
Proof.
  intros Hn He Hp. unfold UsersPage.handleSave.
  rewrite (proj2 (truthy_true _) Hn), (proj2 (truthy_true _) He).
  cbn [negb orb].
  destruct (UsersPage.editingUser st) as [u|]; cbn [andb]; [reflexivity|].
  now rewrite (proj2 (truthy_true _) (Hp eq_refl)).
Qed.

Lemma handleSave_trace (st : UsersPage.state)
  (server : Http.request -> Http.outcome (list UsersPage.user)) :
  Http.trace server (UsersPage.handleSave w st) = []
  \/ Http.trace server (UsersPage.handleSave w st) = [UsersPage.save_request w st]
  \/ Http.trace server (UsersPage.handleSave w st)
     = [UsersPage.save_request w st; Direct.perform w Direct.users_fetch].
Proof.
  unfold UsersPage.handleSave, Http.trace.
  destruct (negb _ || negb _); [left; reflexivity|].
  destruct (_ && _); [left; reflexivity|].
  cbn [Http.run fst snd].
  destruct (server (UsersPage.save_request w st)); cbn [Http.run fst snd].
  - destruct (server (Direct.perform w Direct.users_fetch));
      right; right; reflexivity.
  - right; left; reflexivity.
Qed.

Lemma save_request_method (st : UsersPage.state) :
  Http.req_method (UsersPage.save_request w st) <> Http.DELETE.
Proof.
  unfold UsersPage.save_request.
  destruct (UsersPage.editingUser st); discriminate.
Qed.

Lemma handleSave_keeps_delete_dialog (st : UsersPage.state)
  (server : Http.request -> Http.outcome (list UsersPage.user)) :
  UsersPage.showDeleteDialog
    (fst (Http.result server (UsersPage.handleSave w st)))
  = UsersPage.showDeleteDialog st.
Proof.
  unfold UsersPage.handleSave, Http.result.
  destruct (negb _ || negb _); [reflexivity|].
  destruct (_ && _); [reflexivity|].
  cbn [Http.run fst snd].
  destruct (server (UsersPage.save_request w st)); cbn [Http.run fst snd];
    [|reflexivity].
  destruct (server (Direct.perform w Direct.users_fetch)); reflexivity.
Qed.

End Users.

(** X23. The user dialog sends nothing while the name or the e-mail is
    empty, or while a new user has no password; each refusal shows its own
    toast.  Otherwise the first request is a PUT to the edited user's
    address, or a POST to [/api/users] with the whole form for a new user.
    The body of the PUT has a password key exactly when a password was
    typed, so saving an edit dialog as it was opened never sends one.
    After a success the dialog closes and the list is fetched again;
    after a failure nothing else is sent and the dialog stays as it was.
    The save button is released in both cases. *)
Theorem user_form_checks_and_password (w : browser) (st : UsersPage.state)
  (server : Http.request -> Http.outcome (list UsersPage.user)) :
  let f := UsersPage.formData st in
  let sent := Http.trace server (UsersPage.handleSave w st) in
  let st' := fst (Http.result server (UsersPage.handleSave w st)) in
  (UsersPage.form_name f = "" \/ UsersPage.form_email f = "" ->
   Http.run server (UsersPage.handleSave w st)
   = ([], (st, [Toast.Toast Toast.error (Toast.T "users.fillRequired")])))
  /\ (UsersPage.form_name f <> "" -> UsersPage.form_email f <> "" ->
      UsersPage.editingUser st = None -> UsersPage.form_password f = "" ->
      Http.run server (UsersPage.handleSave w st)
      = ([], (st, [Toast.Toast Toast.error (Toast.T "users.passwordRequired")])))
  /\ (UsersPage.form_name f <> "" -> UsersPage.form_email f <> "" ->
      (UsersPage.editingUser st = None -> UsersPage.form_password f <> "") ->
      hd_error sent = Some (UsersPage.save_request w st)
      /\ UsersPage.saving st' = false
      /\ (forall u, UsersPage.editingUser st = Some u ->
            UsersPage.save_request w st
            = Direct.perform w
                (Direct.users_update (UsersPage.id u) (UsersPage.updateData f))
            /\ Http.req_method (UsersPage.save_request w st) = Http.PUT
            /\ Http.req_url (UsersPage.save_request w st)
               = REACT_APP_BACKEND_URL w +:+ "/api/users/" +:+ UsersPage.id u
            /\ (In "password" (UsersPage.keys (UsersPage.updateData f))
                <-> UsersPage.form_password f <> ""))
      /\ (UsersPage.editingUser st = None ->
          Http.req_method (UsersPage.save_request w st) = Http.POST
          /\ Http.req_url (UsersPage.save_request w st)
             = REACT_APP_BACKEND_URL w +:+ "/api/users"
          /\ Http.req_body (UsersPage.save_request w st)
             = Http.JsonBody (UsersPage.form_json f))
      /\ (forall d, server (UsersPage.save_request w st) = Http.Fulfilled d ->
            sent = [UsersPage.save_request w st;
                    Direct.perform w Direct.users_fetch]
            /\ UsersPage.showDialog st' = false)
      /\ (forall err, server (UsersPage.save_request w st) = Http.Rejected err ->
            sent = [UsersPage.save_request w st]
            /\ UsersPage.showDialog st' = UsersPage.showDialog st
            /\ UsersPage.users st' = UsersPage.users st))
  /\ (forall u st0,
        UsersPage.keys
          (UsersPage.updateData
             (UsersPage.formData (UsersPage.handleOpenDialog (Some u) st0)))
        = ["name"; "email"]).
Proof.
  cbv zeta. split; [|split; [|split]].
  - intros Hblank. unfold UsersPage.handleSave.
    assert (Hc : negb (Js.truthy (UsersPage.form_name (UsersPage.formData st)))
                 || negb (Js.truthy (UsersPage.form_email (UsersPage.formData st)))
                 = true).
    { destruct Hblank as [-> | ->]; cbn; [reflexivity|apply orb_true_r]. }
    now rewrite Hc.
  - intros Hn He Hed Hpw. unfold UsersPage.handleSave.
    rewrite (proj2 (truthy_true _) Hn), (proj2 (truthy_true _) He), Hed, Hpw.
    reflexivity.
  - intros Hn He Hp. rewrite (handleSave_sends w st Hn He Hp).
    unfold Http.trace, Http.result. cbn [Http.run fst snd].
    split; [destruct (Http.run server _); reflexivity|].
    split.
    { destruct (server (UsersPage.save_request w st));
        cbn [Http.run fst snd]; [|reflexivity].
      destruct (server (Direct.perform w Direct.users_fetch)); reflexivity. }
    split.
    { intros u Hu. unfold UsersPage.save_request. rewrite Hu.
      split; [reflexivity|]. split; [reflexivity|]. split; [reflexivity|].
      unfold UsersPage.updateData, UsersPage.keys.
      destruct (Js.truthy _) eqn:Hpw; cbn.
      - split; [intros _; now apply truthy_true|]. intros _. tauto.
      - split.
        + intros [H|[H|[]]]; discriminate H.
        + intros Hne. apply truthy_true in Hne. congruence. }
    split.
    { intros Hnone. unfold UsersPage.save_request. rewrite Hnone.
      repeat split. }
    split.
    + intros d Hd. rewrite Hd. cbn [Http.run fst snd].
      destruct (server (Direct.perform w Direct.users_fetch));
        split; reflexivity.
    + intros err Herr. rewrite Herr. cbn [Http.run fst snd]. repeat split.
  - intros u st0. reflexivity.
Qed.

Lemma user_form_checks_and_password_witness :
  hd_error
    (Http.trace Cases.lists_users
       (UsersPage.handleSave Samples.signed_in
          (UsersPage.handleOpenDialog (Some Cases.carla) Cases.users_loaded)))
  = Some (UsersPage.save_request Samples.signed_in
            (UsersPage.handleOpenDialog (Some Cases.carla) Cases.users_loaded)).
Proof.
  destruct (user_form_checks_and_password Samples.signed_in
              (UsersPage.handleOpenDialog (Some Cases.carla) Cases.users_loaded)
              Cases.lists_users) as (_ & _ & Hsend & _).
  apply Hsend; discriminate.
Defined.

Section UserSessions.
Variable w : browser.

Lemma listed_unmarked_later (history : list UsersPage.state)
  (st : UsersPage.state) (u : UsersPage.user) :
  UsersPage.listed_unmarked history u ->
  UsersPage.listed_unmarked (st :: history) u.
Proof.
  intros [Hu (before & Hin & Hl)]. split; [exact Hu|].
  exists before. split; [now right|exact Hl].
Qed.

Lemma user_step_keeps_dialog_ok history st reqs st' :
  UsersPage.user_step w st reqs st' -> In st history ->
  UsersPage.delete_dialog_ok history st ->
  UsersPage.delete_dialog_ok history st' /\ UsersPage.deletes_ok w history reqs.
Proof.
  intros Hstep Hst Hok. destruct Hstep.
  - split.
    + unfold UsersPage.fetchUsers, Http.result. cbn [Http.run fst snd].
      destruct (server _); exact Hok.
    + unfold UsersPage.fetchUsers, Http.trace. cbn [Http.run fst snd].
      destruct (server _); intros r [<-|[]] Hm; discriminate Hm.
  - split; [exact Hok|intros r []].
  - split; [exact Hok|intros r []].
  - split; [exact Hok|intros r []].
  - split; [exact Hok|intros r []].
  - split.
    + intros u. rewrite handleSave_keeps_delete_dialog. apply Hok.
    + intros r Hin Hm.
      destruct (handleSave_trace w st server) as [Ht|[Ht|Ht]];
        rewrite Ht in Hin.
      * destruct Hin.
      * destruct Hin as [<-|[]]. now apply save_request_method in Hm.
      * destruct Hin as [<-|[<-|[]]];
          [now apply save_request_method in Hm|discriminate Hm].
  - split; [|intros r []].
    intros u' [= <-]. split; [now apply negb_true_iff|].
    exists st. split; assumption.
  - split; [|intros r []]. intros u' Hu. discriminate Hu.
  - split.
    + unfold UsersPage.handleDelete, Http.result. cbn [Http.run fst snd].
      destruct (server (Direct.perform w (Direct.users_delete (UsersPage.id u))));
        cbn [Http.run fst snd]; [|exact Hok].
      destruct (server (Direct.perform w Direct.users_fetch));
        intros u' Hu'; discriminate Hu'.
    + intros r Hin Hm. exists u. split; [|now apply Hok].
      unfold UsersPage.handleDelete, Http.trace in Hin.
      cbn [Http.run fst snd] in Hin.
      destruct (server (Direct.perform w (Direct.users_delete (UsersPage.id u))));
        cbn [Http.run fst snd] in Hin.
      * destruct (server (Direct.perform w Direct.users_fetch));
          cbn [Http.run fst snd] in Hin;
          destruct Hin as [<-|[<-|[]]]; try reflexivity; discriminate Hm.
      * destruct Hin as [<-|[]]. reflexivity.
Qed.

Lemma session_dialog_ok history sent :
  UsersPage.session w history sent ->
  (forall st, hd_error history = Some st ->
              UsersPage.delete_dialog_ok history st)
  /\ UsersPage.deletes_ok w history sent.
Proof.
  induction 1 as [|st past sent reqs st' _ [IHd IHs] Hstep].
  - split; [|intros r []]. intros st [= <-] u Hu. discriminate Hu.
  - destruct (user_step_keeps_dialog_ok (st :: past) _ _ _ Hstep
                ltac:(now left) (IHd st eq_refl)) as [Hd Hr].
    split.
    + intros st0 [= <-] u Hu. apply listed_unmarked_later. now apply Hd.
    + intros r Hin Hm. apply in_app_or in Hin.
      destruct Hin as [Hin|Hin];
        [destruct (IHs r Hin Hm) as (u & Hu & Hl)
        |destruct (Hr r Hin Hm) as (u & Hu & Hl)];
        exists u; (split; [exact Hu|now apply listed_unmarked_later]).
Qed.

End UserSessions.

(** X24. Whatever an administrator does on the users page, and whatever
    the server answers, every DELETE the page sends is addressed to
    [/api/users/<id>] of a user that the page has listed, in one of the
    states it went through, without the base-admin mark: the base
    administrator's row has no delete button, and the confirmation dialog
    can only hold a user whose button was pressed. *)
Theorem base_admin_is_never_deleted (w : browser)
  (history : list UsersPage.state)
  (sent : list Http.request) (r : Http.request) :
  UsersPage.session w history sent ->
  In r sent -> Http.req_method r = Http.DELETE ->
  exists u before,
    In before history
    /\ In u (UsersPage.users before)
    /\ UsersPage.is_base_admin u = false
    /\ UsersPage.delete_offered u = true
    /\ Http.req_url r
       = REACT_APP_BACKEND_URL w +:+ "/api/users/" +:+ UsersPage.id u
    /\ r = Direct.perform w (Direct.users_delete (UsersPage.id u)).
Proof.
  intros Hs Hin Hm.
  destruct (session_dialog_ok w history sent Hs) as [_ Hd].
  destruct (Hd r Hin Hm) as (u & -> & Hu & before & Hb & Hl).
  exists u, before. repeat split; try assumption.
  unfold UsersPage.delete_offered. now rewrite Hu.
Qed.

Lemma base_admin_is_never_deleted_witness :
  exists u before,
    In before
      [fst (Http.result Cases.lists_users
              (UsersPage.handleDelete Samples.signed_in "u2"
                 (UsersPage.setShowDeleteDialog (Some Cases.carla)
                    Cases.users_loaded)));
       UsersPage.setShowDeleteDialog (Some Cases.carla) Cases.users_loaded;
       Cases.users_loaded; UsersPage.initial]
    /\ In u (UsersPage.users before)
    /\ UsersPage.is_base_admin u = false
    /\ UsersPage.delete_offered u = true
    /\ Http.req_url
         (Direct.perform Samples.signed_in (Direct.users_delete "u2"))
       = REACT_APP_BACKEND_URL Samples.signed_in +:+ "/api/users/"
         +:+ UsersPage.id u
    /\ Direct.perform Samples.signed_in (Direct.users_delete "u2")
       = Direct.perform Samples.signed_in
           (Direct.users_delete (UsersPage.id u)).
Proof.
  apply (base_admin_is_never_deleted Samples.signed_in _
           (([] ++ Http.trace Cases.lists_users
                     (UsersPage.fetchUsers Samples.signed_in UsersPage.initial))
              ++ [] ++
              Http.trace Cases.lists_users
                (UsersPage.handleDelete Samples.signed_in "u2"
                   (UsersPage.setShowDeleteDialog (Some Cases.carla)
                      Cases.users_loaded)))%list).
  - rewrite app_assoc.
    apply (UsersPage.acted Samples.signed_in
             (UsersPage.setShowDeleteDialog (Some Cases.carla)
                Cases.users_loaded)).
    + apply (UsersPage.acted Samples.signed_in Cases.users_loaded).
      * apply (UsersPage.acted Samples.signed_in UsersPage.initial [] [] _ _
                 (UsersPage.opened Samples.signed_in)).
        exact (UsersPage.load Samples.signed_in UsersPage.initial
                 Cases.lists_users).
      * apply UsersPage.ask_delete;
          [reflexivity|right; left; reflexivity|reflexivity].
    + exact (UsersPage.confirm_delete Samples.signed_in
               (UsersPage.setShowDeleteDialog (Some Cases.carla)
                  Cases.users_loaded) Cases.carla Cases.lists_users eq_refl).
  - right. left. reflexivity.
  - reflexivity.
Defined.

(** ** The scan log page *)

Lemma size_cons_seen (x : string) (l : list string) :
  x ∈ l ->
  size (list_to_set (x :: l) : gset string) = size (list_to_set l : gset string).
Proof.
  intros Hx. rewrite list_to_set_cons. f_equal.
  apply leibniz_equiv. intros y.
  rewrite elem_of_union, elem_of_singleton, !elem_of_list_to_set.
  split; [intros [->|Hy]; assumption|intros Hy; now right].
Qed.

Lemma size_cons_new (x : string) (l : list string) :
  x ∉ l ->
  size (list_to_set (x :: l) : gset string)
  = S (size (list_to_set l : gset string)).
Proof.
  intros Hx. rewrite list_to_set_cons, size_union.
  - now rewrite size_singleton.
  - set_solver.
Qed.

Lemma size_le_length (l : list string) :
  size (list_to_set l : gset string) <= length l.
Proof.
  induction l as [|x l IH]; [now rewrite list_to_set_nil, size_empty|].
  destruct (decide (x ∈ l)) as [Hx|Hx].
  - rewrite (size_cons_seen x l Hx). cbn [length]. lia.
  - rewrite (size_cons_new x l Hx). cbn [length]. lia.
Qed.

Lemma size_eq_length (l : list string) :
  size (list_to_set l : gset string) = length l <-> base.NoDup l.
Proof.
  split; [|apply size_list_to_set].
  induction l as [|x l IH]; [intros _; constructor|].
  destruct (decide (x ∈ l)) as [Hx|Hx].
  - rewrite (size_cons_seen x l Hx). cbn [length].
    pose proof (size_le_length l). lia.
  - rewrite (size_cons_new x l Hx). cbn [length]. intros [= Hl].
    constructor; [assumption|now apply IH].
Qed.

(** X25. The third card of the scan log page counts the different
    addresses: it never exceeds the number of entries, equals it exactly
    when no two entries share an address, and is zero only for an empty
    log; a further entry from a known address leaves it as it is and one
    from a new address adds one.  The count of today is likewise bounded
    by the number of entries.  Clearing sends one DELETE to
    [/scan-logs/clear] and always closes the dialog; the entries, and with
    them the three cards and the clear button, go only when the request
    succeeded. *)
Theorem scan_cards_and_clearing (w : browser) (st : ScanLogs.state)
  (is_today : string -> bool)
  (server : Http.request -> Http.outcome (list ScanLogs.log)) :
  let request := Api.perform w Api.scanLogs_clear in
  let st' := fst (Http.result server (ScanLogs.handleClearLogs w st)) in
  ScanLogs.uniqueIPs st <= length (ScanLogs.logs st)
  /\ ScanLogs.todayCount is_today st <= length (ScanLogs.logs st)
  /\ (ScanLogs.uniqueIPs st = length (ScanLogs.logs st)
      <-> base.NoDup (map ScanLogs.ip_address (ScanLogs.logs st)))
  /\ (ScanLogs.uniqueIPs st = 0 <-> ScanLogs.logs st = [])
  /\ (forall l,
        let more := {| ScanLogs.logs := l :: ScanLogs.logs st;
                       ScanLogs.loading := ScanLogs.loading st;
                       ScanLogs.clearing := ScanLogs.clearing st;
                       ScanLogs.showClearDialog := ScanLogs.showClearDialog st |} in
        (ScanLogs.ip_address l ∈ map ScanLogs.ip_address (ScanLogs.logs st) ->
         ScanLogs.uniqueIPs more = ScanLogs.uniqueIPs st)
        /\ (ScanLogs.ip_address l ∉ map ScanLogs.ip_address (ScanLogs.logs st) ->
            ScanLogs.uniqueIPs more = S (ScanLogs.uniqueIPs st)))
  /\ Http.trace server (ScanLogs.handleClearLogs w st) = [request]
  /\ Http.req_method request = Http.DELETE
  /\ Http.req_url request = Api.API w +:+ "/scan-logs/clear"
  /\ ScanLogs.showClearDialog st' = false
  /\ ScanLogs.clearing st' = false
  /\ (forall d, server request = Http.Fulfilled d ->
        ScanLogs.logs st' = []
        /\ ScanLogs.uniqueIPs st' = 0
        /\ ScanLogs.todayCount is_today st' = 0
        /\ ScanLogs.clear_button_shown st' = false)
  /\ (forall err, server request = Http.Rejected err ->
        ScanLogs.logs st' = ScanLogs.logs st).
Proof.
  cbv zeta. unfold ScanLogs.uniqueIPs, ScanLogs.todayCount.
  split. { rewrite <- (length_map ScanLogs.ip_address). apply size_le_length. }
  split. { apply List.filter_length_le. }
  split. { rewrite <- (length_map ScanLogs.ip_address (ScanLogs.logs st)).
           apply size_eq_length. }
  split.
  { split.
    - intros H0. destruct (ScanLogs.logs st) as [|l ls]; [reflexivity|].
      exfalso. apply size_empty_inv in H0.
      assert (Hin : ScanLogs.ip_address l
                    ∈ (list_to_set (map ScanLogs.ip_address (l :: ls))
                       : gset string)).
      { apply elem_of_list_to_set. cbn [map]. left. }
      rewrite H0 in Hin. now apply not_elem_of_empty in Hin.
    - intros ->. reflexivity. }
  split.
  { intros l. cbn [ScanLogs.logs map]. split.
    - apply size_cons_seen.
    - apply size_cons_new. }
  unfold ScanLogs.handleClearLogs, Http.trace, Http.result.
  cbn [Http.run fst snd].
  destruct (server (Api.perform w Api.scanLogs_clear)) as [d|err] eqn:Hreply;
    cbn [Http.run fst snd].
  - split; [reflexivity|]. split; [reflexivity|]. split; [reflexivity|].
    split; [reflexivity|]. split; [reflexivity|]. split.
    + intros d' _. repeat split.
    + intros err He. discriminate He.
  - split; [reflexivity|]. split; [reflexivity|]. split; [reflexivity|].
    split; [reflexivity|]. split; [reflexivity|]. split.
    + intros d Hd. discriminate Hd.
    + intros err' _. reflexivity.
Qed.

Lemma scan_cards_and_clearing_witness :
  ScanLogs.uniqueIPs Cases.three_scans = 2
  /\ ScanLogs.uniqueIPs
       (fst (Http.result Cases.clears
               (ScanLogs.handleClearLogs Samples.signed_in Cases.three_scans)))
     = 0.
Proof.
  split; [vm_compute; reflexivity|].
  destruct (scan_cards_and_clearing Samples.signed_in Cases.three_scans
              (fun _ => true) Cases.clears)
    as (_ & _ & _ & _ & _ & _ & _ & _ & _ & _ & Hok & _).
  destruct (Hok [] eq_refl) as (_ & H0 & _). exact H0.
Defined.

Lemma prefix_spec (sub s : string) :
  String.prefix sub s = true <-> exists post, s = sub +:+ post.
Proof.
  revert s. induction sub as [|a sub IH]; intros s.
  - split; [intros _; now exists s|intros _; now destruct s].
  - destruct s as [|b s]; cbn [String.prefix].
    + split; [discriminate|]. intros [post H]. discriminate H.
    + destruct (Ascii.ascii_dec a b) as [->|Hab].
      * rewrite IH. split.
        -- intros [post ->]. now exists post.
        -- intros [post [= ->]]. now exists post.
      * split; [discriminate|]. intros [post [= Heq _]]. congruence.
Qed.

Lemma includes_spec (sub s : string) :
  ScanLogs.includes sub s = true <-> exists pre post, s = pre +:+ sub +:+ post.
Proof.
  induction s as [|b s IH]; cbn [ScanLogs.includes].
  - rewrite orb_false_r, prefix_spec. split.
    + intros [post H]. now exists "", post.
    + intros [pre [post H]]. destruct pre as [|c pre]; [|discriminate H].
      now exists post.
  - rewrite orb_true_iff, prefix_spec, IH. split.
    + intros [[post H]|[pre [post H]]].
      * now exists "", post.
      * exists (String b pre), post. now rewrite H.
    + intros [pre [post H]]. destruct pre as [|c pre].
      * left. now exists post.
      * right. injection H as _ H. now exists pre, post.
Qed.

(** X26. The device column of the scan log: a user agent that contains
    Mobile, Android or iPhone anywhere is listed as Mobile, whatever
    browser it names; Chrome is recognised before Safari, so a desktop
    Chrome, whose user agent also contains Safari, is listed as Chrome,
    and an entry is listed as Safari only when its user agent contains
    Safari and neither Chrome nor Firefox nor a mobile mark.  Unknown is
    shown exactly for a missing or empty user agent and for the text
    unknown. *)
Theorem device_label_precedence (ua : string) :
  let mobile := ScanLogs.includes "Mobile" ua || ScanLogs.includes "Android" ua
                || ScanLogs.includes "iPhone" ua in
  ((exists pre post, ua = pre +:+ "Mobile" +:+ post)
   \/ (exists pre post, ua = pre +:+ "Android" +:+ post)
   \/ (exists pre post, ua = pre +:+ "iPhone" +:+ post) ->
   ScanLogs.parseUserAgent (Some ua) = "Mobile")
  /\ (mobile = false -> (exists pre post, ua = pre +:+ "Chrome" +:+ post) ->
      ScanLogs.parseUserAgent (Some ua) = "Chrome")
  /\ (ScanLogs.parseUserAgent (Some ua) = "Safari"
      <-> ScanLogs.includes "Safari" ua = true
          /\ ScanLogs.includes "Chrome" ua = false
          /\ ScanLogs.includes "Firefox" ua = false
          /\ mobile = false)
  /\ (ScanLogs.parseUserAgent (Some ua) = "Unknown"
      <-> ua = "" \/ ua = "unknown")
  /\ ScanLogs.parseUserAgent None = "Unknown".
Proof.
  cbv zeta.
  assert (Hshort : ua = "" \/ ua = "unknown" ->
                   ScanLogs.includes "Mobile" ua || ScanLogs.includes "Android" ua
                   || ScanLogs.includes "iPhone" ua = false
                   /\ ScanLogs.includes "Chrome" ua = false).
  { intros [->| ->]; split; reflexivity. }
  assert (Hunknown : negb (Js.truthy ua) || (ua =? "unknown") = true
                     <-> ua = "" \/ ua = "unknown").
  { rewrite orb_true_iff, negb_true_iff, String.eqb_eq.
    split; (intros [H|H]; [left|now right]).
    - now apply truthy_false.
    - now apply truthy_false. }
  split; [|split; [|split; [|split]]].
  - intros Hm.
    assert (Hmob : ScanLogs.includes "Mobile" ua || ScanLogs.includes "Android" ua
                   || ScanLogs.includes "iPhone" ua = true).
    { rewrite !orb_true_iff, !includes_spec. tauto. }
    unfold ScanLogs.parseUserAgent.
    destruct (negb (Js.truthy ua) || (ua =? "unknown")) eqn:Hu.
    + destruct (Hshort (proj1 Hunknown eq_refl)) as [Hs _]. congruence.
    + now rewrite Hmob.
  - intros Hmob Hc. apply includes_spec in Hc.
    unfold ScanLogs.parseUserAgent.
    destruct (negb (Js.truthy ua) || (ua =? "unknown")) eqn:Hu.
    + destruct (Hshort (proj1 Hunknown eq_refl)) as [_ Hs]. congruence.
    + now rewrite Hmob, Hc.
  - unfold ScanLogs.parseUserAgent.
    destruct (negb (Js.truthy ua) || (ua =? "unknown")) eqn:Hu.
    + split; [discriminate|]. intros (Hs & _).
      destruct (proj1 Hunknown eq_refl) as [->| ->]; discriminate Hs.
    + destruct (ScanLogs.includes "Mobile" ua || ScanLogs.includes "Android" ua
                || ScanLogs.includes "iPhone" ua);
        [split; [discriminate|]; intros (_ & _ & _ & H); discriminate H|].
      destruct (ScanLogs.includes "Chrome" ua);
        [split; [discriminate|]; intros (_ & H & _); discriminate H|].
      destruct (ScanLogs.includes "Firefox" ua);
        [split; [discriminate|]; intros (_ & _ & H & _); discriminate H|].
      destruct (ScanLogs.includes "Safari" ua);
        [tauto|split; [discriminate|]; intros (H & _); discriminate H].
  - rewrite <- Hunknown. unfold ScanLogs.parseUserAgent.
    destruct (negb (Js.truthy ua) || (ua =? "unknown")); [tauto|].
    split; [|discriminate].
    destruct (_ || _ || _); [discriminate|].
    repeat (destruct (ScanLogs.includes _ ua); [discriminate|]). discriminate.
  - reflexivity.
Qed.

Lemma device_label_precedence_witness :
  ScanLogs.parseUserAgent (Some Cases.chrome_phone) = "Mobile"
  /\ ScanLogs.parseUserAgent (Some Cases.chrome_desktop) = "Chrome"
  /\ ScanLogs.includes "Safari" Cases.chrome_desktop = true.
Proof.
  split; [|split; [|vm_compute; reflexivity]].
  - apply (proj1 (device_label_precedence Cases.chrome_phone)).
    right. left.
    exists "Mozilla/5.0 (Linux; ",
      " 14; Pixel 8) AppleWebKit/537.36 (KHTML, like Gecko) Chrome/126.0.0.0 Mobile Safari/537.36".
    reflexivity.
  - apply (proj1 (proj2 (device_label_precedence Cases.chrome_desktop))).
    + vm_compute. reflexivity.
    + exists "Mozilla/5.0 (Windows NT 10.0; Win64; x64) AppleWebKit/537.36 (KHTML, like Gecko) ",
        "/126.0.0.0 Safari/537.36".
      reflexivity.
Defined.

(** ** The verification page: later requests *)

(** X27. The verification page never clears its error.  Once a
    verification has failed, verifying again on the same page, as happens
    when the certificate id in the address changes, still ends on the
    error card, even when the new request succeeds with a valid
    certificate.  The two requests of the mount effect write different
    parts of the state, so the order in which they settle does not
    matter. *)
Theorem error_card_is_never_cleared (w : browser) (certificateId : string)
  (st : VerifyPage.state)
  (server : Http.request -> Http.outcome (option VerifyPage.certificate)) :
  let st' := Http.result server (VerifyPage.verifyDiploma w certificateId st) in
  (forall e, VerifyPage.error st = Some e -> e <> "" ->
     VerifyPage.error st' <> None
     /\ VerifyPage.render w certificateId st' = VerifyPage.ErrorCard
     /\ VerifyPage.presented_valid (VerifyPage.render w certificateId st')
        = false)
  /\ VerifyPage.loading st' = false
  /\ (forall out so,
        VerifyPage.settle out (VerifyPage.settle_settings so st)
        = VerifyPage.settle_settings so (VerifyPage.settle out st)).
Proof.
  cbv zeta. unfold VerifyPage.verifyDiploma, Http.result.
  cbn [Http.run fst snd].
  split; [|split].
  - intros e He Hne.
    assert (Herr : Js.truthy_opt
                     (VerifyPage.error
                        (VerifyPage.settle
                           (server (Api.perform w
                                      (Api.verify_verify certificateId))) st))
                   = true
                   /\ VerifyPage.error
                        (VerifyPage.settle
                           (server (Api.perform w
                                      (Api.verify_verify certificateId))) st)
                      <> None).
    { destruct (server _) as [d|err]; cbn.
      - rewrite He. split; [now apply truthy_true|discriminate].
      - destruct (Http.err_status err) as [code|];
          [destruct (code =? 404)%Z|]; split; (reflexivity || discriminate). }
    destruct Herr as [Ht Hn]. split; [exact Hn|].
    assert (Hl : VerifyPage.loading
                   (VerifyPage.settle
                      (server (Api.perform w (Api.verify_verify certificateId)))
                      st) = false).
    { destruct (server _); reflexivity. }
    unfold VerifyPage.render. rewrite Hl, Ht. split; reflexivity.
  - destruct (server _); reflexivity.
  - intros [d|err] [s|err']; reflexivity.
Qed.

Lemma error_card_is_never_cleared_witness :
  VerifyPage.render Samples.signed_in "CERT-2"
    (Http.result Samples.found
       (VerifyPage.verifyDiploma Samples.signed_in "CERT-2"
          (Http.result Samples.not_found
             (VerifyPage.verifyDiploma Samples.signed_in "CERT-1"
                VerifyPage.initial))))
  = VerifyPage.ErrorCard.
Proof.
  destruct (error_card_is_never_cleared Samples.signed_in "CERT-2"
              (Http.result Samples.not_found
                 (VerifyPage.verifyDiploma Samples.signed_in "CERT-1"
                    VerifyPage.initial))
              Samples.found) as [Hsticky _].
  destruct (Hsticky "notFound" eq_refl ltac:(discriminate)) as (_ & Hcard & _).
  exact Hcard.
Defined.

(** X28. The download button of the verification page is drawn only on a
    certificate presented as valid.  Pressing it sends one GET for the
    PDF of that certificate, with a blob response type and without an
    Authorization header, whether or not a token is stored.  A reply is
    saved under the name certificado_<id>.pdf with the content received; a
    failure saves nothing.  The button is released in both cases and the
    verdict on the page does not change. *)
Theorem download_is_public_and_keeps_the_verdict (w : browser)
  (certificateId : string) (st : VerifyPage.state)
  (server : Http.request -> Http.outcome string) :
  let request := Api.perform w (Api.diplomas_downloadPdfPublic certificateId) in
  let r := Http.result server
             (VerifyDownload.handleDownloadPdf w certificateId st) in
  let st' := fst (fst r) in
  (VerifyDownload.download_button (VerifyPage.render w certificateId st) = true
   <-> VerifyPage.presented_valid (VerifyPage.render w certificateId st) = true)
  /\ Http.trace server (VerifyDownload.handleDownloadPdf w certificateId st)
     = [request]
  /\ Http.req_method request = Http.GET
  /\ Http.req_url request
     = Api.API w +:+ "/diplomas/by-certificate/" +:+ certificateId
       +:+ "/download-pdf"
  /\ Http.req_headers request !! "Authorization" = None
  /\ Http.req_responseType request = Some "blob"
  /\ VerifyPage.downloading st' = false
  /\ VerifyPage.render w certificateId st' = VerifyPage.render w certificateId st
  /\ (forall pdf, server request = Http.Fulfilled pdf ->
        snd (fst r)
        = Some {| VerifyDownload.file_name :=
                    "certificado_" +:+ certificateId +:+ ".pdf";
                  VerifyDownload.content := pdf |})
  /\ (forall err, server request = Http.Rejected err -> snd (fst r) = None).
Proof.
  cbv zeta. split.
  { unfold VerifyPage.render.
    destruct (VerifyPage.loading st); [split; discriminate|].
    destruct (Js.truthy_opt (VerifyPage.error st)); [split; discriminate|].
    destruct (VerifyPage.data st); [|split; discriminate].
    cbn. destruct (VerifyPage.isValid st); tauto. }
  unfold VerifyDownload.handleDownloadPdf, Http.trace, Http.result.
  cbn [Http.run fst snd].
  destruct (server _) as [pdf|err] eqn:Hreply; cbn [Http.run fst snd].
  - split; [reflexivity|]. split; [reflexivity|]. split; [reflexivity|].
    split; [apply lookup_empty|]. split; [reflexivity|].
    split; [reflexivity|]. split; [reflexivity|]. split.
    + intros pdf' [= <-]. reflexivity.
    + intros err He. discriminate He.
  - split; [reflexivity|]. split; [reflexivity|]. split; [reflexivity|].
    split; [apply lookup_empty|]. split; [reflexivity|].
    split; [reflexivity|]. split; [reflexivity|]. split.
    + intros pdf Hp. discriminate Hp.
    + intros err' _. reflexivity.
Qed.

Lemma download_is_public_and_keeps_the_verdict_witness :
  snd (fst (Http.result Cases.serves_pdf
              (VerifyDownload.handleDownloadPdf Samples.signed_in "CERT-1"
                 VerifyPage.initial)))
  = Some {| VerifyDownload.file_name := "certificado_CERT-1.pdf";
            VerifyDownload.content := "%PDF-1.7" |}.
Proof.
  destruct (download_is_public_and_keeps_the_verdict Samples.signed_in "CERT-1"
              VerifyPage.initial Cases.serves_pdf)
    as (_ & _ & _ & _ & _ & _ & _ & _ & Hok & _).
  exact (Hok "%PDF-1.7" eq_refl).
Defined.

(** ** The course form *)

Lemma split_slash_then (id rest : string) :
  App.no_slash id = true ->
  App.split_slash (id +:+ String "/" rest) = id :: App.split_slash rest.
Proof.
  induction id as [|c id IH]; [reflexivity|].
  cbn [App.no_slash]. intros H. apply andb_prop in H as [Hc Hs].
  apply negb_true_iff in Hc.
  change (String c id +:+ String "/" rest)
    with (String c (id +:+ String "/" rest)).
  cbn [App.split_slash]. now rewrite Hc, (IH Hs).
Qed.

Lemma edit_route_matches (id : string) :
  id <> "" -> App.no_slash id = true ->
  App.matchRoutes App.AppRoutes (App.segments ("/courses/" +:+ id +:+ "/edit"))
  = Some (App.Route [App.Static "courses"; App.Param "id"; App.Static "edit"]
            (App.ProtectedRoute App.CourseForm),
          [("id", id)]).
Proof.
  intros Hne Hns.
  assert (Hseg : App.segments ("/courses/" +:+ id +:+ "/edit")
                 = ["courses"; id; "edit"]).
  { unfold App.segments. simpl.
    change ("" +:+ id +:+ "/edit") with (id +:+ "/edit").
    rewrite (split_slash_then id "edit" Hns). reflexivity. }
  rewrite Hseg. apply String.eqb_neq in Hne.
  unfold App.AppRoutes. cbn [App.matchRoutes App.matchPath App.path].
  destruct (App.lower "new" =? App.lower id); rewrite Hne; reflexivity.
Qed.

Lemma tokens_not_empty (s : string) (ts : list App.token) :
  s <> "" -> App.tokens s = Some ts -> App.bytes_of ts <> "".
Proof.
  destruct s as [|c s]; [contradiction|]. intros _. cbn [App.tokens].
  destruct (Ascii.eqb c "%").
  - destruct s as [|h [|l s]]; try discriminate.
    destruct (App.hex_digit h), (App.hex_digit l), (App.tokens s);
      try discriminate.
    intros [= <-]. discriminate.
  - destruct (App.tokens s); [|discriminate]. intros [= <-]. discriminate.
Qed.

Lemma decode_param_not_empty (s : string) :
  s <> "" -> App.decode_param s <> "".
Proof.
  intros Hne. unfold App.decode_param, App.decodeURIComponent.
  destruct (App.tokens s) as [ts|] eqn:Ht; [|assumption].
  destruct (App.utf8_ok 0 128 191 ts); [|assumption].
  exact (tokens_not_empty s ts Hne Ht).
Qed.

(** X29. The course form takes its mode from the address.  At
    [/courses/new] it opens without a request and its submit is a POST to
    [/courses]; at [/courses/<segment>/edit] its id is the segment with its
    escapes decoded (the segment itself when it has no percent sign), it
    opens with one GET to [/courses/<id>] and its submit is a PUT to the
    same address; both carry the form as their body.  A successful submit,
    like a failed load, sends the user to [/courses], where a signed-in
    user finds the course list; a failed submit navigates nowhere and
    shows the server's detail when there is one.  A loaded course fills
    the form with its name, instructor and hours, and with its
    description and dates, each of which is the empty text when the
    course has none. *)
Theorem course_form_follows_the_address (w : browser) (U : Type)
  (a : App.auth_state U) (segment : string) (st : CourseForm.state)
  (server : Http.request -> Http.outcome CourseForm.course)
  (store : Http.request -> Http.outcome Http.json) :
  segment <> "" -> App.no_slash segment = true ->
  App.loading a = false -> App.user a <> None ->
  let create := "/courses/new" in
  let edit := "/courses/" +:+ segment +:+ "/edit" in
  let id := App.decode_param segment in
  let body := Http.JsonBody (CourseForm.form_json (CourseForm.formData st)) in
  (App.render a create = App.InLayout App.CourseForm
   /\ CourseForm.id_of create = None
   /\ Http.run server (CourseForm.onMount w (CourseForm.id_of create))
      = ([], {| CourseForm.after := CourseForm.initial None;
                CourseForm.toasts := []; CourseForm.navigated := None |})
   /\ CourseForm.submit_request w (CourseForm.id_of create) st
      = Http.post (Api.API w +:+ "/courses")
          body (Http.with_headers (Api.getAuthHeader w)))
  /\ (App.render a edit = App.InLayout App.CourseForm
      /\ CourseForm.id_of edit = Some id
      /\ (App.url_plain segment = true -> id = segment)
      /\ Http.trace server (CourseForm.onMount w (CourseForm.id_of edit))
         = [Http.get (Api.API w +:+ "/courses/" +:+ id)
              (Http.with_headers (Api.getAuthHeader w))]
      /\ CourseForm.submit_request w (CourseForm.id_of edit) st
         = Http.put (Api.API w +:+ "/courses/" +:+ id)
             body (Http.with_headers (Api.getAuthHeader w))
      /\ CourseForm.fetching
           (CourseForm.after
              (Http.result server
                 (CourseForm.onMount w (CourseForm.id_of edit)))) = false)
  /\ (forall i,
        Http.trace store (CourseForm.handleSubmit w i st)
        = [CourseForm.submit_request w i st]
        /\ (forall j, store (CourseForm.submit_request w i st) = Http.Fulfilled j ->
              CourseForm.navigated
                (Http.result store (CourseForm.handleSubmit w i st))
              = Some "/courses"
              /\ App.render a "/courses" = App.InLayout App.Courses)
        /\ (forall err, store (CourseForm.submit_request w i st)
                        = Http.Rejected err ->
              CourseForm.navigated
                (Http.result store (CourseForm.handleSubmit w i st)) = None
              /\ CourseForm.formData
                   (CourseForm.after
                      (Http.result store (CourseForm.handleSubmit w i st)))
                 = CourseForm.formData st
              /\ forall detail, Http.err_detail err = Some detail ->
                   detail <> "" ->
                   CourseForm.toasts
                     (Http.result store (CourseForm.handleSubmit w i st))
                   = [Toast.Toast Toast.error (Toast.Raw detail)]))
  /\ (forall err,
        server (Api.perform w (Api.courses_getById id)) = Http.Rejected err ->
        CourseForm.navigated
          (Http.result server (CourseForm.onMount w (Some id)))
        = Some "/courses")
  /\ (forall c,
        server (Api.perform w (Api.courses_getById id)) = Http.Fulfilled c ->
        let f := CourseForm.formData
                   (CourseForm.after
                      (Http.result server (CourseForm.onMount w (Some id)))) in
        CourseForm.name f = CourseForm.course_name c
        /\ CourseForm.instructor f = CourseForm.course_instructor c
        /\ CourseForm.duration_hours f = CourseForm.course_duration_hours c
        /\ (forall text, CourseForm.course_description c = Some text ->
              CourseForm.description f = text)
        /\ (CourseForm.course_description c = None ->
            CourseForm.description f = "")
        /\ (forall day, CourseForm.course_start_date c = Some day ->
              CourseForm.start_date f = day)
        /\ (CourseForm.course_start_date c = None ->
            CourseForm.start_date f = "")
        /\ (forall day, CourseForm.course_end_date c = Some day ->
              CourseForm.end_date f = day)
        /\ (CourseForm.course_end_date c = None -> CourseForm.end_date f = "")).
Proof.
  intros Hne Hns Hload Huser. cbv zeta.
  assert (Hin : forall p, App.renderProtectedRoute a p = App.InLayout p).
  { intros p. unfold App.renderProtectedRoute. rewrite Hload.
    destruct (App.user a); [reflexivity|contradiction]. }
  assert (Hid : CourseForm.id_of ("/courses/" +:+ segment +:+ "/edit")
                = Some (App.decode_param segment)).
  { unfold CourseForm.id_of, App.useParams.
    now rewrite (edit_route_matches segment Hne Hns). }
  pose proof (proj2 (truthy_true _) (decode_param_not_empty segment Hne)) as Ht.
  split; [|split; [|split; [|split]]].
  - split; [apply (Hin App.CourseForm)|]. repeat split.
  - rewrite Hid. split.
    { unfold App.render. rewrite (edit_route_matches segment Hne Hns).
      apply (Hin App.CourseForm). }
    split; [reflexivity|].
    split; [apply url_plain_decode|].
    unfold CourseForm.onMount, CourseForm.submit_request, CourseForm.fetchCourse,
      Http.trace, Http.result.
    rewrite Ht. cbn [Http.run fst snd].
    destruct (server _); repeat split.
  - intros i. unfold CourseForm.handleSubmit, Http.trace, Http.result.
    cbn [Http.run fst snd].
    destruct (store (CourseForm.submit_request w i st)) as [j|err] eqn:Hs;
      cbn [Http.run fst snd].
    + split; [reflexivity|]. split.
      * intros j' _. split; [reflexivity|apply (Hin App.Courses)].
      * intros err He. discriminate He.
    + split; [reflexivity|]. split.
      * intros j Hj. discriminate Hj.
      * intros err' [= <-]. split; [reflexivity|]. split; [reflexivity|].
        intros detail Hd Hdne. cbn [CourseForm.toasts].
        unfold Toast.detail_or. rewrite Hd.
        now rewrite (proj2 (truthy_true detail) Hdne).
  - intros err Herr.
    unfold CourseForm.onMount, CourseForm.fetchCourse, Http.result.
    rewrite Ht. cbn [Http.run fst snd]. now rewrite Herr.
  - intros c Hc.
    unfold CourseForm.onMount, CourseForm.fetchCourse, Http.result.
    rewrite Ht. cbn [Http.run fst snd]. rewrite Hc. cbn.
    repeat split; try (intros ->; reflexivity); intros x ->; reflexivity.
Qed.

Lemma course_form_follows_the_address_witness :
  CourseForm.id_of "/courses/c%201/edit" = Some "c 1"
  /\ Http.trace Cases.serves_course
       (CourseForm.onMount Samples.signed_in
          (CourseForm.id_of "/courses/c%201/edit"))
     = [Http.get (Api.API Samples.signed_in +:+ "/courses/" +:+ "c 1")
          (Http.with_headers (Api.getAuthHeader Samples.signed_in))]
  /\ CourseForm.start_date
       (CourseForm.formData
          (CourseForm.after
             (Http.result Cases.serves_course
                (CourseForm.onMount Samples.signed_in (Some "c 1")))))
     = "2025-01-10".
Proof.
  destruct (course_form_follows_the_address Samples.signed_in string
              Samples.admin "c%201" (CourseForm.initial (Some "c 1"))
              Cases.serves_course Cases.accepts
              ltac:(discriminate) eq_refl eq_refl ltac:(discriminate))
    as (_ & (_ & Hid & _ & Htrace & _) & _ & _ & Hloaded).
  split; [exact Hid|]. split; [exact Htrace|].
  destruct (Hloaded Cases.algebra eq_refl) as (_ & _ & _ & _ & _ & Hstart & _).
  exact (Hstart "2025-01-10" eq_refl).
Defined.
